(** * Chatroom: the message freshness / polling protocol

    A shallow embedding of the chatroom's server controllers
    (controllers/main.js, routes/api.js, models/message.js) and of the
    browser client (public/javascripts/main.js), with the properties of
    the polling protocol proved about them.

    Conventions of the embedding:
    - a JavaScript value decoded from JSON is a [Json]; a value that may be
      [undefined] is an [option Json];
    - a JavaScript string is held as its text in UTF-8 (a [string] is a
      sequence of bytes); what the code does on characters ([trim], the
      [_] of LIKE, the length a validator measures) is done on the
      characters of that text;
    - a [Date] is its time value, milliseconds since the epoch, as a [Z];
      an invalid Date ([NaN] time value) is [None];
    - a thrown exception is the [Throw] case of [Result]; state changes made
      before the throw are kept, as in JavaScript;
    - every clock reading ([new Date()]) is an explicit input;
    - the server serves one request at a time: the interleaving of two
      handlers at their [await]s is not modelled. *)

From Stdlib Require Import ZArith List Bool Ascii String DecimalString Sorted Lia.
From stdpp Require Import base option gmap strings.
Import ListNotations.

Local Open Scope string_scope.
Local Open Scope Z_scope.
Set Warnings "-register-all".

(** ** JavaScript values *)

Inductive Json : Type :=
| JNull
| JBool (b : bool)
| JNum (n : Z)
| JStr (s : string)
| JArr (items : list Json)
| JObj (fields : list (string * Json)).

(** Outcome of a computation that may throw. *)
Inductive Result (A : Type) : Type :=
| Ok (a : A)
| Throw (e : string).
Arguments Ok {A} a.
Arguments Throw {A} e.

(** ** Texts *)

Module Utf8.

(** The bytes [10xxxxxx], which continue a character. *)
Definition continuation (b : ascii) : bool :=
  let n := nat_of_ascii b in
  ((128 <=? n)%nat && (n <=? 191)%nat).

(** [s] is empty or begins with the first byte of a character. *)
Definition starts_char (s : string) : bool :=
  match s with
  | EmptyString => true
  | String b _ => negb (continuation b)
  end.

(** The characters of a text, in order, each as its bytes: a character is
    a byte with the continuation bytes that follow it. *)
Fixpoint chars (s : string) : list string :=
  match s with
  | EmptyString => []
  | String b rest =>
      if starts_char rest then String b EmptyString :: chars rest
      else
        match chars rest with
        | ch :: more => String b ch :: more
        | [] => [String b EmptyString]
        end
  end.

(** The text made of the characters [l]. *)
Definition join (l : list string) : string := fold_right append EmptyString l.

(** The number of characters (code points) of a text. *)
Definition length (s : string) : nat := List.length (chars s).

(** [s] without the continuation bytes it begins with: after the first
    byte of a character, what follows that character. *)
Fixpoint skip_continuation (s : string) : string :=
  match s with
  | String b rest => if continuation b then skip_continuation rest else s
  | EmptyString => EmptyString
  end.

Definition byte (n : Z) : ascii := ascii_of_N (Z.to_N n).

(** The character with code point [cp]. *)
Definition encode (cp : Z) : string :=
  if cp <? 128 then String (byte cp) EmptyString
  else if cp <? 2048 then
    String (byte (192 + cp / 64)) (String (byte (128 + cp mod 64)) EmptyString)
  else if cp <? 65536 then
    String (byte (224 + cp / 4096))
      (String (byte (128 + cp / 64 mod 64)) (String (byte (128 + cp mod 64)) EmptyString))
  else
    String (byte (240 + cp / 262144))
      (String (byte (128 + cp / 4096 mod 64))
         (String (byte (128 + cp / 64 mod 64)) (String (byte (128 + cp mod 64)) EmptyString))).

(** The [length] of the JavaScript string, in UTF-16 code units: two for
    a character outside the basic plane (four bytes), one for any other. *)
Definition units (s : string) : nat :=
  fold_right (fun ch n => ((if (String.length ch =? 4)%nat then 2 else 1) + n)%nat) 0%nat
    (chars s).

End Utf8.

Module JS.

(** [!!v]: [undefined], [null], [false], [0] and [""] are falsy. *)
Definition truthy (v : option Json) : bool :=
  match v with
  | None | Some JNull => false
  | Some (JBool b) => b
  | Some (JNum n) => negb (n =? 0)
  | Some (JStr s) => negb (String.eqb s "")
  | Some (JArr _) | Some (JObj _) => true
  end.

Definition truthy_string (s : option string) : bool :=
  truthy (JStr <$> s).

Definition truthy_id (n : option Z) : bool :=
  truthy (JNum <$> n).

Fixpoint assoc (k : string) (fields : list (string * Json)) : option Json :=
  match fields with
  | [] => None
  | (k', v) :: rest => if String.eqb k k' then Some v else assoc k rest
  end.

(** [v.k] for a value decoded from JSON: reading a property of [null]
    throws a TypeError, a missing property is [undefined]. *)
Definition prop (v : Json) (k : string) : Result (option Json) :=
  match v with
  | JNull => Throw "TypeError"
  | JObj fields => Ok (assoc k fields)
  | JArr items =>
      Ok (if String.eqb k "length" then Some (JNum (Z.of_nat (List.length items)))
          else None)
  | JStr s =>
      Ok (if String.eqb k "length" then Some (JNum (Z.of_nat (Utf8.units s)))
          else None)
  | JBool _ | JNum _ => Ok None
  end.

(** [a || b] on values. *)
Definition or_else (a b : option Json) : option Json :=
  if truthy a then a else b.

Definition isArray (v : Json) : bool :=
  match v with JArr _ => true | _ => false end.

(** [a === b] on values decoded from JSON: primitives compare by value,
    two decoded arrays or objects are never the same object. *)
Definition strict_eq (a b : option Json) : bool :=
  match a, b with
  | None, None => true
  | Some JNull, Some JNull => true
  | Some (JBool x), Some (JBool y) => Bool.eqb x y
  | Some (JNum x), Some (JNum y) => x =? y
  | Some (JStr x), Some (JStr y) => String.eqb x y
  | _, _ => false
  end.

(** [String(v)], as [new Error(v)] builds its message. *)
Fixpoint to_string (v : Json) : string :=
  match v with
  | JNull => "null"
  | JBool b => if b then "true" else "false"
  | JNum n => NilZero.string_of_int (Z.to_int n)
  | JStr s => s
  | JArr items =>
      (fix join (l : list Json) : string :=
         match l with
         | [] => ""
         | x :: rest =>
             (match x with JNull => "" | _ => to_string x end)
             ++ match rest with [] => "" | _ :: _ => "," ++ join rest end
         end) items
  | JObj _ => "[object Object]"
  end.

(** The code points [String.prototype.trim] strips: the WhiteSpace of
    ECMAScript (TAB, VT, FF, the byte order mark U+FEFF and the space
    separators U+0020, U+00A0, U+1680, U+2000 to U+200A, U+202F, U+205F,
    U+3000) and its LineTerminator (LF, CR, U+2028, U+2029). *)
Definition white_space : list Z :=
  [9; 10; 11; 12; 13; 32; 160; 5760;
   8192; 8193; 8194; 8195; 8196; 8197; 8198; 8199; 8200; 8201; 8202;
   8232; 8233; 8239; 8287; 12288; 65279].

(** The character [ch] is white space. *)
Definition is_space (ch : string) : bool :=
  existsb (fun cp => String.eqb ch (Utf8.encode cp)) white_space.

Fixpoint trim_left (l : list string) : list string :=
  match l with
  | ch :: rest => if is_space ch then trim_left rest else l
  | [] => []
  end.

Fixpoint trim_right (l : list string) : list string :=
  match l with
  | ch :: rest =>
      match trim_right rest with
      | [] => if is_space ch then [] else [ch]
      | r => ch :: r
      end
  | [] => []
  end.

(** [String.prototype.trim]: the text without the white space characters
    at its two ends. *)
Definition trim (s : string) : string :=
  Utf8.join (trim_right (trim_left (Utf8.chars s))).

End JS.

(** ** Dates *)

Module Date.

Definition msPerDay : Z := 86400000.

(** Day number (days since 1970-01-01) to proleptic Gregorian
    (year, month, day). *)
Definition civil_from_days (days : Z) : Z * Z * Z :=
  let z := days + 719468 in
  let era := z / 146097 in
  let doe := z - era * 146097 in
  let yoe := (doe - doe / 1460 + doe / 36524 - doe / 146096) / 365 in
  let y := yoe + era * 400 in
  let doy := doe - (365 * yoe + yoe / 4 - yoe / 100) in
  let mp := (5 * doy + 2) / 153 in
  let d := doy - (153 * mp + 2) / 5 + 1 in
  let m := if mp <? 10 then mp + 3 else mp - 9 in
  (if m <=? 2 then y + 1 else y, m, d).

Definition days_from_civil (y m d : Z) : Z :=
  let y := if m <=? 2 then y - 1 else y in
  let era := y / 400 in
  let yoe := y - era * 400 in
  let doy := (153 * (if 2 <? m then m - 3 else m + 9) + 2) / 5 + d - 1 in
  let doe := yoe * 365 + yoe / 4 - yoe / 100 + doy in
  era * 146097 + doe - 719468.

Definition digit (n : Z) : ascii :=
  ascii_of_nat (48 + Z.to_nat (n mod 10)).

(** [n] in decimal on exactly [width] digits (the low ones). *)
Fixpoint pad (width : nat) (n : Z) : string :=
  match width with
  | O => EmptyString
  | S w => pad w (n / 10) ++ String (digit n) EmptyString
  end.

(** [Date.prototype.toISOString] of a valid time value:
    [YYYY-MM-DDTHH:mm:ss.sssZ], the year on six signed digits outside
    0..9999. *)
Definition toISOString (t : Z) : string :=
  let days := t / msPerDay in
  let ms := t mod msPerDay in
  let '(y, m, d) := civil_from_days days in
  let year :=
    if (0 <=? y) && (y <=? 9999) then pad 4 y
    else if y <? 0 then "-" ++ pad 6 (- y) else "+" ++ pad 6 y in
  year ++ "-" ++ pad 2 m ++ "-" ++ pad 2 d ++ "T" ++
  pad 2 (ms / 3600000) ++ ":" ++ pad 2 (ms / 60000 mod 60) ++ ":" ++
  pad 2 (ms / 1000 mod 60) ++ "." ++ pad 3 (ms mod 1000) ++ "Z".

(** [new Date(s)] for a string [s]: the time value, or [None] for an
    invalid Date.  Which strings parse, beyond the ISO format, is left to
    the JavaScript engine, so the parser is a parameter of the server. *)
Class Parser := parse : string -> option Z.

(** A parser for the format [toISOString] writes (four-digit years). *)
Definition digit_val (c : ascii) : option Z :=
  let n := nat_of_ascii c in
  if ((48 <=? n)%nat && (n <=? 57)%nat) then Some (Z.of_nat n - 48) else None.

Fixpoint number (acc : Z) (cs : list ascii) : option Z :=
  match cs with
  | [] => Some acc
  | c :: rest =>
      match digit_val c with
      | Some v => number (acc * 10 + v) rest
      | None => None
      end
  end.

Definition parse_iso (s : string) : option Z :=
  match list_ascii_of_string s with
  | [y1; y2; y3; y4; "-"; m1; m2; "-"; d1; d2; "T"; h1; h2; ":"; n1; n2; ":"; s1; s2;
     "."; f1; f2; f3; "Z"]%char =>
      y ← number 0 [y1; y2; y3; y4];
      m ← number 0 [m1; m2];
      d ← number 0 [d1; d2];
      h ← number 0 [h1; h2];
      n ← number 0 [n1; n2];
      sec ← number 0 [s1; s2];
      f ← number 0 [f1; f2; f3];
      if (1 <=? m) && (m <=? 12) && (1 <=? d) && (d <=? 31) && (h <=? 23)
         && (n <=? 59) && (sec <=? 59)
      then Some (days_from_civil y m d * msPerDay
                 + h * 3600000 + n * 60000 + sec * 1000 + f)
      else None
  | _ => None
  end.

(** [a > b] on Dates: a comparison with an invalid Date is false. *)
Definition gt (a b : option Z) : bool :=
  match a, b with
  | Some x, Some y => y <? x
  | _, _ => false
  end.

End Date.

(** ** The relational store (models/message.js, models/user.js)

    The Sequelize models, as tables in memory, with the semantics of the
    model methods the controllers call.  The store is reliable: a call
    throws only where the model definitions make it throw (the validation
    of [Message.text]). *)

Record MessageRow : Type := {
  m_id : Z;
  m_text : string;
  m_user_id : Z;
  m_createdAt : Z;
  m_updatedAt : Z
}.

Record UserRow : Type := {
  u_firstName : string;
  u_lastName : string;
  u_email : string;
  u_password : string
}.

Record Store : Type := {
  messages : list MessageRow;
  users : gmap Z UserRow;
  nextId : Z
}.

Module Sql.

(** Modelled from the spec: the collation LIKE compares characters with
    belongs to the database configured in models/index.js, which is not
    among the sources.  The spec and the documentation of
    [getMessagesByText] call the search case-insensitive: two characters
    match when they are equal up to the case of ASCII letters. *)
Definition lower (c : ascii) : ascii :=
  let n := nat_of_ascii c in
  if ((65 <=? n)%nat && (n <=? 90)%nat) then ascii_of_nat (n + 32) else c.

(** [text LIKE pattern] with no escape character: [%] matches any run of
    characters, [_] any one character (its first byte and the
    continuation bytes after it), every other character itself up to
    [lower].  The bytes of a literal character are matched one by one,
    and [%] tries every run of bytes, which on texts are the runs of
    characters: no character begins inside another. *)
Fixpoint like (pattern : string) : string -> bool :=
  match pattern with
  | EmptyString =>
      fun text => match text with EmptyString => true | String _ _ => false end
  | String c p =>
      if Ascii.eqb c "%" then
        fix star (text : string) : bool :=
          like p text
          || match text with
             | EmptyString => false
             | String _ rest => star rest
             end
      else if Ascii.eqb c "_" then
        fun text =>
          match text with
          | EmptyString => false
          | String _ rest => like p (Utf8.skip_continuation rest)
          end
      else
        fun text =>
          match text with
          | EmptyString => false
          | String d rest => Ascii.eqb (lower c) (lower d) && like p rest
          end
  end.

End Sql.

(** ** validator.js

    The validators the models name, which Sequelize takes from
    validator.js: the library is a parameter of the model.  [isLength s
    min max] is what [len: [min, max]] asks of [s].  The library measures a
    text in characters, a character outside the basic plane counting
    once; its versions differ on the variation selectors U+FE0E and
    U+FE0F, which the later ones leave out of the count.  So the measure
    is fixed on the texts without these two characters, where it is the
    number of characters, and left to the library on the others. *)
Module validator.

(** The character [ch] is a variation selector U+FE0E or U+FE0F. *)
Definition selector (ch : string) : bool :=
  String.eqb ch (Utf8.encode 65038) || String.eqb ch (Utf8.encode 65039).

(** The text has no variation selector. *)
Definition plain (s : string) : bool :=
  forallb (fun ch => negb (selector ch)) (Utf8.chars s).

Class Lib : Type := {
  isEmail : string -> bool;
  isAlpha : string -> bool;
  isLength : string -> nat -> nat -> bool;
  isEmail_empty : isEmail EmptyString = false;
  isLength_plain : forall (s : string) (min max : nat),
    plain s = true ->
    isLength s min max = ((min <=? Utf8.length s)%nat && (Utf8.length s <=? max)%nat)
}.

End validator.

Module Message.

Section Model.

Context `{validator.Lib}.

(** [validate: { len: [1, 500] }] of models/message.js. *)
Definition valid_text (t : string) : bool := validator.isLength t 1 500.

Definition validation_error : string :=
  "Validation error: Validation len on text failed".

(** [where: { id, user_id }]; a null [user_id] matches no row. *)
Definition matches (id : Z) (user_id : option Z) (m : MessageRow) : bool :=
  match user_id with
  | Some u => (m_id m =? id) && (m_user_id m =? u)
  | None => false
  end.

(** [Message.create({ text, user_id })]; [createdAt] and [updatedAt] are
    stamped with the clock reading [now] of the request. *)
Definition create (text : string) (user_id : Z) (now : Z) (st : Store)
  : Result MessageRow * Store :=
  if valid_text text then
    let m := {| m_id := nextId st; m_text := text; m_user_id := user_id;
                m_createdAt := now; m_updatedAt := now |} in
    (Ok m, {| messages := messages st ++ [m]; users := users st;
              nextId := nextId st + 1 |})
  else (Throw validation_error, st).

(** [Message.destroy({ where: { id, user_id } })]: the number of rows
    destroyed. *)
Definition destroy (id : Z) (user_id : option Z) (st : Store)
  : Result nat * Store :=
  (Ok (List.length (List.filter (matches id user_id) (messages st))),
   {| messages := List.filter (fun m => negb (matches id user_id m)) (messages st);
      users := users st; nextId := nextId st |}).

Definition set_text (text : option string) (now : Z) (m : MessageRow) : MessageRow :=
  {| m_id := m_id m;
     m_text := match text with Some t => t | None => m_text m end;
     m_user_id := m_user_id m;
     m_createdAt := m_createdAt m;
     m_updatedAt := now |}.

(** [Message.update({ text }, { where: { id, user_id } })]: the text
    given is validated first, the rows that match get it and a new
    [updatedAt], and the result is their number.  An [undefined] text is
    left out of the values, and with nothing but [updatedAt] to set
    Sequelize skips the UPDATE and reports no row. *)
Definition update (text : option string) (id : Z) (user_id : option Z) (now : Z)
    (st : Store) : Result nat * Store :=
  match text with
  | Some t =>
      if valid_text t then
        (Ok (List.length (List.filter (matches id user_id) (messages st))),
         {| messages :=
              List.map (fun m => if matches id user_id m then set_text text now m else m)
                       (messages st);
            users := users st; nextId := nextId st |})
      else (Throw validation_error, st)
  | None => (Ok 0%nat, st)
  end.

End Model.

Definition findOne (id : Z) (user_id : option Z) (st : Store)
  : Result (option MessageRow) * Store :=
  (Ok (List.find (matches id user_id) (messages st)), st).

(** [Message.findAll({ include: User })]: every row with its author, when
    the author exists. *)
Definition findAll (st : Store) : Result (list (MessageRow * option UserRow)) * Store :=
  (Ok (List.map (fun m => (m, users st !! m_user_id m)) (messages st)), st).

(** [Message.findAll({ where: { text: { [Op.like]: pattern } }, include: User })]. *)
Definition findAll_like (pattern : string) (st : Store)
  : Result (list (MessageRow * option UserRow)) * Store :=
  (Ok (List.map (fun m => (m, users st !! m_user_id m))
         (List.filter (fun m => Sql.like pattern (m_text m)) (messages st))), st).

(** [message.toJSON()]. *)
Definition toJSON (m : MessageRow) : list (string * Json) :=
  [("id", JNum (m_id m)); ("text", JStr (m_text m)); ("user_id", JNum (m_user_id m));
   ("createdAt", JStr (Date.toISOString (m_createdAt m)));
   ("updatedAt", JStr (Date.toISOString (m_updatedAt m)))].

End Message.

Module User.

Definition findByPk (id : Z) (st : Store) : Result (option UserRow) * Store :=
  (Ok (users st !! id), st).

End User.

(** ** The server process (controllers/main.js) *)

(** [req.session]. *)
Record Session : Type := {
  userId : option Z;
  isLoggedIn : bool;
  fullName : option string;
  lastUpdate : option Z
}.

Definition new_session : Session :=
  {| userId := None; isLoggedIn := false; fullName := None; lastUpdate := None |}.

(** The process: the store, the module variable [lastServerUpdate] (the
    watermark) and the session store of express-session. *)
Record Server : Type := {
  db : Store;
  lastServerUpdate : Z;
  sessions : gmap string Session
}.

(** The parts of [req] the controllers read: the session cookie, the
    [:id] of the URL (an integer; a segment that is not one matches no
    row, as an integer absent from the table does), [req.body.text] and
    [req.query.text] when they are strings, and the [Last-Update] header. *)
Record Request : Type := {
  sessionID : string;
  params_id : Z;
  body_text : option string;
  query_text : option string;
  header_last_update : option string
}.

Record Response : Type := {
  status : Z;
  body : Json
}.

(** One request being handled: the process and [res]. *)
Record Exchange : Type := {
  srv : Server;
  res : option Response
}.

(** A controller: it may change the process, answer, and throw. *)
Definition Handler (A : Type) : Type := Exchange -> Result A * Exchange.

#[export] Instance Handler_ret : MRet Handler := fun A a x => (Ok a, x).

#[export] Instance Handler_bind : MBind Handler := fun A B f m x =>
  match m x with
  | (Ok a, x') => f a x'
  | (Throw e, x') => (Throw e, x')
  end.

(** [req.session] as the process holds it. *)
Definition session_of (s : Server) (req : Request) : Session :=
  default new_session (sessions s !! sessionID req).

Module Express.

(** [try { body } catch (err) { handler }]. *)
Definition try_catch {A : Type} (body : Handler A) (handler : string -> Handler A)
  : Handler A :=
  fun x =>
    match body x with
    | (Ok a, x') => (Ok a, x')
    | (Throw e, x') => handler e x'
    end.

Definition with_srv (f : Server -> Server) (x : Exchange) : Exchange :=
  {| srv := f (srv x); res := res x |}.

(** A call of a model method. *)
Definition query {A : Type} (q : Store -> Result A * Store) : Handler A :=
  fun x =>
    let '(r, st) := q (db (srv x)) in
    (r, with_srv (fun s => {| db := st; lastServerUpdate := lastServerUpdate s;
                              sessions := sessions s |}) x).

Definition session (req : Request) : Handler Session :=
  fun x => (Ok (session_of (srv x) req), x).

Definition set_session (req : Request) (f : Session -> Session) : Handler unit :=
  fun x =>
    (Ok tt,
     with_srv (fun s =>
       {| db := db s; lastServerUpdate := lastServerUpdate s;
          sessions :=
            <[sessionID req := f (session_of s req)]> (sessions s) |}) x).

Definition read_lastServerUpdate : Handler Z :=
  fun x => (Ok (lastServerUpdate (srv x)), x).

Definition write_lastServerUpdate (t : Z) : Handler unit :=
  fun x =>
    (Ok tt,
     with_srv (fun s => {| db := db s; lastServerUpdate := t;
                           sessions := sessions s |}) x).

(** [res.status(code).json(body)]. *)
Definition send (code : Z) (b : Json) : Handler unit :=
  fun x => (Ok tt, {| srv := srv x; res := Some {| status := code; body := b |} |}).

Definition error (msg : string) : Json := JObj [("error", JStr msg)].

End Express.

Import Express.

Section Controllers.

Context `{Date.Parser} `{validator.Lib}.

(** [logout]. *)
Definition logout (req : Request) : Handler unit :=
  set_session req (fun s =>
    {| userId := None; isLoggedIn := false; fullName := None;
       lastUpdate := lastUpdate s |});;
  send 200 (JObj [("message", JStr "Logged out successfully")]).

(** A message with its author, as both listings return it. *)
Definition withFullName (r : MessageRow * option UserRow) : Result Json :=
  match snd r with
  | Some u =>
      Ok (JObj (Message.toJSON (fst r) ++
                [("User", JObj [("firstName", JStr (u_firstName u));
                                ("lastName", JStr (u_lastName u))]);
                 ("fullName", JStr (u_firstName u ++ " " ++ u_lastName u))]))
  | None => Throw "TypeError"
  end.

(** [messages.map(..)] of the two listings. *)
Fixpoint map_messages (rs : list (MessageRow * option UserRow)) : Result (list Json) :=
  match rs with
  | [] => Ok []
  | r :: rest =>
      match withFullName r with
      | Ok j =>
          match map_messages rest with
          | Ok js => Ok (j :: js)
          | Throw e => Throw e
          end
      | Throw e => Throw e
      end
  end.

(** [getAllMessages]: the full fetch. *)
Definition getAllMessages (req : Request) (now : Z) : Handler unit :=
  try_catch
    (msgs ← query Message.findAll;
     set_session req (fun s =>
       {| userId := userId s; isLoggedIn := isLoggedIn s; fullName := fullName s;
          lastUpdate := Some now |});;
     messagesWithFullNames ← (fun x => (map_messages msgs, x));
     send 200 (JArr messagesWithFullNames))
    (fun err => send 500 (error "Internal server error")).

(** [deleteMessage]; [now] is what [new Date()] returns while the request
    is served, here and below. *)
Definition deleteMessage (req : Request) (now : Z) : Handler unit :=
  try_catch
    (let messageId := params_id req in
     s ← session req;
     let user_id := userId s in
     deletedMessage ← query (Message.destroy messageId user_id);
     if (deletedMessage =? 0)%nat then
       send 404 (error "Message not found")
     else
       write_lastServerUpdate now;;
       send 200 (JObj [("message", JStr "Message deleted successfully")]))
    (fun err => send 500 (error "Internal server error")).

(** [updateMessage]: the answer is sent before the watermark is set. *)
Definition updateMessage (req : Request) (now : Z) : Handler unit :=
  try_catch
    (let messageId := params_id req in
     let text := body_text req in
     s ← session req;
     let user_id := userId s in
     updated ← query (Message.update text messageId user_id now);
     if negb (updated =? 0)%nat then
       updatedMessage ← query (Message.findOne messageId user_id);
       send 200 (match updatedMessage with
                 | Some m => JObj (Message.toJSON m)
                 | None => JNull
                 end);;
       write_lastServerUpdate now
     else
       send 404 (error "Message not found"))
    (fun err => send 500 (error "Internal server error")).

(** [createMessage]: the test [!text || !user_id], then the [try] block. *)
Definition createMessage (req : Request) (now : Z) : Handler unit :=
  let text := body_text req in
  s ← session req;
  let user_id := userId s in
  match text, user_id with
  | Some t, Some uid =>
      if JS.truthy_string text && JS.truthy_id user_id then
        try_catch
          (user ← query (User.findByPk uid);
           match user with
           | None => send 400 (error "Invalid user_id")
           | Some _ =>
               message ← query (Message.create t uid now);
               write_lastServerUpdate now;;
               send 201 (JObj (Message.toJSON message))
           end)
          (fun err =>
             send 400 (error (if String.eqb err "" then "Error creating message"
                              else err)))
      else send 400 (error "Both text and user_id are required.")
  | _, _ => send 400 (error "Both text and user_id are required.")
  end.

(** [verifyUserSession]. *)
Definition verifyUserSession (req : Request) : Handler unit :=
  s ← session req;
  if JS.truthy_id (userId s) then
    send 200 (JObj [("authenticated", JBool true);
                    ("sessionId", JStr (sessionID req));
                    ("userId", match userId s with Some u => JNum u | None => JNull end)])
  else
    send 401 (JObj [("message", JStr "No active session")]).

(** [getMessagesByText]: the search text goes into the pattern as it is. *)
Definition getMessagesByText (req : Request) : Handler unit :=
  try_catch
    (let searchText := query_text req in
     match searchText with
     | Some q =>
         if JS.truthy_string searchText then
           msgs ← query (Message.findAll_like ("%" ++ q ++ "%"));
           messagesWithFullNames ← (fun x => (map_messages msgs, x));
           send 200 (JArr messagesWithFullNames)
         else send 400 (error "Search text is required")
     | None => send 400 (error "Search text is required")
     end)
    (fun err => send 500 (error "Internal server error")).

(** The cursor the poll compares with: the header parsed as a Date, the
    epoch when the header is absent, empty or not a valid Date. *)
Definition lastClientUpdate (req : Request) : Handler (option Z) :=
  try_catch
    (let d := if JS.truthy_string (header_last_update req)
              then match header_last_update req with
                   | Some h => Date.parse h
                   | None => Some 0
                   end
              else Some 0 in
     mret (match d with
           | None => Some 0
           | Some t => Some t
           end))
    (fun err => mret (Some 0)).

(** [checkMessages]: the polling endpoint. *)
Definition checkMessages (req : Request) (now : Z) : Handler unit :=
  try_catch
    (lastClientUpdate ← lastClientUpdate req;
     lastServerUpdate ← read_lastServerUpdate;
     let hasUpdates := Date.gt (Some lastServerUpdate) lastClientUpdate in
     send 200 (JObj [("hasUpdates", JBool hasUpdates);
                     ("lastCheck", JStr (Date.toISOString now))]))
    (fun err =>
       send 500 (JObj [("error", JStr "Error checking for message updates");
                       ("details", JStr err)])).

(** [requireAuth], the middleware in front of the routes below it. *)
Definition requireAuth (req : Request) (next : Handler unit) : Handler unit :=
  s ← session req;
  if negb (JS.truthy_id (userId s)) then
    send 401 (JObj [("message", JStr "Session expired")])
  else next.

(** ** The router (routes/api.js) *)

Inductive Route : Type :=
| GET_verifyUserSession
| GET_message
| DELETE_message
| PUT_message
| POST_message
| GET_logout
| GET_searchMessagesByText
| GET_checkMessages.

Definition api (r : Route) (req : Request) (now : Z) : Handler unit :=
  match r with
  | GET_verifyUserSession => verifyUserSession req
  | GET_message => requireAuth req (getAllMessages req now)
  | DELETE_message => requireAuth req (deleteMessage req now)
  | PUT_message => requireAuth req (updateMessage req now)
  | POST_message => requireAuth req (createMessage req now)
  | GET_logout => requireAuth req (logout req)
  | GET_searchMessagesByText => requireAuth req (getMessagesByText req)
  | GET_checkMessages => requireAuth req (checkMessages req now)
  end.

(** One request served by the process at time [now]. *)
Definition serve (r : Route) (req : Request) (now : Z) (s : Server)
  : option Response * Server :=
  let x := snd (api r req now {| srv := s; res := None |}) in
  (res x, srv x).

End Controllers.

(** ** The browser client (public/javascripts/main.js) *)

(** A [fetch] call: the route of the URL and what the call sends. *)
Record FetchCall : Type := {
  f_route : Route;
  f_id : Z;
  f_text : option string;
  f_query : option string;
  f_last_update : option string
}.

Definition GET (r : Route) : FetchCall :=
  {| f_route := r; f_id := 0; f_text := None; f_query := None; f_last_update := None |}.

(** What [await fetch(..)] gives: a rejection (no answer from the network)
    or a response with its [ok] flag and its body, [None] when the body
    is not JSON (then [response.json()] rejects). *)
Inductive FetchResult : Type :=
| Rejected
| Resolved (ok : bool) (json : option Json).

(** Programs that wait on the outside world: the free monad over [fetch]
    and the clock. *)
Inductive Prog (A : Type) : Type :=
| Ret (a : A)
| Fetch (call : FetchCall) (k : FetchResult -> Prog A)
| NewDate (k : Z -> Prog A).
Arguments Ret {A} a.
Arguments Fetch {A} call k.
Arguments NewDate {A} k.

Fixpoint prog_bind {A B : Type} (p : Prog A) (f : A -> Prog B) : Prog B :=
  match p with
  | Ret a => f a
  | Fetch call k => Fetch call (fun r => prog_bind (k r) f)
  | NewDate k => NewDate (fun t => prog_bind (k t) f)
  end.

(** A child of the [#messages] list. *)
Record MessageElement : Type := {
  el_fullName : option Json;
  el_text : option Json;
  el_timestamp : option Json;
  (** the record the Edit and Delete buttons act on, on the user's own
      messages *)
  el_buttons : option Json
}.

Inductive Item : Type :=
| Placeholder (textContent : string)
| Card (e : MessageElement).

(** The page: the module variables and the parts of the DOM the module
    writes. *)
Record Client : Type := {
  messagesList : list Item;
  dataset_lastUpdate : option string;
  currentUserId : option Json;
  pollingTimer : option Z;
  location_href : option string;
  notifications : list (string * string);
  console : list string;
  messageInput : string;
  editMessageInput : string;
  editModal : bool;
  deleteModal : bool
}.

Definition initial_client : Client :=
  {| messagesList := []; dataset_lastUpdate := None; currentUserId := Some JNull;
     pollingTimer := None; location_href := None; notifications := []; console := [];
     messageInput := ""; editMessageInput := ""; editModal := false;
     deleteModal := false |}.

(** An [async] function of the module. *)
Definition Async (A : Type) : Type := Client -> Prog (Result A * Client).

#[export] Instance Async_ret : MRet Async := fun A a c => Ret (Ok a, c).

#[export] Instance Async_bind : MBind Async := fun A B f m c =>
  prog_bind (m c) (fun rc =>
    match fst rc with
    | Ok a => f a (snd rc)
    | Throw e => Ret (Throw e, snd rc)
    end).

Module Browser.

Definition try_catch {A : Type} (body : Async A) (handler : string -> Async A)
  : Async A :=
  fun c =>
    prog_bind (body c) (fun rc =>
      match fst rc with
      | Ok a => Ret (Ok a, snd rc)
      | Throw e => handler e (snd rc)
      end).

Definition throw {A : Type} (e : string) : Async A := fun c => Ret (Throw e, c).

Definition lift {A : Type} (r : Result A) : Async A := fun c => Ret (r, c).

Definition read : Async Client := fun c => Ret (Ok c, c).

Definition write (f : Client -> Client) : Async unit := fun c => Ret (Ok tt, f c).

(** [await fetch(..)]: a rejection is thrown. *)
Definition fetch (call : FetchCall) : Async (bool * option Json) :=
  fun c =>
    Fetch call (fun r =>
      match r with
      | Rejected => Ret (Throw "TypeError: Failed to fetch", c)
      | Resolved ok j => Ret (Ok (ok, j), c)
      end).

(** [await response.json()]. *)
Definition json (response : bool * option Json) : Async Json :=
  match snd response with
  | Some j => mret j
  | None => throw "SyntaxError"
  end.

Definition new_Date : Async Z := fun c => NewDate (fun t => Ret (Ok t, c)).

Definition set_messagesList (l : list Item) (c : Client) : Client :=
  {| messagesList := l; dataset_lastUpdate := dataset_lastUpdate c;
     currentUserId := currentUserId c; pollingTimer := pollingTimer c;
     location_href := location_href c; notifications := notifications c;
     console := console c; messageInput := messageInput c;
     editMessageInput := editMessageInput c; editModal := editModal c;
     deleteModal := deleteModal c |}.

Definition set_lastUpdate (v : string) (c : Client) : Client :=
  {| messagesList := messagesList c; dataset_lastUpdate := Some v;
     currentUserId := currentUserId c; pollingTimer := pollingTimer c;
     location_href := location_href c; notifications := notifications c;
     console := console c; messageInput := messageInput c;
     editMessageInput := editMessageInput c; editModal := editModal c;
     deleteModal := deleteModal c |}.

Definition set_currentUserId (v : option Json) (c : Client) : Client :=
  {| messagesList := messagesList c; dataset_lastUpdate := dataset_lastUpdate c;
     currentUserId := v; pollingTimer := pollingTimer c;
     location_href := location_href c; notifications := notifications c;
     console := console c; messageInput := messageInput c;
     editMessageInput := editMessageInput c; editModal := editModal c;
     deleteModal := deleteModal c |}.

Definition set_pollingTimer (v : option Z) (c : Client) : Client :=
  {| messagesList := messagesList c; dataset_lastUpdate := dataset_lastUpdate c;
     currentUserId := currentUserId c; pollingTimer := v;
     location_href := location_href c; notifications := notifications c;
     console := console c; messageInput := messageInput c;
     editMessageInput := editMessageInput c; editModal := editModal c;
     deleteModal := deleteModal c |}.

Definition set_location (v : string) (c : Client) : Client :=
  {| messagesList := messagesList c; dataset_lastUpdate := dataset_lastUpdate c;
     currentUserId := currentUserId c; pollingTimer := pollingTimer c;
     location_href := Some v; notifications := notifications c;
     console := console c; messageInput := messageInput c;
     editMessageInput := editMessageInput c; editModal := editModal c;
     deleteModal := deleteModal c |}.

Definition add_notification (n : string * string) (c : Client) : Client :=
  {| messagesList := messagesList c; dataset_lastUpdate := dataset_lastUpdate c;
     currentUserId := currentUserId c; pollingTimer := pollingTimer c;
     location_href := location_href c; notifications := notifications c ++ [n];
     console := console c; messageInput := messageInput c;
     editMessageInput := editMessageInput c; editModal := editModal c;
     deleteModal := deleteModal c |}.

Definition add_console (line : string) (c : Client) : Client :=
  {| messagesList := messagesList c; dataset_lastUpdate := dataset_lastUpdate c;
     currentUserId := currentUserId c; pollingTimer := pollingTimer c;
     location_href := location_href c; notifications := notifications c;
     console := console c ++ [line]; messageInput := messageInput c;
     editMessageInput := editMessageInput c; editModal := editModal c;
     deleteModal := deleteModal c |}.

Definition set_messageInput (v : string) (c : Client) : Client :=
  {| messagesList := messagesList c; dataset_lastUpdate := dataset_lastUpdate c;
     currentUserId := currentUserId c; pollingTimer := pollingTimer c;
     location_href := location_href c; notifications := notifications c;
     console := console c; messageInput := v;
     editMessageInput := editMessageInput c; editModal := editModal c;
     deleteModal := deleteModal c |}.

Definition set_editModal (v : bool) (c : Client) : Client :=
  {| messagesList := messagesList c; dataset_lastUpdate := dataset_lastUpdate c;
     currentUserId := currentUserId c; pollingTimer := pollingTimer c;
     location_href := location_href c; notifications := notifications c;
     console := console c; messageInput := messageInput c;
     editMessageInput := editMessageInput c; editModal := v;
     deleteModal := deleteModal c |}.

Definition set_deleteModal (v : bool) (c : Client) : Client :=
  {| messagesList := messagesList c; dataset_lastUpdate := dataset_lastUpdate c;
     currentUserId := currentUserId c; pollingTimer := pollingTimer c;
     location_href := location_href c; notifications := notifications c;
     console := console c; messageInput := messageInput c;
     editMessageInput := editMessageInput c; editModal := editModal c;
     deleteModal := v |}.

End Browser.

Import Browser.

Module Main.

Definition POLLING_INTERVAL : Z := 10000.

Definition showNotification (message type : string) : Async unit :=
  write (add_notification (message, type)).

Definition console_error (line : string) : Async unit :=
  write (add_console line).

(** [v.k] inside an [async] function. *)
Definition prop (v : Json) (k : string) : Async (option Json) :=
  lift (JS.prop v k).

(** [new Error(v || fallback).message]. *)
Definition error_message (v : option Json) (fallback : string) : string :=
  match JS.or_else v (Some (JStr fallback)) with
  | Some j => JS.to_string j
  | None => fallback
  end.

Definition checkSession : Async bool :=
  try_catch
    (response ← fetch (GET GET_verifyUserSession);
     data ← json response;
     authenticated ← prop data "authenticated";
     if negb (JS.truthy authenticated) then
       write (set_location "/login");;
       mret false
     else
       userId ← prop data "userId";
       write (set_currentUserId userId);;
       mret true)
    (fun err =>
       console_error "Session check failed:";;
       mret false).

Definition createMessageElement (currentUserId : option Json) (message : Json)
  : Result MessageElement :=
  match JS.prop message "fullName", JS.prop message "text",
        JS.prop message "createdAt", JS.prop message "user_id" with
  | Ok fullName, Ok text, Ok createdAt, Ok user_id =>
      Ok {| el_fullName := fullName;
            el_text := text;
            el_timestamp := if JS.truthy createdAt then createdAt else None;
            el_buttons := if JS.strict_eq user_id currentUserId
                          then Some message else None |}
  | Throw e, _, _, _ | _, Throw e, _, _ | _, _, Throw e, _ | _, _, _, Throw e =>
      Throw e
  end.

Definition addMessage (message : Json) : Async unit :=
  c ← read;
  messageElement ← lift (createMessageElement (currentUserId c) message);
  write (fun c => set_messagesList (messagesList c ++ [Card messageElement]) c).

(** [messages.forEach(addMessage)]. *)
Fixpoint forEach (messages : list Json) : Async unit :=
  match messages with
  | [] => mret tt
  | m :: rest => addMessage m;; forEach rest
  end.

Definition displayMessages (messages : Json) : Async unit :=
  write (set_messagesList []);;
  length ← prop messages "length";
  if negb (JS.truthy length) then
    write (fun c => set_messagesList (messagesList c ++ [Placeholder "No messages found"]) c)
  else
    match messages with
    | JArr items => forEach items
    | _ => throw "TypeError"
    end.

Definition fetchMessages : Async unit :=
  try_catch
    (response ← fetch (GET GET_message);
     data ← json response;
     messages ←
       (if JS.isArray data then mret data
        else
          m ← prop data "messages";
          mret (match JS.or_else m (Some (JArr [])) with
                | Some v => v
                | None => JArr []
                end));
     displayMessages messages;;
     now ← new_Date;
     write (set_lastUpdate (Date.toISOString now)))
    (fun err =>
       showNotification "Failed to fetch messages" "danger";;
       console_error "Error fetching messages:").

Definition sendMessage (messageText : string) : Async unit :=
  try_catch
    (response ← fetch {| f_route := POST_message; f_id := 0;
                         f_text := Some messageText; f_query := None;
                         f_last_update := None |};
     data ← json response;
     if (fst response : bool) then
       write (set_messagesList []);;
       fetchMessages;;
       showNotification "Message sent successfully" "success"
     else
       e ← prop data "error";
       throw (error_message e "Error sending message"))
    (fun err =>
       showNotification err "danger";;
       console_error "Error sending message:").

Definition deleteMessage (messageId : Z) : Async unit :=
  try_catch
    (response ← fetch {| f_route := DELETE_message; f_id := messageId;
                         f_text := None; f_query := None; f_last_update := None |};
     (if (fst response : bool) then
        write (set_messagesList []);;
        fetchMessages;;
        showNotification "Message deleted successfully" "success"
      else
        data ← json response;
        write (set_deleteModal false);;
        e ← prop data "error";
        throw (error_message e "Error deleting message"));;
     write (set_deleteModal false))
    (fun err =>
       showNotification err "danger";;
       console_error "Error deleting message:").

(** [saveUpdatedMessage(message)], for the record with id [message_id]. *)
Definition saveUpdatedMessage (message_id : Z) : Async unit :=
  c ← read;
  let updatedText := JS.trim (editMessageInput c) in
  if String.eqb updatedText "" then
    showNotification "Message cannot be empty" "danger"
  else
    try_catch
      (response ← fetch {| f_route := PUT_message; f_id := message_id;
                           f_text := Some updatedText; f_query := None;
                           f_last_update := None |};
       if (fst response : bool) then
         write (set_messagesList []);;
         fetchMessages;;
         write (set_editModal false);;
         showNotification "Message updated successfully" "success"
       else
         data ← json response;
         write (set_editModal false);;
         e ← prop data "error";
         throw (error_message e "Error updating message"))
      (fun err =>
         showNotification err "danger";;
         console_error "Error updating message:").

Definition searchMessagesByText (searchText : string) : Async unit :=
  try_catch
    (response ← fetch {| f_route := GET_searchMessagesByText; f_id := 0;
                         f_text := None; f_query := Some searchText;
                         f_last_update := None |};
     messages ← json response;
     (if negb (fst response : bool) then
        write (set_editModal false);;
        e ← prop messages "error";
        throw (error_message e "Error updating message")
      else mret tt);;
     displayMessages (if JS.isArray messages then messages else JArr []))
    (fun err =>
       showNotification ("Error searching messages: " ++ err) "danger";;
       console_error "Error searching messages:";;
       fetchMessages).

Definition checkForNewMessages : Async unit :=
  try_catch
    (checkSession;;
     c ← read;
     response ← fetch {| f_route := GET_checkMessages; f_id := 0; f_text := None;
                         f_query := None;
                         f_last_update :=
                           Some (if JS.truthy_string (dataset_lastUpdate c)
                                 then default "0" (dataset_lastUpdate c)
                                 else "0") |};
     data ← json response;
     (if negb (fst response : bool) then
        write (set_editModal false);;
        e ← prop data "error";
        throw (error_message e "Error updating message")
      else mret tt);;
     hasUpdates ← prop data "hasUpdates";
     if JS.truthy hasUpdates then fetchMessages else mret tt)
    (fun err => console_error "Error checking for message updates:").

(** The click handler of the search button of the modal: it starts the
    search and does not wait for it. *)
Definition handleSearchMessagesButton : Async unit :=
  c ← read;
  let searchText := JS.trim (editMessageInput c) in
  if negb (String.eqb searchText "") then
    searchMessagesByText searchText;;
    write (set_editModal false)
  else
    showNotification "Please enter search text" "warning".

(** The submit handler of the message form. *)
Definition onSubmit : Async unit :=
  c ← read;
  let messageText := JS.trim (messageInput c) in
  if negb (String.eqb messageText "") then
    sendMessage messageText;;
    write (set_messageInput "")
  else mret tt.

Definition startMessagePolling : Async unit :=
  checkForNewMessages;;
  write (set_pollingTimer (Some POLLING_INTERVAL)).

Definition stopMessagePolling : Async unit :=
  c ← read;
  match pollingTimer c with
  | Some _ => write (set_pollingTimer None)
  | None => mret tt
  end.

(** The [DOMContentLoaded] handler of [init]. *)
Definition init : Async unit :=
  checkSession;;
  fetchMessages;;
  startMessagePolling.

End Main.

(** ** Running a program *)

(** What the outside world answers, in order. *)
Inductive Answer : Type :=
| Network (r : FetchResult)
| Clock (t : Z).

(** [run p script]: the result of [p], the [fetch] calls it made and the
    answers left over; [None] when the script does not fit the program. *)
Fixpoint run {A : Type} (p : Prog A) (script : list Answer)
  : option (A * list FetchCall * list Answer) :=
  match p with
  | Ret a => Some (a, [], script)
  | Fetch call k =>
      match script with
      | Network r :: rest =>
          match run (k r) rest with
          | Some (a, calls, remaining) => Some (a, call :: calls, remaining)
          | None => None
          end
      | _ => None
      end
  | NewDate k =>
      match script with
      | Clock t :: rest => run (k t) rest
      | _ => None
      end
  end.

(** The same program with the server of this repository at the other end:
    [cookie] is the session cookie the browser sends, [readings] the values
    the successive clock readings return (the server reads its clock once
    per request). *)
Definition to_request (cookie : string) (call : FetchCall) : Request :=
  {| sessionID := cookie; params_id := f_id call; body_text := f_text call;
     query_text := f_query call; header_last_update := f_last_update call |}.

Definition to_result (r : option Response) : FetchResult :=
  match r with
  | Some r => Resolved ((200 <=? status r) && (status r <=? 299)) (Some (body r))
  | None => Rejected
  end.

(** A request as it reaches the process: its route, its content and the
    reading of the server clock while it is served. *)
Record Call : Type := {
  route : Route;
  request : Request;
  time : Z
}.

(** A call served: its response and the process after it. *)
Record Served : Type := {
  call : Call;
  response : option Response;
  after : Server
}.

Definition serve_call `{Date.Parser} `{validator.Lib} (c : Call) (s : Server) : Served :=
  let rs := serve (route c) (request c) (time c) s in
  {| call := c; response := fst rs; after := snd rs |}.

(** A [fetch] call of the page with cookie [cookie], reaching the server
    at time [t]. *)
Definition arriving (cookie : string) (f : FetchCall) (t : Z) : Call :=
  {| route := f_route f; request := to_request cookie f; time := t |}.

Fixpoint connect `{Date.Parser} `{validator.Lib} {A : Type} (p : Prog A) (cookie : string)
    (readings : list Z) (s : Server) : option (A * list Served * Server * list Z) :=
  match p with
  | Ret a => Some (a, [], s, readings)
  | Fetch f k =>
      match readings with
      | t :: rest =>
          let h := serve_call (arriving cookie f t) s in
          match connect (k (to_result (response h))) cookie rest (after h) with
          | Some (a, served, s', remaining) => Some (a, h :: served, s', remaining)
          | None => None
          end
      | [] => None
      end
  | NewDate k =>
      match readings with
      | t :: rest => connect (k t) cookie rest s
      | [] => None
      end
  end.

(** ** Vocabulary of the properties *)

(** The request comes with a session that [requireAuth] lets through. *)
Definition authenticated (s : Server) (req : Request) : Prop :=
  JS.truthy_id (userId (session_of s req)) = true.

(** The cursor a poll carries: the time value of its [Last-Update] header,
    the epoch when the header is absent, empty or not a valid Date. *)
Definition cursor `{Date.Parser} (req : Request) : Z :=
  match header_last_update req with
  | None => 0
  | Some h => if String.eqb h "" then 0 else default 0 (Date.parse h)
  end.

(** The answer of the polling endpoint. *)
Definition poll_answer (hasUpdates : bool) (now : Z) : Response :=
  {| status := 200;
     body := JObj [("hasUpdates", JBool hasUpdates);
                   ("lastCheck", JStr (Date.toISOString now))] |}.

(** The history of a process serving [calls] in order. *)
Fixpoint history `{Date.Parser} `{validator.Lib} (calls : list Call) (s : Server) : list Served :=
  match calls with
  | [] => []
  | c :: rest => serve_call c s :: history rest (after (serve_call c s))
  end.

Definition is_write (r : Route) : bool :=
  match r with
  | POST_message | PUT_message | DELETE_message => true
  | _ => false
  end.

(** The response reports success (2xx). *)
Definition succeeded (r : option Response) : bool :=
  match r with
  | Some r => (200 <=? status r) && (status r <=? 299)
  | None => false
  end.

(** The text of a request is present and fails the validation of the
    model (it is empty or longer than 500 characters). *)
Definition fails_validation `{validator.Lib} (text : option string) : Prop :=
  exists t, text = Some t /\ Message.valid_text t = false.

(** No message with the id named by the request belongs to the user of
    its session. *)
Definition names_no_own_message (s : Server) (req : Request) : Prop :=
  Forall (fun m => Message.matches (params_id req) (userId (session_of s req)) m = false)
         (messages (db s)).

Definition not_found : Response :=
  {| status := 404; body := Express.error "Message not found" |}.

(** The list [displayMessages] builds from an array of records, none of
    them [null], for the current user [cur]: the placeholder when the array
    is empty, one card per record otherwise. *)
Definition field (m : Json) (k : string) : option Json :=
  match JS.prop m k with
  | Ok v => v
  | Throw _ => None
  end.

Definition element (cur : option Json) (m : Json) : MessageElement :=
  {| el_fullName := field m "fullName";
     el_text := field m "text";
     el_timestamp := if JS.truthy (field m "createdAt") then field m "createdAt" else None;
     el_buttons := if JS.strict_eq (field m "user_id") cur then Some m else None |}.

Definition rendering (cur : option Json) (msgs : list Json) : list Item :=
  match msgs with
  | [] => [Placeholder "No messages found"]
  | _ :: _ => map (fun m => Card (element cur m)) msgs
  end.

(** The page after a full refetch that received [msgs] and completed at
    local time [t]. *)
Definition refreshed (msgs : list Json) (t : Z) (c : Client) : Client :=
  set_lastUpdate (Date.toISOString t)
    (set_messagesList (rendering (currentUserId c) msgs) c).

(** The [Last-Update] header a poll of the page carries. *)
Definition held_cursor (c : Client) : string :=
  if JS.truthy_string (dataset_lastUpdate c) then default "0" (dataset_lastUpdate c)
  else "0".

Definition poll_call (c : Client) : FetchCall :=
  {| f_route := GET_checkMessages; f_id := 0; f_text := None; f_query := None;
     f_last_update := Some (held_cursor c) |}.

Definition post_call (text : string) : FetchCall :=
  {| f_route := POST_message; f_id := 0; f_text := Some text; f_query := None;
     f_last_update := None |}.

Definition put_call (id : Z) (text : string) : FetchCall :=
  {| f_route := PUT_message; f_id := id; f_text := Some text; f_query := None;
     f_last_update := None |}.

Definition delete_call (id : Z) : FetchCall :=
  {| f_route := DELETE_message; f_id := id; f_text := None; f_query := None;
     f_last_update := None |}.


(** Every message of the store has its author in the store. *)
Definition authors_exist (st : Store) : Prop :=
  Forall (fun m => is_Some (users st !! m_user_id m)) (messages st).

(** The record a listing returns for a message. *)
Definition record (us : gmap Z UserRow) (m : MessageRow) : Json :=
  match withFullName (m, us !! m_user_id m) with
  | Ok j => j
  | Throw _ => JNull
  end.

(** What the full fetch lists for a store. *)
Definition listing (st : Store) : list Json :=
  map (record (users st)) (messages st).

(** The user's own writes. *)
Inductive Write : Type :=
| Send (text : string)
| Save (id : Z)
| Delete (id : Z).

Definition perform (w : Write) : Async unit :=
  match w with
  | Send text => Main.sendMessage text
  | Save id => Main.saveUpdatedMessage id
  | Delete id => Main.deleteMessage id
  end.

Definition write_call (w : Write) (c : Client) : FetchCall :=
  match w with
  | Send text => post_call text
  | Save id => put_call id (JS.trim (editMessageInput c))
  | Delete id => delete_call id
  end.

(** The page after its own write [w] and the refetch that follows. *)
Definition after_write (w : Write) (msgs : list Json) (t : Z) (c : Client) : Client :=
  match w with
  | Send _ =>
      add_notification ("Message sent successfully", "success") (refreshed msgs t c)
  | Save _ =>
      add_notification ("Message updated successfully", "success")
        (set_editModal false (refreshed msgs t c))
  | Delete _ =>
      set_deleteModal false
        (add_notification ("Message deleted successfully", "success") (refreshed msgs t c))
  end.






(** The page after its own write [w] was answered with the error [msg]. *)
Definition rejected (w : Write) (msg : string) (c : Client) : Client :=
  match w with
  | Send _ =>
      add_console "Error sending message:" (add_notification (msg, "danger") c)
  | Save _ =>
      add_console "Error updating message:"
        (add_notification (msg, "danger") (set_editModal false c))
  | Delete _ =>
      add_console "Error deleting message:"
        (add_notification (msg, "danger") (set_deleteModal false c))
  end.

(** ** Worked examples *)

Module Examples.

#[local] Instance iso : Date.Parser := Date.parse_iso.

Definition alice : UserRow :=
  {| u_firstName := "Alice"; u_lastName := "Liddell"; u_email := "alice@example.org";
     u_password := "$2b$10$hash" |}.

Definition bob : UserRow :=
  {| u_firstName := "Bob"; u_lastName := "Builder"; u_email := "bob@example.org";
     u_password := "$2b$10$hash" |}.

Definition hello : MessageRow :=
  {| m_id := 1; m_text := "Hello there"; m_user_id := 2;
     m_createdAt := 1717200000000; m_updatedAt := 1717200000000 |}.

Definition as_user (u : Z) : Session :=
  {| userId := Some u; isLoggedIn := true; fullName := None; lastUpdate := None |}.

(** Alice (user 1) and Bob (user 2) are logged in; Bob has written one
    message, at 2024-06-01T00:00:00Z. *)
Definition server0 : Server :=
  {| db := {| messages := [hello]; users := {[ 1 := alice; 2 := bob ]}; nextId := 2 |};
     lastServerUpdate := 1717200000000;
     sessions := {[ "sid-alice" := as_user 1; "sid-bob" := as_user 2 ]} |}.

Definition poll (cursor : option string) : Request :=
  {| sessionID := "sid-alice"; params_id := 0; body_text := None; query_text := None;
     header_last_update := cursor |}.

(** Alice asks to change the text of message [id]. *)
Definition edit (id : Z) (text : option string) : Request :=
  {| sessionID := "sid-alice"; params_id := id; body_text := text; query_text := None;
     header_last_update := None |}.

(** Alice posts a message. *)
Definition post (text : option string) : Request :=
  {| sessionID := "sid-alice"; params_id := 0; body_text := text; query_text := None;
     header_last_update := None |}.

(** Alice deletes message [id]. *)
Definition remove (id : Z) : Request :=
  {| sessionID := "sid-alice"; params_id := id; body_text := None; query_text := None;
     header_last_update := None |}.

(** A run: Alice posts, polls, and deletes her message. *)
Definition a_run : list Call :=
  [ {| route := POST_message; request := post (Some "Hi all"); time := 1717200005000 |};
    {| route := GET_checkMessages; request := poll (Some "2024-06-01T00:00:01.000Z");
       time := 1717200006000 |};
    {| route := DELETE_message; request := remove 2; time := 1717200007000 |} ].

Definition two_polls : list Call :=
  [ {| route := GET_checkMessages; request := poll (Some "2024-06-01T00:00:01.000Z");
       time := 1717200006000 |};
    {| route := GET_checkMessages; request := poll (Some "2024-06-01T00:00:01.000Z");
       time := 1717200016000 |} ].

(** What the network answers to a session check, a poll and a full
    fetch, as the page of Alice sees them. *)
Definition session_answer : FetchResult :=
  Resolved true (Some (JObj [("authenticated", JBool true);
                             ("sessionId", JStr "sid-alice"); ("userId", JNum 1)])).

Definition updates_answer : Json :=
  JObj [("hasUpdates", JBool true); ("lastCheck", JStr "2024-06-01T00:00:06.000Z")].

Definition one_message : list Json :=
  [record (users (db server0)) hello].

(** Alice searches for a text. *)
Definition search (text : string) : Request :=
  {| sessionID := "sid-alice"; params_id := 0; body_text := None;
     query_text := Some text; header_last_update := None |}.

End Examples.

(** * The rest of the controllers and of the page *)

(** ** Vocabulary: ownership and the store *)

(** The message belongs to the user of the session ([null] owns nothing). *)
Definition owned_by (user_id : option Z) (m : MessageRow) : bool :=
  match user_id with
  | Some u => m_user_id m =? u
  | None => false
  end.

(** The messages of everybody else. *)
Definition of_others (user_id : option Z) (ms : list MessageRow) : list MessageRow :=
  List.filter (fun m => negb (owned_by user_id m)) ms.

Definition session_expired : Response :=
  {| status := 401; body := JObj [("message", JStr "Session expired")] |}.

(** A text made of the one character [c]. *)
Fixpoint all_chars (c : ascii) (q : string) : Prop :=
  match q with
  | EmptyString => True
  | String d rest => d = c /\ all_chars c rest
  end.

(** The ids of the messages are distinct (the primary key of the table). *)
Definition ids_distinct (st : Store) : Prop :=
  NoDup (map m_id (messages st)).

(** The ids in use are below the next id the store hands out. *)
Definition ids_below_next (st : Store) : Prop :=
  Forall (fun m => m_id m < nextId st) (messages st).

(** ** Vocabulary: the page *)

(** The text has nothing but white space characters. *)
Definition blank (s : string) : bool := forallb JS.is_space (Utf8.chars s).

(** The poll answer tells the page that there are updates. *)
Definition signals_updates (p : FetchResult) : Prop :=
  exists (data : Json) (v : option Json),
    p = Resolved true (Some data)
    /\ JS.prop data "hasUpdates" = Ok v
    /\ JS.truthy v = true.

(** The full fetch brought no list: the network failed, the body was not
    JSON, or it was [null]. *)
Definition no_list (p : FetchResult) : Prop :=
  p = Rejected \/ (exists ok, p = Resolved ok None) \/ (exists ok, p = Resolved ok (Some JNull)).


(** The user the cookie [cookie] is signed in as. *)
Definition user_of (s : Server) (cookie : string) : option Z :=
  userId (default new_session (sessions s !! cookie)).

(** The cursor of the poll the page [c] sends. *)
Definition page_cursor `{Date.Parser} (c : Client) : Z :=
  cursor (to_request "" (poll_call c)).

(** The name the listings give the author of a message. *)
Definition author_name (us : gmap Z UserRow) (m : MessageRow) : string :=
  match us !! m_user_id m with
  | Some u => u_firstName u ++ " " ++ u_lastName u
  | None => ""
  end.

(** The card of a message on the page of user [u]: author, text, creation
    time, and the Edit and Delete buttons on the user's own messages. *)
Definition card (us : gmap Z UserRow) (u : Z) (m : MessageRow) : Item :=
  Card {| el_fullName := Some (JStr (author_name us m));
          el_text := Some (JStr (m_text m));
          el_timestamp := Some (JStr (Date.toISOString (m_createdAt m)));
          el_buttons := if m_user_id m =? u then Some (record us m) else None |}.

(** * The pages: registration and login

    controllers/register.js, controllers/login.js, controllers/middlewares.js,
    the page handlers of controllers/main.js, models/user.js and the page
    routers (routes/index.js, routes/users.js).

    Conventions, besides those above:
    - a field of a posted form is a string, or absent: a field given twice,
      or a JSON body with values of other types, is not modelled;
    - the [user] cookie is the object [setRegisterCookies] writes, or absent;
    - the salt [bcrypt.hash] draws is an explicit input, like a clock
      reading;
    - bcrypt, the validators of validator.js and the comparison the database
      uses on the [email] column are parameters of the model. *)

(** ** Regular expressions *)

Module RegExp.

(** The patterns the two literals of [validRegisterEmailAndName] are made
    of; [Never] matches nothing and only arises in derivatives. *)
Inductive Pattern : Type :=
| Never
| Eps
| Class (p : ascii -> bool)
| Seq (a b : Pattern)
| Star (a : Pattern).

(** [a+]. *)
Definition Plus (a : Pattern) : Pattern := Seq a (Star a).

(** A character range [lo-hi] of a class. *)
Definition range (lo hi : ascii) (c : ascii) : bool :=
  ((nat_of_ascii lo <=? nat_of_ascii c)%nat && (nat_of_ascii c <=? nat_of_ascii hi)%nat).

(** A single character. *)
Definition char (x : ascii) (c : ascii) : bool := Ascii.eqb x c.

Fixpoint nullable (r : Pattern) : bool :=
  match r with
  | Never | Class _ => false
  | Eps | Star _ => true
  | Seq a b => nullable a && nullable b
  end.

(** The pattern of what may follow [c]; the two ways through a sequence
    are tried one after the other by [matches_from]. *)
Fixpoint derive (c : ascii) (r : Pattern) : list Pattern :=
  match r with
  | Never | Eps => []
  | Class p => if p c then [Eps] else []
  | Seq a b =>
      (map (fun a' => Seq a' b) (derive c a) ++ (if nullable a then derive c b else []))%list
  | Star a => map (fun a' => Seq a' (Star a)) (derive c a)
  end.

(** Whether one of the patterns [rs] matches all of [s]. *)
Fixpoint matches_from (rs : list Pattern) (s : string) : bool :=
  match s with
  | EmptyString => existsb nullable rs
  | String c rest => matches_from (flat_map (derive c) rs) rest
  end.

(** [String(v)] for a value that may be [undefined]. *)
Definition to_str (v : option string) : string := default "undefined" v.

(** [/^r$/.test(v)]: the argument is converted to a string first. *)
Definition test (r : Pattern) (v : option string) : bool :=
  matches_from [r] (to_str v).

(** What a pattern matches. *)
Inductive Matches : Pattern -> string -> Prop :=
| Matches_Eps : Matches Eps ""
| Matches_Class (p : ascii -> bool) (c : ascii) :
    p c = true -> Matches (Class p) (String c "")
| Matches_Seq (a b : Pattern) (s t : string) :
    Matches a s -> Matches b t -> Matches (Seq a b) (s ++ t)
| Matches_Star_nil (a : Pattern) : Matches (Star a) ""
| Matches_Star_cons (a : Pattern) (s t : string) :
    Matches a s -> Matches (Star a) t -> Matches (Star a) (s ++ t).

End RegExp.

(** Every character of [s] is in the class [p]. *)
Fixpoint all_in (p : ascii -> bool) (s : string) : bool :=
  match s with
  | EmptyString => true
  | String c rest => p c && all_in p rest
  end.

(** A word of a class: one character or more, all in the class. *)
Definition word_of (p : ascii -> bool) (w : string) : Prop :=
  w <> "" /\ all_in p w = true.

(** ** utility/consts.js *)

Module consts.

Definition DEFAULT_REGISTER_MESSAGE : string := "Register".
Definition ERROR_EMAIL_EXISTS : string := "Email already exists".
Definition ERROR_INVALID_USER : string := "Email or password invalid".
Definition ERROR_NOT_MATCH_PASSWORD : string := "Passwords do not match please try again ".
Definition INVALID_EMAIL : string := "Invalid email address".
Definition INVALID_FIRST_NAME : string := "Invalid First Name".
Definition INVALID_LAST_NAME : string := "Invalid Last Name".
Definition PAGE_TITLE_LOGIN : string := "Please sign in".
Definition PAGE_TITLE_REGISTER : string := "Please Register".
Definition PAGE_TITLE_REGISTER_PASSWORD : string := "Please Choose a password".
Definition SUCCESSFUL_REGISTER : string := "Registration successful, you can now login".
Definition TAB_LOGIN : string := "Login".
Definition TAB_MAIN : string := "ChatRoom".
Definition TAB_REGISTER : string := "Register".

End consts.

(** ** The libraries *)

(** bcrypt: [hash(data, rounds)], with the salt it draws as an argument,
    and [compare(data, encrypted)], which accepts the hash of the same
    data. *)
Module bcrypt.

Class Lib : Type := {
  hash : string -> Z -> string -> string;
  compare : string -> string -> bool;
  compare_hash : forall (data : string) (rounds : Z) (salt : string),
    compare data (hash data rounds salt) = true
}.

End bcrypt.

(** How the database compares two values of the [email] column, in a
    [WHERE email = ..] as in its unique index: an equivalence. *)
Class Collation : Type := {
  same : string -> string -> bool;
  same_refl : forall a : string, same a a = true;
  same_sym : forall a b : string, same a b = same b a;
  same_trans : forall a b c : string, same a b = true -> same b c = true -> same a c = true
}.

(** ** Exceptions *)

(** What the page handlers catch: an [Error] with its message, and the
    errors of Sequelize, a [ValidationError] of a model and the refusal of
    a query. *)
Inductive Thrown : Type :=
| Error (message : string)
| ValidationError
| QueryError.

Inductive Outcome (A : Type) : Type :=
| Done (a : A)
| Raise (e : Thrown).

Arguments Done {A} a.
Arguments Raise {A} e.

(** ** models/user.js *)

Module UserModel.

(** The values [User.create] is given. *)
Record Values : Type := {
  v_email : string;
  v_firstName : string;
  v_lastName : string;
  v_password : option string
}.


(** The id of the next row: users are never deleted, so it is one more
    than the largest id. *)
Definition next_id (us : gmap Z UserRow) : Z :=
  1 + foldr Z.max 0 (map fst (map_to_list us)).

Section Model.

Context `{bcrypt.Lib} `{validator.Lib} `{Collation}.

(** The validator [len: [lo, hi]]. *)
Definition len (lo hi : nat) (s : string) : bool := validator.isLength s lo hi.

(** [User.findOne({ where: { email } })].  The emails of the rows are
    distinct in a database with the unique index of the model, so that the
    order the rows are tried in does not show. *)
Definition findOne (email : string) (st : Store) : option (Z * UserRow) :=
  List.find (fun r => same (u_email (snd r)) email) (map_to_list (users st)).

(** The validators of the model: [isAlpha] and [len] on both names,
    [isEmail] and the custom [isEmailExist] on the email, and
    [allowNull: false] on the password. *)
Definition validate (v : Values) (st : Store) : bool :=
  validator.isAlpha (v_firstName v) && len 3 32 (v_firstName v)
  && validator.isAlpha (v_lastName v) && len 3 32 (v_lastName v)
  && validator.isEmail (v_email v)
  && match findOne (v_email v) st with Some _ => false | None => true end
  && match v_password v with Some _ => true | None => false end.

(** [User.create(values)]: the validators, then the [beforeCreate] hook
    that hashes the password with 10 rounds, then the insertion. *)
Definition create (v : Values) (salt : string) (st : Store)
  : Outcome (Z * UserRow) * Store :=
  if validate v st then
    let saltRounds := 10 in
    let row := {| u_firstName := v_firstName v; u_lastName := v_lastName v;
                  u_email := v_email v;
                  u_password := bcrypt.hash (default "" (v_password v)) saltRounds salt |} in
    let id := next_id (users st) in
    (Done (id, row),
     {| messages := messages st; users := <[id := row]> (users st); nextId := nextId st |})
  else (Raise ValidationError, st).

End Model.

End UserModel.

(** ** Page requests and answers *)

(** The [user] cookie: [JSON.stringify] leaves out the properties that are
    [undefined]. *)
Record UserCookie : Type := {
  c_email : option string;
  c_firstName : option string;
  c_lastName : option string;
  c_error : string
}.

Record CookieOptions : Type := {
  httpOnly : bool;
  maxAge : Z
}.

(** A page request: the session cookie, the fields of the form and the
    [user] cookie. *)
Record Form : Type := {
  form_sessionID : string;
  body_email : option string;
  body_password : option string;
  body_confirmPassword : option string;
  body_firstName : option string;
  body_lastName : option string;
  cookies_user : option UserCookie
}.

(** A value handed to a view. *)
Inductive Local : Type :=
| Str (s : string)
| Undefined
| MessageOf (e : Thrown).

(** [e.message]: the text of an [Error]; the text Sequelize gives its own
    errors is not modelled. *)
Definition message_of (e : Thrown) : Local :=
  match e with
  | Error m => Str m
  | _ => MessageOf e
  end.

Inductive Reply : Type :=
| Render (view : string) (locals : list (string * Local))
| Redirect (status : Z) (location : string).

(** A page request being served: the process, the answer so far, the
    cookies set and the cookies cleared. *)
Record Visit : Type := {
  v_srv : Server;
  v_reply : option Reply;
  v_cookies : list (string * UserCookie * CookieOptions);
  v_cleared : list string
}.

(** A page handler. *)
Definition Page (A : Type) : Type := Visit -> Outcome A * Visit.

#[export] Instance Page_ret : MRet Page := fun A a x => (Done a, x).

#[export] Instance Page_bind : MBind Page := fun A B f m x =>
  match m x with
  | (Done a, x') => f a x'
  | (Raise e, x') => (Raise e, x')
  end.

(** [req.session] of a page request. *)
Definition form_session (s : Server) (req : Form) : Session :=
  default new_session (sessions s !! form_sessionID req).

Module Http.

Definition try_catch {A : Type} (body : Page A) (handler : Thrown -> Page A) : Page A :=
  fun x =>
    match body x with
    | (Done a, x') => (Done a, x')
    | (Raise e, x') => handler e x'
    end.

Definition throw {A : Type} (e : Thrown) : Page A := fun x => (Raise e, x).

Definition with_srv (f : Server -> Server) (x : Visit) : Visit :=
  {| v_srv := f (v_srv x); v_reply := v_reply x; v_cookies := v_cookies x;
     v_cleared := v_cleared x |}.

(** A call of a model method. *)
Definition query {A : Type} (q : Store -> Outcome A * Store) : Page A :=
  fun x =>
    let '(r, st) := q (db (v_srv x)) in
    (r, with_srv (fun s => {| db := st; lastServerUpdate := lastServerUpdate s;
                              sessions := sessions s |}) x).

Definition session (req : Form) : Page Session :=
  fun x => (Done (form_session (v_srv x) req), x).

Definition set_session (req : Form) (f : Session -> Session) : Page unit :=
  fun x =>
    (Done tt,
     with_srv (fun s =>
       {| db := db s; lastServerUpdate := lastServerUpdate s;
          sessions := <[form_sessionID req := f (form_session s req)]> (sessions s) |}) x).

(** [res.render(view, locals)]. *)
Definition render (view : string) (locals : list (string * Local)) : Page unit :=
  fun x =>
    (Done tt,
     {| v_srv := v_srv x; v_reply := Some (Render view locals); v_cookies := v_cookies x;
        v_cleared := v_cleared x |}).

(** [res.redirect(status, location)]; the status is 302 when not given. *)
Definition redirect (status : Z) (location : string) : Page unit :=
  fun x =>
    (Done tt,
     {| v_srv := v_srv x; v_reply := Some (Redirect status location);
        v_cookies := v_cookies x; v_cleared := v_cleared x |}).

(** [res.cookie(name, value, options)]. *)
Definition cookie (name : string) (value : UserCookie) (options : CookieOptions)
  : Page unit :=
  fun x =>
    (Done tt,
     {| v_srv := v_srv x; v_reply := v_reply x;
        v_cookies := (v_cookies x ++ [(name, value, options)])%list;
        v_cleared := v_cleared x |}).

(** [res.clearCookie(name)]. *)
Definition clearCookie (name : string) : Page unit :=
  fun x =>
    (Done tt,
     {| v_srv := v_srv x; v_reply := v_reply x; v_cookies := v_cookies x;
        v_cleared := (v_cleared x ++ [name])%list |}).

End Http.


(** ** controllers/register.js *)

Module Register.

Section Register.

Import Http.

Context `{bcrypt.Lib} `{validator.Lib} `{Collation}.

Definition returnToHomePage : Page unit := redirect 302 "/login".

Definition extractRegisterCookies (req : Form) : string * string * string :=
  match cookies_user req with
  | Some userCookie =>
      (default "" (c_email userCookie), default "" (c_firstName userCookie),
       default "" (c_lastName userCookie))
  | None => ("", "", "")
  end.

Definition getRegisterPage (req : Form) : Page unit :=
  let '(email, firstName, lastName) := extractRegisterCookies req in
  render "register"
    [("message", Str consts.DEFAULT_REGISTER_MESSAGE);
     ("pageTitle", Str consts.PAGE_TITLE_REGISTER);
     ("email", Str email); ("firstName", Str firstName); ("lastName", Str lastName);
     ("error", Str ""); ("tabTitle", Str consts.TAB_REGISTER)].

Definition extractRegisterBody (req : Form)
  : option string * option string * option string :=
  (body_email req, body_firstName req, body_lastName req).

Definition setRegisterCookies (email firstName lastName : option string) : Page unit :=
  cookie "user"
    {| c_email := email; c_firstName := firstName; c_lastName := lastName; c_error := "" |}
    {| httpOnly := true; maxAge := 30 * 1000 |}.

(** [/^[a-zA-Z0-9._-]+@[a-zA-Z0-9.-]+$/]. *)
Definition local_part (c : ascii) : bool :=
  RegExp.range "a" "z" c || RegExp.range "A" "Z" c || RegExp.range "0" "9" c
  || RegExp.char "." c || RegExp.char "_" c || RegExp.char "-" c.

Definition domain_part (c : ascii) : bool :=
  RegExp.range "a" "z" c || RegExp.range "A" "Z" c || RegExp.range "0" "9" c
  || RegExp.char "." c || RegExp.char "-" c.

Definition emailRegex : RegExp.Pattern :=
  RegExp.Seq (RegExp.Plus (RegExp.Class local_part))
    (RegExp.Seq (RegExp.Class (RegExp.char "@"))
       (RegExp.Plus (RegExp.Class domain_part))).

(** [/^[A-Za-z]+(?: [A-Za-z]+)*$/]. *)
Definition letter (c : ascii) : bool :=
  RegExp.range "A" "Z" c || RegExp.range "a" "z" c.

Definition nameRegex : RegExp.Pattern :=
  RegExp.Seq (RegExp.Plus (RegExp.Class letter))
    (RegExp.Star (RegExp.Seq (RegExp.Class (RegExp.char " "))
                    (RegExp.Plus (RegExp.Class letter)))).

Definition validRegisterEmailAndName (email firstName lastName : option string)
  : Page unit :=
  (if negb (RegExp.test emailRegex email) then throw (Error consts.INVALID_EMAIL)
   else mret tt);;
  (if negb (RegExp.test nameRegex firstName) then throw (Error consts.INVALID_FIRST_NAME)
   else mret tt);;
  if negb (RegExp.test nameRegex lastName) then throw (Error consts.INVALID_LAST_NAME)
  else mret tt.

(** [User.findOne({ where: { email: email } })] for a value that may be
    [undefined], which Sequelize refuses. *)
Definition findOne_where (email : option string) (st : Store)
  : Outcome (option (Z * UserRow)) * Store :=
  match email with
  | Some e => (Done (UserModel.findOne e st), st)
  | None => (Raise QueryError, st)
  end.

Definition postRegisterPasswordPage (req : Form) : Page unit :=
  let '(email, firstName, lastName) := extractRegisterBody req in
  try_catch
    (user ← query (findOne_where email);
     (match user with
      | Some _ => throw (Error consts.ERROR_EMAIL_EXISTS)
      | None => mret tt
      end);;
     validRegisterEmailAndName email firstName lastName;;
     setRegisterCookies email firstName lastName;;
     render "register-password"
       [("message", Str consts.DEFAULT_REGISTER_MESSAGE);
        ("pageTitle", Str consts.PAGE_TITLE_REGISTER_PASSWORD);
        ("error", Str ""); ("tabTitle", Str consts.TAB_REGISTER)])
    (fun e =>
       render "register"
         [("message", Str ""); ("pageTitle", Str consts.PAGE_TITLE_REGISTER);
          ("email", Str ""); ("firstName", Str ""); ("lastName", Str "");
          ("error", message_of e); ("tabTitle", Str consts.TAB_REGISTER)]).

End Register.

End Register.

(** ** controllers/login.js *)

Module Login.

Section Login.

Import Http.

Context `{bcrypt.Lib} `{validator.Lib} `{Collation}.

Definition getLoginPage : Page unit :=
  render "login"
    [("message", Str ""); ("pageTitle", Str consts.PAGE_TITLE_LOGIN);
     ("error", Str ""); ("tabTitle", Str consts.TAB_LOGIN)].

Fixpoint forEach (cookies : list string) : Page unit :=
  match cookies with
  | [] => mret tt
  | c :: rest => clearCookie c;; forEach rest
  end.

Definition clearAllCookies : Page unit :=
  let cookiesToClear := ["user"; "email"; "lastName"; "firstName"] in
  forEach cookiesToClear.

(** [a === b] on two form fields. *)
Definition strict_eq (a b : option string) : bool :=
  match a, b with
  | Some x, Some y => String.eqb x y
  | None, None => true
  | _, _ => false
  end.

Definition postLoginPage (req : Form) (salt : string) : Page unit :=
  let password := body_password req in
  let confirmPassword := body_confirmPassword req in
  let '(email, firstName, lastName) := Register.extractRegisterCookies req in
  try_catch
    (if strict_eq password confirmPassword then
       query (UserModel.create
                {| UserModel.v_email := email; UserModel.v_firstName := firstName;
                   UserModel.v_lastName := lastName; UserModel.v_password := password |}
                salt);;
       clearAllCookies;;
       render "login"
         [("message", Str consts.SUCCESSFUL_REGISTER);
          ("pageTitle", Str consts.PAGE_TITLE_LOGIN);
          ("error", Str ""); ("tabTitle", Str consts.TAB_LOGIN)]
     else throw (Error consts.ERROR_NOT_MATCH_PASSWORD))
    (fun e =>
       match e with
       | ValidationError =>
           render "register"
             [("message", Str ""); ("pageTitle", Str consts.PAGE_TITLE_REGISTER);
              ("error", message_of e); ("tabTitle", Str consts.TAB_REGISTER)]
       | _ =>
           render "register-password"
             [("message", Str ""); ("pageTitle", Str consts.PAGE_TITLE_REGISTER_PASSWORD);
              ("error", message_of e); ("tabTitle", Str consts.TAB_REGISTER)]
       end).

End Login.

End Login.

(** ** controllers/main.js: the page handlers *)

Section MainPages.

Import Http.

Context `{bcrypt.Lib} `{validator.Lib} `{Collation}.

(** [req.session.fullName] as a view receives it. *)
Definition fullName_local (s : Session) : Local :=
  match fullName s with
  | Some n => Str n
  | None => Undefined
  end.

Definition isUserExists (email password : string) : Page (Z * UserRow) :=
  user ← query (fun st => (Done (UserModel.findOne email st), st));
  match user with
  | Some u =>
      let isPasswordValid := bcrypt.compare password (u_password (snd u)) in
      if isPasswordValid then mret u
      else throw (Error consts.ERROR_INVALID_USER)
  | None => throw (Error consts.ERROR_INVALID_USER)
  end.

Definition postMainPage (req : Form) : Page unit :=
  try_catch
    (let email := body_email req in
     let password := body_password req in
     s ← session req;
     if JS.truthy_id (userId s) then redirect 302 "/main"
     else
       (if negb (JS.truthy_string email) || negb (JS.truthy_string password)
        then throw (Error "")
        else mret tt);;
       user ← isUserExists (default "" email) (default "" password);
       s ← session req;
       if negb (JS.truthy_id (userId s)) then
         set_session req (fun s =>
           {| userId := Some (fst user); isLoggedIn := true;
              fullName := Some (u_firstName (snd user) ++ " " ++ u_lastName (snd user));
              lastUpdate := lastUpdate s |});;
         s ← session req;
         render "main" [("tabTitle", Str consts.TAB_MAIN); ("fullName", fullName_local s)]
       else mret tt)
    (fun e =>
       render "login"
         [("message", Str ""); ("pageTitle", Str consts.PAGE_TITLE_LOGIN);
          ("error", message_of e); ("tabTitle", Str consts.TAB_LOGIN)]).

Definition getMainPage (req : Form) : Page unit :=
  s ← session req;
  if JS.truthy_id (userId s) then
    render "main" [("tabTitle", Str consts.TAB_MAIN); ("fullName", fullName_local s)]
  else redirect 302 "/login".

End MainPages.

(** ** controllers/middlewares.js *)

Module Middlewares.

Import Http.

Definition isUserLoggedIn (req : Form) (next : Page unit) : Page unit :=
  s ← session req;
  if JS.truthy_id (userId s) then redirect 302 "/main"
  else next.

End Middlewares.

(** ** The page routers (routes/index.js, and routes/users.js under /users) *)

Inductive PageRoute : Type :=
| GET_main
| POST_main
| GET_register
| GET_root
| GET_login
| POST_login
| GET_users_register
| GET_users_register_password
| POST_users_register_password.

Section PageRouter.

Import Http.

Context `{bcrypt.Lib} `{validator.Lib} `{Collation}.

Definition pages (r : PageRoute) (req : Form) (salt : string) : Page unit :=
  match r with
  | GET_main => getMainPage req
  | POST_main => postMainPage req
  | GET_register | GET_users_register =>
      Middlewares.isUserLoggedIn req (Register.getRegisterPage req)
  | GET_root | GET_login => Middlewares.isUserLoggedIn req Login.getLoginPage
  | POST_login => Middlewares.isUserLoggedIn req (Login.postLoginPage req salt)
  | GET_users_register_password =>
      Middlewares.isUserLoggedIn req Register.returnToHomePage
  | POST_users_register_password =>
      Middlewares.isUserLoggedIn req (Register.postRegisterPasswordPage req)
  end.

(** One page request served by the process. *)
Definition visit (r : PageRoute) (req : Form) (salt : string) (s : Server) : Visit :=
  snd (pages r req salt
         {| v_srv := s; v_reply := None; v_cookies := []; v_cleared := [] |}).

End PageRouter.

(** The [user] cookie a browser sends at time [now], when the answer that
    set it came at time [set_at]: the cookie lives for [maxAge]
    milliseconds. *)
Definition returned (cookies : list (string * UserCookie * CookieOptions))
    (set_at now : Z) : option UserCookie :=
  match List.find (fun c => String.eqb (fst (fst c)) "user") cookies with
  | Some (_, value, options) => if now <? set_at + maxAge options then Some value else None
  | None => None
  end.

(** ** Vocabulary: registration and login *)

(** Words of letters joined by single spaces. *)
Inductive Name : string -> Prop :=
| Name_word (w : string) : word_of Register.letter w -> Name w
| Name_more (w s : string) :
    word_of Register.letter w -> Name s -> Name (w ++ " " ++ s).

(** A word of the local class, [@], a word of the domain class. *)
Definition EmailShape (s : string) : Prop :=
  exists l d : string,
    s = l ++ "@" ++ d
    /\ word_of Register.local_part l /\ word_of Register.domain_part d.

(** No two users have the same email. *)
Definition emails_distinct `{Collation} (st : Store) : Prop :=
  forall (i j : Z) (a b : UserRow),
    users st !! i = Some a -> users st !! j = Some b ->
    same (u_email a) (u_email b) = true -> i = j.

(** The session of the request is signed in. *)
Definition signed_in (s : Server) (req : Form) : Prop :=
  JS.truthy_id (userId (form_session s req)) = true.

(** The pages the handlers render. *)
Definition login_page (message : string) (error : Local) : Reply :=
  Render "login"
    [("message", Str message); ("pageTitle", Str consts.PAGE_TITLE_LOGIN);
     ("error", error); ("tabTitle", Str consts.TAB_LOGIN)].

Definition register_page (error : Local) : Reply :=
  Render "register"
    [("message", Str ""); ("pageTitle", Str consts.PAGE_TITLE_REGISTER);
     ("error", error); ("tabTitle", Str consts.TAB_REGISTER)].

Definition register_again_page (error : Local) : Reply :=
  Render "register"
    [("message", Str ""); ("pageTitle", Str consts.PAGE_TITLE_REGISTER);
     ("email", Str ""); ("firstName", Str ""); ("lastName", Str "");
     ("error", error); ("tabTitle", Str consts.TAB_REGISTER)].

Definition password_page (message : string) (error : Local) : Reply :=
  Render "register-password"
    [("message", Str message); ("pageTitle", Str consts.PAGE_TITLE_REGISTER_PASSWORD);
     ("error", error); ("tabTitle", Str consts.TAB_REGISTER)].

Definition main_page (name : Local) : Reply :=
  Render "main" [("tabTitle", Str consts.TAB_MAIN); ("fullName", name)].

(** The request arrives at process [s] and nothing has been answered. *)
Definition arrival (s : Server) : Visit :=
  {| v_srv := s; v_reply := None; v_cookies := []; v_cleared := [] |}.

(** The process after the session of [req] has signed in as [u]. *)
Definition logged_in (req : Form) (s : Server) (u : Z * UserRow) : Server :=
  {| db := db s; lastServerUpdate := lastServerUpdate s;
     sessions :=
       <[form_sessionID req :=
           {| userId := Some (fst u); isLoggedIn := true;
              fullName := Some (u_firstName (snd u) ++ " " ++ u_lastName (snd u));
              lastUpdate := lastUpdate (form_session s req) |}]> (sessions s) |}.

(** ** More example data *)

Module Samples.

(** Stand-ins for the libraries in the examples: a bcrypt that keeps the
    data as it is, the validators as the format check of the first step
    reads them, with the number of characters as the measure of a text,
    and a database that compares emails byte by byte. *)
#[local] Instance plain : bcrypt.Lib :=
  {| bcrypt.hash := fun data _ _ => data;
     bcrypt.compare := String.eqb;
     bcrypt.compare_hash := fun data _ _ => String.eqb_refl data |}.

#[local] Instance checks : validator.Lib :=
  {| validator.isEmail := fun s => RegExp.test Register.emailRegex (Some s);
     validator.isAlpha := fun s => negb (String.eqb s "") && all_in Register.letter s;
     validator.isLength := fun s min max =>
       ((min <=? Utf8.length s)%nat && (Utf8.length s <=? max)%nat);
     validator.isEmail_empty := eq_refl;
     validator.isLength_plain := fun s min max _ => eq_refl |}.

#[local] Instance binary : Collation :=
  {| same := String.eqb;
     same_refl := String.eqb_refl;
     same_sym := String.eqb_sym;
     same_trans := fun a b c Hab Hbc =>
       proj2 (String.eqb_eq a c)
         (eq_trans (proj1 (String.eqb_eq a b) Hab) (proj1 (String.eqb_eq b c) Hbc)) |}.

(** A request of a visitor without a session. *)
Definition stranger : Request :=
  {| sessionID := "sid-none"; params_id := 1; body_text := None; query_text := None;
     header_last_update := None |}.

(** Bob deletes his message, and Bob changes its text. *)
Definition bob_removes : Request :=
  {| sessionID := "sid-bob"; params_id := 1; body_text := None; query_text := None;
     header_last_update := None |}.

Definition bob_edits : Request :=
  {| sessionID := "sid-bob"; params_id := 1; body_text := Some "Hello again";
     query_text := None; header_last_update := None |}.

(** The page of Bob, and a page with white space in its boxes. *)
Definition page_of_bob : Client := set_currentUserId (Some (JNum 2)) initial_client.

Definition blank_page : Client :=
  {| messagesList := []; dataset_lastUpdate := None; currentUserId := Some (JNum 1);
     pollingTimer := None; location_href := None; notifications := []; console := [];
     messageInput := "   "; editMessageInput := " "; editModal := true;
     deleteModal := false |}.

(** Carol registers: the form of the first step, the one of the second
    step with the cookie the first step set, and her login. *)
Definition step_one : Form :=
  {| form_sessionID := "sid-carol"; body_email := Some "carol@example.org";
     body_password := None; body_confirmPassword := None;
     body_firstName := Some "Carol"; body_lastName := Some "Danvers";
     cookies_user := None |}.

Definition carol_cookie : UserCookie :=
  {| c_email := Some "carol@example.org"; c_firstName := Some "Carol";
     c_lastName := Some "Danvers"; c_error := "" |}.

Definition step_two (password confirmPassword : string) (c : option UserCookie) : Form :=
  {| form_sessionID := "sid-carol"; body_email := None;
     body_password := Some password; body_confirmPassword := Some confirmPassword;
     body_firstName := None; body_lastName := None; cookies_user := c |}.

Definition login (sid email password : string) : Form :=
  {| form_sessionID := sid; body_email := Some email; body_password := Some password;
     body_confirmPassword := None; body_firstName := None; body_lastName := None;
     cookies_user := None |}.

(** Al registers with a first name of two letters. *)
Definition short_step_one : Form :=
  {| form_sessionID := "sid-al"; body_email := Some "al@example.org";
     body_password := None; body_confirmPassword := None;
     body_firstName := Some "Al"; body_lastName := Some "Bundy";
     cookies_user := None |}.

Definition short_step_two : Form :=
  {| form_sessionID := "sid-al"; body_email := None;
     body_password := Some "secret"; body_confirmPassword := Some "secret";
     body_firstName := None; body_lastName := None;
     cookies_user :=
       Some {| c_email := Some "al@example.org"; c_firstName := Some "Al";
               c_lastName := Some "Bundy"; c_error := "" |} |}.

End Samples.
(** * Properties *)

(** ** Sanity checks of the embedding on concrete inputs *)

Example toISOString_2024_06_01 :
  Date.toISOString 1717200000000 = "2024-06-01T00:00:00.000Z".
Proof. reflexivity. Qed.

Example toISOString_epoch : Date.toISOString 0 = "1970-01-01T00:00:00.000Z".
Proof. reflexivity. Qed.

Example toISOString_leap_day :
  Date.toISOString 951782400000 = "2000-02-29T00:00:00.000Z".
Proof. reflexivity. Qed.

Example toISOString_before_epoch :
  Date.toISOString (-1) = "1969-12-31T23:59:59.999Z".
Proof. reflexivity. Qed.

Example parse_iso_of_toISOString :
  Date.parse_iso (Date.toISOString 1717200005030) = Some 1717200005030.
Proof. reflexivity. Qed.

Example parse_iso_2024_01_01 :
  Date.parse_iso "2024-01-01T00:00:00.000Z" = Some 1704067200000.
Proof. reflexivity. Qed.

Example parse_iso_zero : Date.parse_iso "0" = None.
Proof. reflexivity. Qed.

Example trim_example : JS.trim "  hello world  " = "hello world".
Proof. reflexivity. Qed.

Example like_substring : Sql.like "%ell%" "Hello" = true.
Proof. reflexivity. Qed.

Example like_case : Sql.like "%HELLO%" "say hello!" = true.
Proof. reflexivity. Qed.

Example like_no_match : Sql.like "%hello%" "goodbye" = false.
Proof. reflexivity. Qed.

Example like_underscore : Sql.like "%_%" "hi" = true.
Proof. reflexivity. Qed.

(** The no-break space U+00A0 and the ideographic space U+3000 are white
    space for [trim]. *)
Example trim_unicode_spaces :
  JS.trim (Utf8.encode 160 ++ "hello world" ++ Utf8.encode 12288) = "hello world"
  /\ JS.trim (Utf8.encode 160) = "".
Proof. split; vm_compute; reflexivity. Qed.

(** One underscore matches the letter U+00E9, which is two bytes long; two
    underscores do not. *)
Example like_underscore_character :
  Sql.like "_" (Utf8.encode 233) = true /\ Sql.like "__" (Utf8.encode 233) = false.
Proof. split; vm_compute; reflexivity. Qed.

(** 251 letters U+00E9 are 502 bytes and 251 characters, and pass
    [len: [1, 500]]; 501 letters [a] do not. *)
Example valid_text_counts_characters :
  String.length (Utf8.join (repeat (Utf8.encode 233) 251)) = 502%nat
  /\ Utf8.length (Utf8.join (repeat (Utf8.encode 233) 251)) = 251%nat
  /\ Message.valid_text (H := Samples.checks) (Utf8.join (repeat (Utf8.encode 233) 251))
     = true
  /\ Message.valid_text (H := Samples.checks) (Utf8.join (repeat "a" 501)) = false.
Proof. repeat split; vm_compute; reflexivity. Qed.

(** Bob asks to update his own message and sends no text: nothing but
    [updatedAt] is left to set, no row is updated, and the answer is 404
    with the store as it was. *)
Example update_without_text :
  serve (H := Examples.iso) (H0 := Samples.checks) PUT_message
    {| sessionID := "sid-bob"; params_id := 1; body_text := None; query_text := None;
       header_last_update := None |}
    1717200005000 Examples.server0
  = (Some not_found, Examples.server0).
Proof. vm_compute. reflexivity. Qed.

Example poll_with_old_cursor :
  fst (serve (H := Examples.iso) (H0 := Samples.checks) GET_checkMessages
         (Examples.poll (Some "2024-01-01T00:00:00.000Z")) 1717200005000 Examples.server0)
  = Some {| status := 200;
            body := JObj [("hasUpdates", JBool true);
                          ("lastCheck", JStr "2024-06-01T00:00:05.000Z")] |}.
Proof. reflexivity. Qed.

Example poll_with_fresh_cursor :
  fst (serve (H := Examples.iso) (H0 := Samples.checks) GET_checkMessages
         (Examples.poll (Some "2024-06-01T00:00:01.000Z")) 1717200005000 Examples.server0)
  = Some {| status := 200;
            body := JObj [("hasUpdates", JBool false);
                          ("lastCheck", JStr "2024-06-01T00:00:05.000Z")] |}.
Proof. reflexivity. Qed.

Example first_cycle_of_a_new_page :
  match connect (H := Examples.iso) (H0 := Samples.checks)
      (Main.checkForNewMessages initial_client) "sid-alice"
          [1717200005000; 1717200005010; 1717200005020; 1717200005030] Examples.server0 with
  | Some ((Ok tt, c), _, _, _) =>
      messagesList c =
        [Card {| el_fullName := Some (JStr "Bob Builder");
                 el_text := Some (JStr "Hello there");
                 el_timestamp := Some (JStr "2024-06-01T00:00:00.000Z");
                 el_buttons := None |}]
      /\ dataset_lastUpdate c = Some "2024-06-01T00:00:05.030Z"
  | _ => False
  end.
Proof. vm_compute. split; reflexivity. Qed.

(** ** Proof tools *)

(** Unfolds the controllers down to the store and the exchange. *)
Ltac controllers :=
  unfold serve, api, requireAuth, verifyUserSession, getAllMessages, deleteMessage,
    updateMessage, createMessage, logout, getMessagesByText, checkMessages,
    Express.try_catch, mbind, mret, Handler_bind, Handler_ret, session, query, send,
    set_session, write_lastServerUpdate, read_lastServerUpdate, with_srv,
    Message.destroy, Message.update, Message.create, Message.findAll, Message.findOne,
    Message.findAll_like, User.findByPk.

(** Unfolds the plumbing of the client's [async] functions. *)
Ltac async :=
  repeat (unfold mbind, mret, Async_bind, Async_ret, Browser.try_catch, Browser.throw,
            Browser.lift, Browser.read, Browser.write, Browser.fetch, Browser.json,
            Browser.new_Date, Main.prop, Main.showNotification, Main.console_error;
          cbn [prog_bind fst snd negb]).

(** The empty text fails [len: [1, 500]]. *)
Lemma isLength_empty `{validator.Lib} : validator.isLength "" 1 500 = false.
Proof. rewrite validator.isLength_plain by reflexivity. reflexivity. Qed.

(** ** Texts and their characters *)

Lemma chars_step (d : ascii) (t : string) :
  Utf8.chars (String d t)
  = if Utf8.starts_char t then String d EmptyString :: Utf8.chars t
    else match Utf8.chars t with
         | ch :: more => String d ch :: more
         | [] => [String d EmptyString]
         end.
Proof. reflexivity. Qed.

Lemma chars_cons (t : string) :
  forall d : ascii,
    exists ch : string,
      Utf8.chars (String d t) = ch :: Utf8.chars (Utf8.skip_continuation t).
Proof.
  induction t as [|b t IH]; intros d; rewrite chars_step.
  - eexists. reflexivity.
  - cbn [Utf8.starts_char Utf8.skip_continuation].
    destruct (Utf8.continuation b) eqn:Hb; cbn [negb].
    + destruct (IH b) as [ch Hch]. rewrite Hch. eexists. reflexivity.
    + eexists. reflexivity.
Qed.

Lemma length_cons (d : ascii) (t : string) :
  Utf8.length (String d t) = S (Utf8.length (Utf8.skip_continuation t)).
Proof.
  unfold Utf8.length. destruct (chars_cons t d) as [ch ->]. reflexivity.
Qed.

Lemma length_skip_continuation (t : string) :
  (Utf8.length (Utf8.skip_continuation t) <= Utf8.length t)%nat.
Proof.
  induction t as [|b t IH]; cbn [Utf8.skip_continuation]; [lia|].
  destruct (Utf8.continuation b); [|lia]. rewrite length_cons. lia.
Qed.

(** A text has at least the characters of the text after its first byte. *)
Lemma length_le_cons (d : ascii) (t : string) :
  (Utf8.length t <= Utf8.length (String d t))%nat.
Proof.
  rewrite length_cons. destruct t as [|b t]; [cbn; lia|].
  cbn [Utf8.skip_continuation]. destruct (Utf8.continuation b); [|lia].
  rewrite length_cons. lia.
Qed.

(** A text is the text of its characters. *)
Lemma join_chars (s : string) : Utf8.join (Utf8.chars s) = s.
Proof.
  induction s as [|b s IH]; [reflexivity|]. rewrite chars_step.
  destruct (Utf8.starts_char s).
  - change (Utf8.join (String b EmptyString :: Utf8.chars s))
      with (String b (Utf8.join (Utf8.chars s))).
    rewrite IH. reflexivity.
  - destruct (Utf8.chars s) as [|ch more]; rewrite <- IH; reflexivity.
Qed.

(** ** The polling endpoint *)

Section Polling.

Context `{Date.Parser} `{validator.Lib}.

Lemma lastClientUpdate_cursor (req : Request) (x : Exchange) :
  lastClientUpdate req x = (Ok (Some (cursor req)), x).
Proof.
  unfold lastClientUpdate, cursor, Express.try_catch, JS.truthy_string, JS.truthy.
  destruct (header_last_update req) as [h|]; simpl; [|reflexivity].
  destruct (String.eqb h ""); simpl; [reflexivity|].
  destruct (Date.parse h); reflexivity.
Qed.

Lemma requireAuth_next (req : Request) (next : Handler unit) (x : Exchange) :
  authenticated (srv x) req -> requireAuth req next x = next x.
Proof.
  unfold authenticated, requireAuth, session. intros Hauth.
  unfold mbind, Handler_bind. rewrite Hauth. reflexivity.
Qed.

Lemma checkMessages_run (req : Request) (now : Z) (x : Exchange) :
  checkMessages req now x =
    (Ok tt, {| srv := srv x;
               res := Some (poll_answer (cursor req <? lastServerUpdate (srv x)) now) |}).
Proof.
  unfold checkMessages, Express.try_catch, mbind, Handler_bind.
  rewrite lastClientUpdate_cursor. reflexivity.
Qed.

Lemma serve_checkMessages (s : Server) (req : Request) (now : Z) :
  authenticated s req ->
  serve GET_checkMessages req now s
  = (Some (poll_answer (cursor req <? lastServerUpdate s) now), s).
Proof.
  intros Hauth. unfold serve, api. rewrite requireAuth_next by exact Hauth.
  rewrite checkMessages_run. reflexivity.
Qed.

(** C1. A poll from an authenticated session is answered 200 with
    [{ hasUpdates, lastCheck }]: [hasUpdates] is true exactly when the
    watermark is strictly after the cursor parsed from [Last-Update],
    [lastCheck] is the server's clock reading of this check in ISO-8601,
    and the process is left as it was. *)
Theorem checkMessages_compares_watermark_with_cursor
    (s : Server) (req : Request) (now : Z) :
  authenticated s req ->
  exists hasUpdates : bool,
    serve GET_checkMessages req now s =
      (Some {| status := 200;
               body := JObj [("hasUpdates", JBool hasUpdates);
                             ("lastCheck", JStr (Date.toISOString now))] |}, s)
    /\ (hasUpdates = true <-> lastServerUpdate s > cursor req).
Proof.
  intros Hauth. exists (cursor req <? lastServerUpdate s). split.
  - apply serve_checkMessages, Hauth.
  - rewrite Z.ltb_lt. lia.
Qed.

(** C2. A poll whose [Last-Update] header is absent or is not a valid
    Date is answered, with the epoch as its cursor: [hasUpdates] is true
    as soon as the watermark is after the epoch. *)
Theorem checkMessages_defaults_to_epoch (s : Server) (req : Request) (now : Z) :
  authenticated s req ->
  header_last_update req = None
  \/ (exists h, header_last_update req = Some h /\ Date.parse h = None) ->
  cursor req = 0
  /\ serve GET_checkMessages req now s
     = (Some (poll_answer (0 <? lastServerUpdate s) now), s)
  /\ (0 < lastServerUpdate s ->
      serve GET_checkMessages req now s = (Some (poll_answer true now), s)).
Proof.
  intros Hauth Hheader.
  assert (Hcursor : cursor req = 0).
  { unfold cursor. destruct Hheader as [-> | (h & -> & ->)]; [reflexivity|].
    destruct (String.eqb h ""); reflexivity. }
  assert (Hserve : serve GET_checkMessages req now s
                   = (Some (poll_answer (0 <? lastServerUpdate s) now), s)).
  { rewrite serve_checkMessages, Hcursor by exact Hauth. reflexivity. }
  repeat split; [exact Hcursor | exact Hserve |].
  intros Hpos. rewrite Hserve.
  apply Z.ltb_lt in Hpos. rewrite Hpos. reflexivity.
Qed.

Lemma checkMessages_frame (req : Request) (now : Z) (s : Server) :
  snd (serve GET_checkMessages req now s) = s.
Proof.
  controllers. cbn. destruct s; repeat (case_match; cbn); simplify_eq; reflexivity.
Qed.

(** C4. The polling endpoint is read-only: after any number of polls
    with no write in between the process (watermark, sessions, store) is
    what it was, and every poll of an authenticated session whose cursor
    is at or after the watermark is answered [hasUpdates = false]. *)
Theorem checkMessages_is_read_only (s : Server) (polls : list Call) :
  Forall (fun c => route c = GET_checkMessages) polls ->
  Forall (fun h =>
            after h = s
            /\ (authenticated s (request (call h)) ->
                lastServerUpdate s <= cursor (request (call h)) ->
                response h = Some (poll_answer false (time (call h)))))
         (history polls s).
Proof.
  induction 1 as [|c polls Hroute _ IH]; cbn [history]; unfold serve_call;
    cbn [after response call]; constructor.
  - cbn [after response call]. rewrite Hroute. split; [apply checkMessages_frame|].
    intros Hauth Hcursor. rewrite serve_checkMessages by exact Hauth.
    cbn [fst]. apply Z.ltb_ge in Hcursor. rewrite Hcursor. reflexivity.
  - rewrite Hroute, checkMessages_frame. exact IH.
Qed.

End Polling.

(** ** The watermark *)

Section Watermark.

Context `{Date.Parser} `{validator.Lib}.

(** A request leaves the watermark as it is or sets it to the clock
    reading of that request. *)
Lemma serve_watermark (r : Route) (req : Request) (now : Z) (s : Server) :
  lastServerUpdate (snd (serve r req now s)) = lastServerUpdate s
  \/ lastServerUpdate (snd (serve r req now s)) = now.
Proof.
  controllers.
  destruct r; cbn; repeat (case_match; cbn); simplify_eq; cbn; auto.
Qed.

Lemma serve_call_watermark (c : Call) (s : Server) :
  lastServerUpdate (after (serve_call c s)) = lastServerUpdate s
  \/ lastServerUpdate (after (serve_call c s)) = time c.
Proof. apply serve_watermark. Qed.

Lemma write_sets_watermark (r : Route) (req : Request) (now : Z) (s : Server) :
  is_write r = true ->
  succeeded (fst (serve r req now s)) = true ->
  lastServerUpdate (snd (serve r req now s)) = now.
Proof.
  controllers.
  destruct r; cbn; try discriminate; intros _;
    repeat (case_match; cbn); simplify_eq; cbn; auto; discriminate.
Qed.

Lemma history_watermarks_bounded (calls : list Call) :
  forall s : Server,
    StronglySorted Z.le (lastServerUpdate s :: map time calls) ->
    Forall (fun h => lastServerUpdate s <= lastServerUpdate (after h)) (history calls s).
Proof.
  induction calls as [|c calls IH]; intros s Hclock; cbn [history]; [constructor|].
  apply StronglySorted_inv in Hclock as [Htail Hhead]. cbn [map] in Htail, Hhead.
  apply Forall_cons in Hhead as [Hc Hcalls].
  pose proof (serve_call_watermark c s) as Hstep.
  set (s' := after (serve_call c s)) in *.
  assert (Hle : lastServerUpdate s <= lastServerUpdate s') by lia.
  constructor; [exact Hle|].
  assert (Hclock' : StronglySorted Z.le (lastServerUpdate s' :: map time calls)).
  { apply StronglySorted_inv in Htail as [Hsorted Hfrom].
    constructor; [exact Hsorted|].
    destruct Hstep as [-> | ->]; [exact Hcalls | exact Hfrom]. }
  eapply Forall_impl; [apply IH, Hclock'|].
  intros h Hh. cbv beta in Hh. exact (Z.le_trans _ _ _ Hle Hh).
Qed.

(** C3. Every create, update or delete answered with success leaves the
    watermark at the clock reading of that request, whatever the run; and
    along a run whose clock readings never go backwards (starting from
    the watermark), the watermarks after the successive requests never
    decrease.  The handlers assign the reading of the clock and take no
    maximum, so the second half needs the condition on the clock. *)
Theorem watermark_set_by_writes_and_monotone (s : Server) (calls : list Call) :
  Forall (fun h =>
            is_write (route (call h)) = true ->
            succeeded (response h) = true ->
            lastServerUpdate (after h) = time (call h))
         (history calls s)
  /\ (StronglySorted Z.le (lastServerUpdate s :: map time calls) ->
      StronglySorted Z.le
        (lastServerUpdate s :: map (fun h => lastServerUpdate (after h)) (history calls s))).
Proof.
  split.
  - revert s. induction calls as [|c calls IH]; intros s; cbn [history]; constructor.
    + unfold serve_call. cbn [call response after]. apply write_sets_watermark.
    + apply IH.
  - revert s. induction calls as [|c calls IH]; intros s Hclock; cbn [history map].
    + constructor; constructor.
    + pose proof (history_watermarks_bounded (c :: calls) s Hclock) as Hbound.
      cbn [history] in Hbound.
      constructor.
      * apply IH.
        apply StronglySorted_inv in Hclock as [Htail Hhead]. cbn [map] in Htail, Hhead.
        apply Forall_cons in Hhead as [Hc Hcalls].
        apply StronglySorted_inv in Htail as [Hsorted Hfrom].
        constructor; [exact Hsorted|].
        destruct (serve_call_watermark c s) as [-> | ->]; [exact Hcalls | exact Hfrom].
      * change (Forall (Z.le (lastServerUpdate s))
                  (map (fun h => lastServerUpdate (after h))
                     (serve_call c s :: history calls (after (serve_call c s))))).
        apply Forall_map. exact Hbound.
Qed.

End Watermark.

(** C3, as stated, fails when the clock of the server is set back between
    two writes.  Alice posts at a clock reading of 00:00:05 and again at a
    reading of 00:00:03: both posts are answered 201, each leaves the
    watermark at its own reading, and the second leaves it earlier than
    the first did.  The handlers assign [new Date()]; they take no
    maximum. *)
Lemma watermark_goes_back_with_the_clock :
  map (fun h => (option_map status (response h), lastServerUpdate (after h)))
    (history (H := Examples.iso) (H0 := Samples.checks)
       [ {| route := POST_message; request := Examples.post (Some "Hi all");
            time := 1717200005000 |};
         {| route := POST_message; request := Examples.post (Some "Hi again");
            time := 1717200003000 |} ]
       Examples.server0)
  = [(Some 201, 1717200005000); (Some 201, 1717200003000)]
  /\ ~ StronglySorted Z.le
        (lastServerUpdate Examples.server0
         :: map (fun h => lastServerUpdate (after h))
              (history (H := Examples.iso) (H0 := Samples.checks)
                 [ {| route := POST_message; request := Examples.post (Some "Hi all");
                      time := 1717200005000 |};
                   {| route := POST_message; request := Examples.post (Some "Hi again");
                      time := 1717200003000 |} ]
                 Examples.server0)).
Proof.
  split; [vm_compute; reflexivity|].
  intros Hsorted. apply StronglySorted_inv in Hsorted as [Hsorted _].
  apply StronglySorted_inv in Hsorted as [_ Hfirst].
  apply Forall_inv in Hfirst. vm_compute in Hfirst. apply Hfirst. reflexivity.
Qed.

(** ** Rejected writes *)

(** An error answer to the page's own write is shown to the user, and the
    page goes no further: no refetch, the list and the cursor stay. *)
Lemma error_answer_is_shown (w : Write) (c : Client) (msg : string) :
  msg <> "" ->
  (forall id, w = Save id -> JS.trim (editMessageInput c) <> "") ->
  run (perform w c) [Network (Resolved false (Some (Express.error msg)))]
  = Some ((Ok tt, rejected w msg c), [write_call w c], []).
Proof.
  intros Hmsg Hsave.
  assert (Herror : Main.error_message (Some (JStr msg)) = fun _ => msg).
  { unfold Main.error_message, JS.or_else, JS.truthy.
    apply String.eqb_neq in Hmsg. rewrite Hmsg. reflexivity. }
  destruct w as [text|id|id]; unfold perform.
  - unfold Main.sendMessage. async. cbn [run]. async.
    cbn [JS.prop Express.error JS.assoc String.eqb Ascii.eqb Bool.eqb]. async.
    rewrite Herror. reflexivity.
  - unfold Main.saveUpdatedMessage. async.
    destruct (String.eqb_spec (JS.trim (editMessageInput c)) "") as [Hempty|_];
      [destruct (Hsave id eq_refl Hempty)|].
    async. cbn [run]. async.
    cbn [JS.prop Express.error JS.assoc String.eqb Ascii.eqb Bool.eqb]. async.
    rewrite Herror. reflexivity.
  - unfold Main.deleteMessage. async. cbn [run]. async.
    cbn [JS.prop Express.error JS.assoc String.eqb Ascii.eqb Bool.eqb]. async.
    rewrite Herror. reflexivity.
Qed.

Section Rejections.

Context `{Date.Parser} `{validator.Lib}.

Lemma invalid_write_answer (s : Server) (r : Route) (req : Request) (now : Z) :
  authenticated s req ->
  (r = POST_message
   /\ (body_text req = None \/ fails_validation (body_text req)))
  \/ (r = PUT_message /\ fails_validation (body_text req)) ->
  exists (code : Z) (msg : string),
    serve r req now s = (Some {| status := code; body := Express.error msg |}, s)
    /\ 400 <= code <= 599
    /\ msg <> "".
Proof.
  unfold fails_validation.
  intros Hauth [[-> [Htext | (t & Htext & Hinvalid)]] | [-> (t & Htext & Hinvalid)]];
    unfold serve, api; rewrite requireAuth_next by exact Hauth;
    controllers; cbn [srv res]; rewrite Htext; destruct s as [st w ss]; cbn.
  - eexists _, _; split; [reflexivity | split; [lia | discriminate]].
  - destruct (userId _) as [uid|]; cbn;
      [|eexists _, _; split; [reflexivity | split; [lia | discriminate]]].
    rewrite Hinvalid.
    repeat (case_match; cbn); simplify_eq;
      eexists _, _; (split; [reflexivity | split; [lia | discriminate]]).
  - rewrite Hinvalid. cbn. eexists _, _; split; [reflexivity | split; [lia | discriminate]].
Qed.

(** C7. A create whose text is missing or fails validation, and an
    update whose text fails validation, is answered with an error
    ([{ error }] under a 4xx or 5xx status), and the process (message set
    and watermark included) is left as it was; the page that sent the write
    shows that error to the user in a notification, and leaves its list
    and its cursor as they were. *)
Theorem invalid_write_is_rejected
    (s : Server) (r : Route) (req : Request) (now : Z) :
  authenticated s req ->
  (r = POST_message
   /\ (body_text req = None \/ fails_validation (body_text req)))
  \/ (r = PUT_message /\ fails_validation (body_text req)) ->
  exists (code : Z) (msg : string),
    serve r req now s = (Some {| status := code; body := Express.error msg |}, s)
    /\ 400 <= code <= 599
    /\ forall (w : Write) (c : Client),
         f_route (write_call w c) = r ->
         (forall id, w = Save id -> JS.trim (editMessageInput c) <> "") ->
         exists c' : Client,
           run (perform w c)
               [Network (to_result (Some {| status := code; body := Express.error msg |}))]
           = Some ((Ok tt, c'), [write_call w c], [])
           /\ notifications c' = (notifications c ++ [(msg, "danger")])%list
           /\ messagesList c' = messagesList c
           /\ dataset_lastUpdate c' = dataset_lastUpdate c.
Proof.
  intros Hauth Hcase.
  destruct (invalid_write_answer s r req now Hauth Hcase) as (code & msg & Hserve & Hcode & Hmsg).
  exists code, msg. split; [exact Hserve|]. split; [exact Hcode|].
  intros w c _ Hsave. exists (rejected w msg c).
  assert (Hnot_ok : to_result (Some {| status := code; body := Express.error msg |})
                    = Resolved false (Some (Express.error msg))).
  { unfold to_result. cbn [status body].
    replace (code <=? 299) with false by (symmetry; apply Z.leb_gt; lia).
    rewrite andb_false_r. reflexivity. }
  rewrite Hnot_ok, error_answer_is_shown by assumption.
  split; [reflexivity|]. destruct w; repeat split.
Qed.

Lemma filter_none {A : Type} (f : A -> bool) (l : list A) :
  Forall (fun a => f a = false) l -> List.filter f l = [].
Proof.
  induction 1 as [|a l Ha _ IH]; cbn; [reflexivity|]. rewrite Ha. exact IH.
Qed.

Lemma filter_negb_none {A : Type} (f : A -> bool) (l : list A) :
  Forall (fun a => f a = false) l -> List.filter (fun a => negb (f a)) l = l.
Proof.
  induction 1 as [|a l Ha _ IH]; cbn; [reflexivity|]. rewrite Ha. cbn. f_equal. exact IH.
Qed.

Lemma map_if_none {A : Type} (f : A -> bool) (g : A -> A) (l : list A) :
  Forall (fun a => f a = false) l -> map (fun a => if f a then g a else a) l = l.
Proof.
  induction 1 as [|a l Ha _ IH]; cbn; [reflexivity|]. rewrite Ha. f_equal. exact IH.
Qed.

(** C10, as the code has it.  A delete, or an update whose text is absent
    or passes the validation of the model, by an authenticated user,
    naming a message id that does not belong to that user, is answered 404
    "Message not found", and the process (message set and watermark
    included) is left as it was.  An update whose text fails the
    validation is answered 500 "Internal server error" whoever owns the
    message, the validation coming before any row is looked up, and the
    process is left as it was too. *)
Theorem unowned_message_is_not_found
    (s : Server) (r : Route) (req : Request) (now : Z) :
  authenticated s req ->
  (names_no_own_message s req ->
   r = DELETE_message \/ (r = PUT_message /\ ~ fails_validation (body_text req)) ->
   serve r req now s = (Some not_found, s))
  /\ (r = PUT_message ->
      fails_validation (body_text req) ->
      serve r req now s
      = (Some {| status := 500; body := Express.error "Internal server error" |}, s)).
Proof.
  unfold names_no_own_message, fails_validation.
  intros Hauth. split.
  - intros Hnone [-> | [-> Hvalid]];
      unfold serve, api; rewrite requireAuth_next by exact Hauth;
      controllers; cbn [srv res].
    + rewrite filter_none, filter_negb_none by exact Hnone.
      destruct s as [[ms us n] w ss]. reflexivity.
    + destruct (body_text req) as [t|]; [|destruct s as [[ms us n] w ss]; reflexivity].
      destruct (Message.valid_text t) eqn:Ht;
        [|exfalso; apply Hvalid; exists t; split; [reflexivity | exact Ht]].
      cbn. rewrite filter_none, map_if_none by exact Hnone.
      destruct s as [[ms us n] w ss]. reflexivity.
  - intros -> (t & Htext & Hinvalid).
    unfold serve, api; rewrite requireAuth_next by exact Hauth.
    controllers; cbn [srv res]. rewrite Htext, Hinvalid.
    destruct s as [[ms us n] w ss]. reflexivity.
Qed.

(** C10, as stated, fails: Alice asks to change Bob's message to the
    empty text; the update is refused by the validation of the model,
    before any row is looked up, and the answer is 500, not 404. *)
Lemma update_of_unowned_message_with_empty_text_is_500 :
  authenticated Examples.server0 (Examples.edit 1 (Some ""))
  /\ names_no_own_message Examples.server0 (Examples.edit 1 (Some ""))
  /\ serve (H := Examples.iso) (H0 := Samples.checks)
      PUT_message (Examples.edit 1 (Some "")) 1717200005000
       Examples.server0
     = (Some {| status := 500; body := Express.error "Internal server error" |},
        Examples.server0)
  /\ fst (serve (H := Examples.iso) (H0 := Samples.checks) PUT_message (Examples.edit 1 (Some ""))
            1717200005000 Examples.server0)
     <> Some not_found.
Proof.
  split; [reflexivity|]. split; [repeat constructor|]. split; [reflexivity|].
  vm_compute. discriminate.
Qed.

End Rejections.

(** ** The client: rendering *)

Lemma createMessageElement_element (cur : option Json) (m : Json) :
  m <> JNull -> Main.createMessageElement cur m = Ok (element cur m).
Proof.
  intros Hm. destruct m; try contradiction; reflexivity.
Qed.

Lemma forEach_cards (msgs : list Json) :
  Forall (fun m => m <> JNull) msgs ->
  forall c : Client,
    Main.forEach msgs c
    = Ret (Ok tt,
           set_messagesList
             (messagesList c ++ map (fun m => Card (element (currentUserId c) m)) msgs) c).
Proof.
  induction 1 as [|m msgs Hm _ IH]; intros c; cbn [Main.forEach map].
  - rewrite app_nil_r. destruct c; reflexivity.
  - unfold Main.addMessage. async. rewrite createMessageElement_element by exact Hm.
    async. rewrite IH. cbn. rewrite <- app_assoc. reflexivity.
Qed.

Lemma displayMessages_rendering (msgs : list Json) (c : Client) :
  Forall (fun m => m <> JNull) msgs ->
  Main.displayMessages (JArr msgs) c
  = Ret (Ok tt, set_messagesList (rendering (currentUserId c) msgs) c).
Proof.
  intros Hmsgs. unfold Main.displayMessages. async.
  cbn [JS.prop String.eqb Ascii.eqb Bool.eqb]. async.
  destruct msgs as [|m msgs]; [reflexivity|].
  cbn [List.length JS.truthy]. replace (Z.of_nat (S (List.length msgs)) =? 0) with false
    by (symmetry; apply Z.eqb_neq; lia).
  cbn [negb]. rewrite forEach_cards by exact Hmsgs. reflexivity.
Qed.

(** ** The client: running the [async] functions *)

Lemma run_prog_bind {A B : Type} (p : Prog A) (f : A -> Prog B) :
  forall script : list Answer,
    run (prog_bind p f) script
    = match run p script with
      | Some (a, calls, rest) =>
          match run (f a) rest with
          | Some (b, calls', rest') => Some (b, (calls ++ calls')%list, rest')
          | None => None
          end
      | None => None
      end.
Proof.
  induction p as [a | f0 k IH | k IH]; intros script; cbn [prog_bind run].
  - destruct (run (f a) script) as [[[b calls'] rest']|]; reflexivity.
  - destruct script as [|[r|t] rest]; try reflexivity.
    rewrite IH. destruct (run (k r) rest) as [[[a calls] rest0]|]; [|reflexivity].
    destruct (run (f a) rest0) as [[[b calls'] rest']|]; reflexivity.
  - destruct script as [|[r|t] rest]; try reflexivity. apply IH.
Qed.

(** Answers a program does not consume are left over. *)
Lemma run_app {A : Type} (p : Prog A) (extra : list Answer) :
  forall (script : list Answer) (a : A) (calls : list FetchCall) (rest : list Answer),
    run p script = Some (a, calls, rest) ->
    run p (script ++ extra) = Some (a, calls, (rest ++ extra)%list).
Proof.
  induction p as [a0 | f0 k IH | k IH]; intros script a calls rest; cbn [run].
  - intros [= -> <- <-]. reflexivity.
  - destruct script as [|[r|t] script]; try discriminate. cbn [app].
    destruct (run (k r) script) as [[[a1 calls1] rest1]|] eqn:Hk; [|discriminate].
    intros [= -> <- <-]. rewrite (IH r _ _ _ _ Hk). reflexivity.
  - destruct script as [|[r|t] script]; try discriminate. cbn [app]. apply IH.
Qed.

Lemma run_fetchMessages (c : Client) (ok : bool) (msgs : list Json) (t : Z)
    (rest : list Answer) :
  Forall (fun m => m <> JNull) msgs ->
  run (Main.fetchMessages c) (Network (Resolved ok (Some (JArr msgs))) :: Clock t :: rest)
  = Some ((Ok tt, refreshed msgs t c), [GET GET_message], rest).
Proof.
  intros Hmsgs. unfold Main.fetchMessages. async. cbn [run]. async.
  cbn [JS.isArray]. async. rewrite displayMessages_rendering by exact Hmsgs.
  async. cbn [run]. reflexivity.
Qed.

Lemma refreshed_cleared (msgs : list Json) (t : Z) (c : Client) :
  refreshed msgs t (set_messagesList [] c) = refreshed msgs t c.
Proof. reflexivity. Qed.

(** [checkSession] always completes, whatever the network answers, and
    leaves the list and the cursor alone. *)
Lemma run_checkSession (c : Client) (a : FetchResult) (rest : list Answer) :
  exists (b : bool) (c1 : Client),
    run (Main.checkSession c) (Network a :: rest)
    = Some ((Ok b, c1), [GET GET_verifyUserSession], rest)
    /\ dataset_lastUpdate c1 = dataset_lastUpdate c
    /\ messagesList c1 = messagesList c.
Proof.
  unfold Main.checkSession. async. cbn [run].
  destruct a as [|ok [data|]]; async; cbn [run]; [eauto 6| |eauto 6].
  destruct (JS.prop data "authenticated") as [v|e]; async; [|cbn [run]; eauto 6].
  destruct (negb (JS.truthy v)); async; [cbn [run]; eauto 6|].
  destruct (JS.prop data "userId") as [u|e]; async; cbn [run]; eauto 6.
Qed.

(** C5. When the poll answers that there are updates, the cycle goes on
    with a full refetch ([GET /api/message]); once that has answered with
    the message list, the list shown is the rendering of the records
    received and of nothing else, and the cursor is the local clock reading
    taken after the list was replaced, in ISO-8601, whatever [lastCheck]
    the poll answer carried. *)
Theorem poll_with_updates_refetches
    (c : Client) (a : FetchResult) (answer : Json) (hasUpdates : option Json)
    (ok : bool) (msgs : list Json) (t : Z) :
  JS.prop answer "hasUpdates" = Ok hasUpdates ->
  JS.truthy hasUpdates = true ->
  Forall (fun m => m <> JNull) msgs ->
  exists (b : bool) (c1 c' : Client),
    run (Main.checkSession c) [Network a] = Some ((Ok b, c1), [GET GET_verifyUserSession], [])
    /\ run (Main.checkForNewMessages c)
          [Network a; Network (Resolved true (Some answer));
           Network (Resolved ok (Some (JArr msgs))); Clock t]
       = Some ((Ok tt, c'), [GET GET_verifyUserSession; poll_call c; GET GET_message], [])
    /\ c' = refreshed msgs t c1
    /\ messagesList c' = rendering (currentUserId c') msgs
    /\ dataset_lastUpdate c' = Some (Date.toISOString t).
Proof.
  intros Hprop Htruthy Hmsgs.
  destruct (run_checkSession c a []) as (b & c1 & Hsession & Hcursor & _).
  exists b, c1, (refreshed msgs t c1).
  split; [exact Hsession|]. split; [|repeat split].
  pose proof (run_app _ [Network (Resolved true (Some answer));
                         Network (Resolved ok (Some (JArr msgs))); Clock t]
                _ _ _ _ Hsession) as Hsession'.
  cbn [app] in Hsession'.
  unfold Main.checkForNewMessages. async.
  rewrite !run_prog_bind, Hsession'. async. cbn [run]. async.
  rewrite Hprop. async. rewrite Htruthy.
  rewrite ?run_prog_bind, run_fetchMessages by exact Hmsgs.
  cbn [run app]. unfold poll_call, held_cursor. rewrite Hcursor. reflexivity.
Qed.

(** The functions that write, against any network: once the write was
    answered with success, [GET /api/message] is the next call, and once
    it has answered the page is [refreshed] as after a poll that reported
    updates. *)
Lemma own_write_refetches
    (c : Client) (ok : bool) (msgs : list Json) (t : Z) :
  Forall (fun m => m <> JNull) msgs ->
  (forall (text : string) (created : Json),
      run (Main.sendMessage text c)
          [Network (Resolved true (Some created));
           Network (Resolved ok (Some (JArr msgs))); Clock t]
      = Some ((Ok tt, add_notification ("Message sent successfully", "success")
                        (refreshed msgs t c)),
              [post_call text; GET GET_message], []))
  /\ (forall (id : Z) (updated : option Json),
        JS.trim (editMessageInput c) <> "" ->
        run (Main.saveUpdatedMessage id c)
            [Network (Resolved true updated);
             Network (Resolved ok (Some (JArr msgs))); Clock t]
        = Some ((Ok tt, add_notification ("Message updated successfully", "success")
                          (set_editModal false (refreshed msgs t c))),
                [put_call id (JS.trim (editMessageInput c)); GET GET_message], []))
  /\ (forall (id : Z) (deleted : option Json),
        run (Main.deleteMessage id c)
            [Network (Resolved true deleted);
             Network (Resolved ok (Some (JArr msgs))); Clock t]
        = Some ((Ok tt, set_deleteModal false
                          (add_notification ("Message deleted successfully", "success")
                             (refreshed msgs t c))),
                [delete_call id; GET GET_message], []))
  /\ messagesList (refreshed msgs t c) = rendering (currentUserId c) msgs
  /\ dataset_lastUpdate (refreshed msgs t c) = Some (Date.toISOString t).
Proof.
  intros Hmsgs. repeat split.
  - intros text created. unfold Main.sendMessage. async. cbn [run]. async.
    rewrite ?run_prog_bind, run_fetchMessages by exact Hmsgs. reflexivity.
  - intros id updated Htrim. unfold Main.saveUpdatedMessage. async.
    destruct (String.eqb_spec (JS.trim (editMessageInput c)) "") as [Heq|_];
      [contradiction|].
    async. cbn [run]. async.
    rewrite ?run_prog_bind, run_fetchMessages by exact Hmsgs. reflexivity.
  - intros id deleted. unfold Main.deleteMessage. async. cbn [run]. async.
    rewrite ?run_prog_bind, run_fetchMessages by exact Hmsgs. reflexivity.
Qed.

(** ** The client and the server together *)

Section System.
Context `{Date.Parser} `{validator.Lib}.

Lemma connect_prog_bind {A B : Type} (p : Prog A) (f : A -> Prog B) (cookie : string) :
  forall (readings : list Z) (s : Server),
    connect (prog_bind p f) cookie readings s
    = match connect p cookie readings s with
      | Some (a, served, s', rest) =>
          match connect (f a) cookie rest s' with
          | Some (b, served', s'', rest') => Some (b, (served ++ served')%list, s'', rest')
          | None => None
          end
      | None => None
      end.
Proof.
  induction p as [a | f0 k IH | k IH]; intros readings s; cbn [prog_bind connect].
  - destruct (connect (f a) cookie readings s) as [[[[b served'] s''] rest']|]; reflexivity.
  - destruct readings as [|t rest]; [reflexivity|].
    rewrite IH.
    destruct (connect (k _) cookie rest _) as [[[[a served] s'] rest0]|]; [|reflexivity].
    destruct (connect (f a) cookie rest0 s') as [[[[b served'] s''] rest']|]; reflexivity.
  - destruct readings as [|t rest]; [reflexivity|]. apply IH.
Qed.

Lemma map_messages_listing (us : gmap Z UserRow) (ms : list MessageRow) :
  Forall (fun m => is_Some (us !! m_user_id m)) ms ->
  map_messages (map (fun m => (m, us !! m_user_id m)) ms) = Ok (map (record us) ms).
Proof.
  induction 1 as [|m ms [u Hu] _ IH]; cbn [map map_messages]; [reflexivity|].
  unfold record at 1. unfold withFullName. cbn [fst snd]. rewrite IH.
  rewrite Hu. reflexivity.
Qed.

Lemma listing_not_null (st : Store) :
  authors_exist st -> Forall (fun j => j <> JNull) (listing st).
Proof.
  unfold authors_exist, listing. intros Hst. apply Forall_map.
  eapply Forall_impl; [exact Hst|]. intros m [u Hu].
  unfold record, withFullName. cbn. rewrite Hu. discriminate.
Qed.

Lemma users_preserved (r : Route) (req : Request) (t : Z) (s : Server) :
  users (db (snd (serve r req t s))) = users (db s).
Proof.
  controllers. destruct r; cbn; repeat (case_match; cbn); simplify_eq; reflexivity.
Qed.

Lemma Forall_list_filter {A : Type} (P : A -> Prop) (f : A -> bool) (l : list A) :
  Forall P l -> Forall P (List.filter f l).
Proof.
  induction 1 as [|a l Ha _ IH]; cbn; [constructor|].
  destruct (f a); [constructor; assumption | exact IH].
Qed.

Lemma authors_set_text (us : gmap Z UserRow) (text : option string) (t id : Z)
    (uid : option Z) (ms : list MessageRow) :
  Forall (fun m => is_Some (us !! m_user_id m)) ms ->
  Forall (fun m => is_Some (us !! m_user_id m))
    (map (fun m => if Message.matches id uid m then Message.set_text text t m else m) ms).
Proof.
  induction 1 as [|m ms Hm _ IH]; cbn [map]; constructor; [|exact IH].
  destruct (Message.matches id uid m); exact Hm.
Qed.

(** Serving a request keeps every message with an author. *)
Lemma authors_preserved (r : Route) (req : Request) (t : Z) (s : Server) :
  authors_exist (db s) -> authors_exist (db (snd (serve r req t s))).
Proof.
  unfold authors_exist. intros Hst.
  controllers. destruct r; cbn; repeat (case_match; cbn); simplify_eq; cbn;
    first [ exact Hst
          | apply Forall_list_filter, Hst
          | apply authors_set_text, Hst
          | apply Forall_app; split; [exact Hst|];
            constructor; [cbn; eauto | constructor] ].
Qed.

Lemma write_keeps_sessions (r : Route) (req : Request) (t : Z) (s : Server) :
  is_write r = true -> sessions (snd (serve r req t s)) = sessions s.
Proof.
  controllers. destruct r; cbn; try discriminate; intros _;
    repeat (case_match; cbn); simplify_eq; reflexivity.
Qed.

Lemma write_succeeded_authenticated (r : Route) (req : Request) (t : Z) (s : Server) :
  is_write r = true -> succeeded (fst (serve r req t s)) = true -> authenticated s req.
Proof.
  unfold authenticated.
  destruct (JS.truthy_id (userId (session_of s req))) eqn:Hauth; [reflexivity|].
  controllers. destruct r; cbn; try discriminate; intros _; rewrite Hauth; cbn;
    discriminate.
Qed.

Lemma serve_GET_message (req : Request) (t : Z) (s : Server) :
  authenticated s req ->
  authors_exist (db s) ->
  fst (serve GET_message req t s)
  = Some {| status := 200; body := JArr (listing (db s)) |}
  /\ db (snd (serve GET_message req t s)) = db s.
Proof.
  intros Hauth Hst. unfold serve, api. rewrite requireAuth_next by exact Hauth.
  controllers. cbn [srv res db fst snd]. cbv beta.
  rewrite map_messages_listing by exact Hst. split; reflexivity.
Qed.

Lemma to_result_succeeded (r : option Response) :
  succeeded r = true -> exists b : Json, to_result r = Resolved true (Some b).
Proof.
  destruct r as [r|]; cbn; [|discriminate]. intros ->. eauto.
Qed.

(** The full refetch against the server: the page shows the listing of
    the store. *)
Lemma connect_fetchMessages (c : Client) (cookie : string) (t2 t3 : Z)
    (rest : list Z) (s : Server) :
  authenticated s (to_request cookie (GET GET_message)) ->
  authors_exist (db s) ->
  connect (Main.fetchMessages c) cookie (t2 :: t3 :: rest) s
  = Some ((Ok tt, refreshed (listing (db s)) t3 c),
          [serve_call (arriving cookie (GET GET_message) t2) s],
          after (serve_call (arriving cookie (GET GET_message) t2) s), rest).
Proof.
  intros Hauth Hst.
  destruct (serve_GET_message _ t2 s Hauth Hst) as [Hres Hdb].
  unfold Main.fetchMessages. async. cbn [connect]. unfold serve_call at 1.
  cbn [response arriving route request time f_route GET]. rewrite Hres.
  cbn [to_result status body]. async. cbn [JS.isArray]. async.
  rewrite displayMessages_rendering by (apply listing_not_null, Hst).
  async. cbn [connect]. reflexivity.
Qed.

(** C6. Read-your-writes.  When the server answers the client's own
    create, update or delete with success, the same function goes on at
    once (no timer in between) with the full refetch of the polling
    cycle; when it completes, the list shown is the listing of the store
    as that write left it and the cursor is the local clock reading
    taken then: the page is [refreshed] as after a poll that reported
    updates. *)
Theorem own_write_is_shown_at_once
    (w : Write) (c : Client) (cookie : string) (s : Server) (t1 t2 t3 : Z) :
  authors_exist (db s) ->
  succeeded (response (serve_call (arriving cookie (write_call w c) t1) s)) = true ->
  exists (h h' : Served) (c' : Client),
    h = serve_call (arriving cookie (write_call w c) t1) s
    /\ h' = serve_call (arriving cookie (GET GET_message) t2) (after h)
    /\ connect (perform w c) cookie [t1; t2; t3] s = Some ((Ok tt, c'), [h; h'], after h', [])
    /\ c' = after_write w (listing (db (after h))) t3 c
    /\ messagesList c' = rendering (currentUserId c) (listing (db (after h)))
    /\ dataset_lastUpdate c' = Some (Date.toISOString t3).
Proof.
  intros Hst Hok.
  set (h := serve_call (arriving cookie (write_call w c) t1) s) in *.
  exists h, (serve_call (arriving cookie (GET GET_message) t2) (after h)),
    (after_write w (listing (db (after h))) t3 c).
  assert (Hwrite : is_write (f_route (write_call w c)) = true) by (destruct w; reflexivity).
  assert (Hauth : authenticated (after h) (to_request cookie (GET GET_message))).
  { unfold authenticated, session_of. subst h. unfold serve_call. cbn [after].
    rewrite write_keeps_sessions by exact Hwrite.
    exact (write_succeeded_authenticated _ _ _ _ Hwrite Hok). }
  assert (Hst' : authors_exist (db (after h))) by (apply authors_preserved, Hst).
  destruct (to_result_succeeded _ Hok) as [b Hb].
  pose proof (connect_fetchMessages) as Hfetch.
  repeat split; [|destruct w; reflexivity..].
  subst h.
  destruct w as [text|id|id]; unfold perform;
    cbn [write_call] in *; unfold post_call, put_call, delete_call in *.
  - unfold Main.sendMessage. async. cbn [connect]. rewrite Hb. async.
    rewrite ?connect_prog_bind, Hfetch by assumption. reflexivity.
  - unfold Main.saveUpdatedMessage. async.
    destruct (String.eqb_spec (JS.trim (editMessageInput c)) "") as [Hempty|_].
    { exfalso. revert Hok. unfold serve_call, arriving. cbn [response].
      clear -Hempty. rewrite Hempty.
      controllers. cbn. unfold Message.valid_text. rewrite isLength_empty.
      repeat (case_match; cbn); discriminate. }
    async. cbn [connect]. rewrite Hb. async.
    rewrite ?connect_prog_bind, Hfetch by assumption. reflexivity.
  - unfold Main.deleteMessage. async. cbn [connect]. rewrite Hb. async.
    rewrite ?connect_prog_bind, Hfetch by assumption. reflexivity.
Qed.

(** Along any history the store keeps every message with an author. *)
Lemma authors_exist_history (calls : list Call) :
  forall s : Server,
    authors_exist (db s) ->
    Forall (fun h => authors_exist (db (after h))) (history calls s).
Proof.
  induction calls as [|c calls IH]; intros s Hst; cbn [history]; constructor.
  - apply authors_preserved, Hst.
  - apply IH, authors_preserved, Hst.
Qed.

(** What a successful write did to the store. *)
Lemma successful_write_effect (r : Route) (req : Request) (t : Z) (s : Server) :
  succeeded (fst (serve r req t s)) = true ->
  let uid := userId (session_of s req) in
  let after := messages (db (snd (serve r req t s))) in
  match r with
  | POST_message =>
      exists (text : string) (u : Z),
        body_text req = Some text /\ uid = Some u
        /\ after = (messages (db s) ++
                    [{| m_id := nextId (db s); m_text := text; m_user_id := u;
                        m_createdAt := t; m_updatedAt := t |}])%list
  | PUT_message =>
      after = map (fun m => if Message.matches (params_id req) uid m
                            then Message.set_text (body_text req) t m else m)
                  (messages (db s))
  | DELETE_message =>
      after = List.filter (fun m => negb (Message.matches (params_id req) uid m))
                          (messages (db s))
  | _ => after = messages (db s)
  end.
Proof.
  controllers. destruct r; cbn; repeat (case_match; cbn); simplify_eq; cbn;
    try discriminate; intros _; eauto.
Qed.

End System.
(** ** Search: LIKE against substring search *)



Lemma like_percent (p t : string) :
  Sql.like (String "%" p) t
  = Sql.like p t
    || match t with
       | EmptyString => false
       | String _ rest => Sql.like (String "%" p) rest
       end.
Proof. destruct t; reflexivity. Qed.

Lemma like_any (t : string) : Sql.like "%" t = true.
Proof.
  induction t as [|d t IH]; [reflexivity|]. rewrite like_percent. cbn [Sql.like orb].
  exact IH.
Qed.



Section Search.

Context `{Date.Parser} `{validator.Lib}.

Lemma serve_search (req : Request) (q : string) (t : Z) (s : Server) :
  authenticated s req ->
  authors_exist (db s) ->
  query_text req = Some q ->
  q <> "" ->
  serve GET_searchMessagesByText req t s
  = (Some {| status := 200;
             body := JArr (map (record (users (db s)))
                             (List.filter (fun m => Sql.like ("%" ++ q ++ "%") (m_text m))
                                (messages (db s)))) |}, s).
Proof.
  intros Hauth Hst Hq Hne. unfold serve, api. rewrite requireAuth_next by exact Hauth.
  controllers. cbn [srv res db fst snd]. rewrite Hq. unfold JS.truthy_string.
  cbn [fmap option_fmap option_map JS.truthy].
  apply String.eqb_neq in Hne. rewrite Hne. cbn [negb]. cbv beta.
  rewrite map_messages_listing by (apply Forall_list_filter, Hst).
  destruct s as [[ms us n] w ss]. reflexivity.
Qed.


End Search.


(** ** The session check of the polling cycle *)

(** When the session check finds no authenticated session, the page is
    sent to the login page, [checkSession] returns [false], and the cycle
    goes on all the same with the poll. *)
Lemma cycle_goes_on_after_the_redirect
    (c : Client) (ok : bool) (data : Json) (v : option Json) :
  JS.prop data "authenticated" = Ok v ->
  JS.truthy v = false ->
  run (Main.checkSession c) [Network (Resolved ok (Some data))]
  = Some ((Ok false, set_location "/login" c), [GET GET_verifyUserSession], [])
  /\ run (Main.checkForNewMessages c) [Network (Resolved ok (Some data)); Network Rejected]
     = Some ((Ok tt, add_console "Error checking for message updates:"
                       (set_location "/login" c)),
             [GET GET_verifyUserSession; poll_call c], []).
Proof.
  intros Hprop Hfalsy. split.
  - unfold Main.checkSession. async. cbn [run]. async. rewrite Hprop. async.
    rewrite Hfalsy. async. reflexivity.
  - unfold Main.checkForNewMessages, Main.checkSession. async. cbn [run]. async.
    rewrite Hprop. async. rewrite Hfalsy. async. cbn [run]. reflexivity.
Qed.

(** C9, evaluated.  A page whose session has expired runs a polling cycle
    against the server: the session check is answered 401 and the page is
    sent to [/login], and then the poll is sent all the same (and answered
    401 by [requireAuth]). *)
Theorem expired_session_is_polled_all_the_same :
  connect (H := Examples.iso) (H0 := Samples.checks)
      (Main.checkForNewMessages initial_client) "sid-expired"
    [1717200005000; 1717200005010] Examples.server0
  = Some ((Ok tt,
           add_console "Error checking for message updates:"
             (set_editModal false (set_location "/login" initial_client))),
          [ {| call := arriving "sid-expired" (GET GET_verifyUserSession) 1717200005000;
               response := Some {| status := 401;
                                   body := JObj [("message", JStr "No active session")] |};
               after := Examples.server0 |};
            {| call := arriving "sid-expired" (poll_call initial_client) 1717200005010;
               response := Some {| status := 401;
                                   body := JObj [("message", JStr "Session expired")] |};
               after := Examples.server0 |} ],
          Examples.server0, []).
Proof. vm_compute. reflexivity. Qed.

(** ** The theorems at the worked examples *)

Section Witnesses.

#[local] Existing Instance Examples.iso.
#[local] Existing Instance Samples.checks.

Lemma checkMessages_compares_watermark_with_cursor_witness :
  authenticated Examples.server0 (Examples.poll (Some "2024-01-01T00:00:00.000Z"))
  /\ exists hasUpdates : bool,
       serve (H := Examples.iso) (H0 := Samples.checks) GET_checkMessages
         (Examples.poll (Some "2024-01-01T00:00:00.000Z")) 1717200005000 Examples.server0
       = (Some {| status := 200;
                  body := JObj [("hasUpdates", JBool hasUpdates);
                                ("lastCheck", JStr (Date.toISOString 1717200005000))] |},
          Examples.server0)
       /\ (hasUpdates = true
           <-> lastServerUpdate Examples.server0
               > cursor (H := Examples.iso) (Examples.poll (Some "2024-01-01T00:00:00.000Z"))).
Proof.
  split; [reflexivity|].
  apply (checkMessages_compares_watermark_with_cursor (H := Examples.iso)).
  reflexivity.
Defined.

Lemma checkMessages_defaults_to_epoch_witness :
  authenticated Examples.server0 (Examples.poll (Some "0"))
  /\ (header_last_update (Examples.poll (Some "0")) = None
      \/ exists h, header_last_update (Examples.poll (Some "0")) = Some h
                   /\ Date.parse (Parser := Examples.iso) h = None)
  /\ cursor (H := Examples.iso) (Examples.poll (Some "0")) = 0
  /\ serve (H := Examples.iso) (H0 := Samples.checks)
      GET_checkMessages (Examples.poll (Some "0")) 1717200005000
       Examples.server0
     = (Some (poll_answer (0 <? lastServerUpdate Examples.server0) 1717200005000),
        Examples.server0)
  /\ (0 < lastServerUpdate Examples.server0 ->
      serve (H := Examples.iso) (H0 := Samples.checks)
          GET_checkMessages (Examples.poll (Some "0")) 1717200005000
        Examples.server0
      = (Some (poll_answer true 1717200005000), Examples.server0)).
Proof.
  assert (Hheader : header_last_update (Examples.poll (Some "0")) = None
                    \/ exists h, header_last_update (Examples.poll (Some "0")) = Some h
                                 /\ Date.parse (Parser := Examples.iso) h = None).
  { right. exists "0". split; reflexivity. }
  split; [reflexivity|]. split; [exact Hheader|].
  apply (checkMessages_defaults_to_epoch (H := Examples.iso) (H0 := Samples.checks));
    [reflexivity | exact Hheader].
Defined.

Lemma watermark_set_by_writes_and_monotone_witness :
  StronglySorted Z.le (lastServerUpdate Examples.server0 :: map time Examples.a_run)
  /\ Forall (fun h =>
               is_write (route (call h)) = true ->
               succeeded (response h) = true ->
               lastServerUpdate (after h) = time (call h))
            (history (H := Examples.iso) (H0 := Samples.checks) Examples.a_run Examples.server0)
  /\ StronglySorted Z.le
       (lastServerUpdate Examples.server0
        :: map (fun h => lastServerUpdate (after h))
             (history (H := Examples.iso) (H0 := Samples.checks) Examples.a_run Examples.server0)).
Proof.
  assert (Hclock : StronglySorted Z.le
                     (lastServerUpdate Examples.server0 :: map time Examples.a_run)).
  { cbv [Examples.a_run Examples.server0 map time lastServerUpdate].
    repeat first [ apply SSorted_cons | apply SSorted_nil | apply List.Forall_cons
                 | apply List.Forall_nil ]; discriminate. }
  destruct (watermark_set_by_writes_and_monotone (H := Examples.iso) (H0 := Samples.checks)
              Examples.server0 Examples.a_run) as [Hset Hmono].
  split; [exact Hclock|]. split; [exact Hset | exact (Hmono Hclock)].
Defined.

Lemma checkMessages_is_read_only_witness :
  Forall (fun c => route c = GET_checkMessages) Examples.two_polls
  /\ Forall (fun h =>
               after h = Examples.server0
               /\ (authenticated Examples.server0 (request (call h)) ->
                   lastServerUpdate Examples.server0
                   <= cursor (H := Examples.iso) (request (call h)) ->
                   response h = Some (poll_answer false (time (call h)))))
            (history (H := Examples.iso) (H0 := Samples.checks)
                Examples.two_polls Examples.server0).
Proof.
  assert (Hpolls : Forall (fun c => route c = GET_checkMessages) Examples.two_polls).
  { repeat constructor. }
  split; [exact Hpolls|].
  exact (checkMessages_is_read_only (H := Examples.iso) (H0 := Samples.checks)
      Examples.server0 Examples.two_polls
           Hpolls).
Defined.

Lemma poll_with_updates_refetches_witness :
  JS.prop Examples.updates_answer "hasUpdates" = Ok (Some (JBool true))
  /\ JS.truthy (Some (JBool true)) = true
  /\ Forall (fun m => m <> JNull) Examples.one_message
  /\ exists (b : bool) (c1 c' : Client),
       run (Main.checkSession initial_client) [Network Examples.session_answer]
       = Some ((Ok b, c1), [GET GET_verifyUserSession], [])
       /\ run (Main.checkForNewMessages initial_client)
            [Network Examples.session_answer;
             Network (Resolved true (Some Examples.updates_answer));
             Network (Resolved true (Some (JArr Examples.one_message)));
             Clock 1717200006050]
          = Some ((Ok tt, c'),
                  [GET GET_verifyUserSession; poll_call initial_client; GET GET_message], [])
       /\ c' = refreshed Examples.one_message 1717200006050 c1
       /\ messagesList c' = rendering (currentUserId c') Examples.one_message
       /\ dataset_lastUpdate c' = Some (Date.toISOString 1717200006050).
Proof.
  assert (Hmsgs : Forall (fun m => m <> JNull) Examples.one_message).
  { constructor; [discriminate | constructor]. }
  split; [reflexivity|]. split; [reflexivity|]. split; [exact Hmsgs|].
  exact (poll_with_updates_refetches initial_client Examples.session_answer
           Examples.updates_answer (Some (JBool true)) true Examples.one_message
           1717200006050 eq_refl eq_refl Hmsgs).
Defined.

Lemma own_write_is_shown_at_once_witness :
  authors_exist (db Examples.server0)
  /\ succeeded (response (serve_call (H := Examples.iso) (H0 := Samples.checks)
                            (arriving "sid-alice" (write_call (Send "Hi all") initial_client)
                               1717200005000)
                            Examples.server0)) = true
  /\ exists (h h' : Served) (c' : Client),
       h = serve_call (H := Examples.iso) (H0 := Samples.checks)
             (arriving "sid-alice" (write_call (Send "Hi all") initial_client) 1717200005000)
             Examples.server0
       /\ h' = serve_call (H := Examples.iso) (H0 := Samples.checks)
                 (arriving "sid-alice" (GET GET_message) 1717200005010) (after h)
       /\ connect (H := Examples.iso) (H0 := Samples.checks)
           (perform (Send "Hi all") initial_client) "sid-alice"
            [1717200005000; 1717200005010; 1717200005020] Examples.server0
          = Some ((Ok tt, c'), [h; h'], after h', [])
       /\ c' = after_write (Send "Hi all") (listing (db (after h))) 1717200005020
                 initial_client
       /\ messagesList c'
          = rendering (currentUserId initial_client) (listing (db (after h)))
       /\ dataset_lastUpdate c' = Some (Date.toISOString 1717200005020).
Proof.
  assert (Hst : authors_exist (db Examples.server0)).
  { constructor; [exists Examples.bob; reflexivity | constructor]. }
  split; [exact Hst|]. split; [reflexivity|].
  exact (own_write_is_shown_at_once (H := Examples.iso) (H0 := Samples.checks)
      (Send "Hi all") initial_client
           "sid-alice" Examples.server0 1717200005000 1717200005010 1717200005020
           Hst eq_refl).
Defined.

Lemma invalid_write_is_rejected_witness :
  authenticated Examples.server0 (Examples.post (Some ""))
  /\ ((POST_message = POST_message
       /\ (body_text (Examples.post (Some "")) = None
           \/ fails_validation (body_text (Examples.post (Some "")))))
      \/ (POST_message = PUT_message
          /\ fails_validation (body_text (Examples.post (Some "")))))
  /\ exists (code : Z) (msg : string),
       serve (H := Examples.iso) (H0 := Samples.checks)
           POST_message (Examples.post (Some "")) 1717200005000
         Examples.server0
       = (Some {| status := code; body := Express.error msg |}, Examples.server0)
       /\ 400 <= code <= 599
       /\ forall (w : Write) (c : Client),
            f_route (write_call w c) = POST_message ->
            (forall id, w = Save id -> JS.trim (editMessageInput c) <> "") ->
            exists c' : Client,
              run (perform w c)
                  [Network (to_result (Some {| status := code;
                                               body := Express.error msg |}))]
              = Some ((Ok tt, c'), [write_call w c], [])
              /\ notifications c' = (notifications c ++ [(msg, "danger")])%list
              /\ messagesList c' = messagesList c
              /\ dataset_lastUpdate c' = dataset_lastUpdate c.
Proof.
  assert (Hcase : (POST_message = POST_message
                   /\ (body_text (Examples.post (Some "")) = None
                       \/ fails_validation (body_text (Examples.post (Some "")))))
                  \/ (POST_message = PUT_message
                      /\ fails_validation (body_text (Examples.post (Some ""))))).
  { left. split; [reflexivity|]. right. exists "". split; reflexivity. }
  split; [reflexivity|]. split; [exact Hcase|].
  exact (invalid_write_is_rejected (H := Examples.iso) (H0 := Samples.checks)
      Examples.server0 POST_message
           (Examples.post (Some "")) 1717200005000 eq_refl Hcase).
Defined.

Lemma unowned_message_is_not_found_witness :
  authenticated Examples.server0 (Examples.remove 1)
  /\ names_no_own_message Examples.server0 (Examples.remove 1)
  /\ (DELETE_message = DELETE_message
      \/ (DELETE_message = PUT_message
          /\ ~ fails_validation (body_text (Examples.remove 1))))
  /\ serve DELETE_message (Examples.remove 1) 1717200005000 Examples.server0
     = (Some not_found, Examples.server0).
Proof.
  assert (Hnone : names_no_own_message Examples.server0 (Examples.remove 1)).
  { constructor; [reflexivity | constructor]. }
  split; [reflexivity|]. split; [exact Hnone|]. split; [left; reflexivity|].
  exact (proj1 (unowned_message_is_not_found Examples.server0 DELETE_message
                  (Examples.remove 1) 1717200005000 eq_refl)
           Hnone (or_introl eq_refl)).
Defined.


End Witnesses.

(** * Further properties *)

(** ** The guard of the API *)

Section Guard.

Context `{Date.Parser} `{validator.Lib}.

Lemma requireAuth_refuses (r : Route) (req : Request) (now : Z) (s : Server) :
  r <> GET_verifyUserSession ->
  JS.truthy_id (userId (session_of s req)) = false ->
  serve r req now s = (Some session_expired, s).
Proof.
  intros Hroute Hauth.
  unfold serve, api, requireAuth, session, mbind, Handler_bind.
  destruct r; try contradiction; cbn [srv res]; rewrite Hauth; reflexivity.
Qed.

(** X1. Behind [requireAuth], a request without an authenticated session is
    answered 401 "Session expired" on every route, and nothing of the
    process changes: no handler runs. *)
Theorem unauthenticated_request_is_refused
    (r : Route) (req : Request) (now : Z) (s : Server) :
  r <> GET_verifyUserSession ->
  ~ authenticated s req ->
  serve r req now s = (Some session_expired, s).
Proof.
  unfold authenticated. intros Hroute Hauth.
  apply requireAuth_refuses; [exact Hroute|]. apply not_true_is_false, Hauth.
Qed.

Lemma filter_length_zero {A : Type} (f : A -> bool) (l : list A) :
  (List.length (List.filter f l) =? 0)%nat = true -> Forall (fun a => f a = false) l.
Proof.
  induction l as [|a l IH]; cbn [List.filter]; [constructor|].
  destruct (f a) eqn:Hfa; [discriminate|]. intros Hl. constructor; auto.
Qed.

End Guard.
Section Atomicity.
Context `{Date.Parser} `{validator.Lib}.
(** X2. A create, update or delete that is answered with an error leaves the
    whole process as it was; and the message set and the watermark change
    only through a write that is answered with success. *)
Theorem only_successful_writes_change_the_store
    (r : Route) (req : Request) (now : Z) (s : Server) :
  (is_write r = true ->
   succeeded (fst (serve r req now s)) = false ->
   snd (serve r req now s) = s)
  /\ (is_write r = false \/ succeeded (fst (serve r req now s)) = false ->
      db (snd (serve r req now s)) = db s
      /\ lastServerUpdate (snd (serve r req now s)) = lastServerUpdate s).
Proof.
  assert (Hfailed : is_write r = true ->
                    succeeded (fst (serve r req now s)) = false ->
                    snd (serve r req now s) = s).
  { controllers. destruct r; cbn; try discriminate; intros _;
      destruct s as [[ms us n] w ss]; cbn;
      repeat (case_match; cbn); simplify_eq; cbn; try discriminate; intros _;
      try reflexivity.
    all: repeat match goal with
         | Hlen : (_ =? 0)%nat = true |- _ => apply filter_length_zero in Hlen
         | Hlen : negb (_ =? 0)%nat = false |- _ =>
             apply negb_false_iff, filter_length_zero in Hlen
         end.
    all: first [ rewrite filter_negb_none by assumption
               | rewrite map_if_none by assumption ]; reflexivity. }
  split; [exact Hfailed|].
  intros [Hread | Hfail].
  - controllers. destruct r; cbn in Hread; try discriminate; cbn;
      repeat (case_match; cbn); simplify_eq; split; reflexivity.
  - destruct (is_write r) eqn:Hwrite.
    + rewrite (Hfailed eq_refl Hfail). split; reflexivity.
    + revert Hwrite. clear. controllers. destruct r; cbn; try discriminate; intros _;
        repeat (case_match; cbn); simplify_eq; split; reflexivity.
Qed.

End Atomicity.

(** ** Ownership *)

Section Ownership.

Context `{Date.Parser} `{validator.Lib}.

Lemma of_others_app (u : option Z) (l1 l2 : list MessageRow) :
  of_others u (l1 ++ l2) = (of_others u l1 ++ of_others u l2)%list.
Proof. unfold of_others. apply List.filter_app. Qed.

Lemma matches_owned (id : Z) (u : option Z) (m : MessageRow) :
  Message.matches id u m = true -> owned_by u m = true.
Proof.
  unfold Message.matches, owned_by. destruct u; [|discriminate].
  intros Hm. apply andb_true_iff in Hm. tauto.
Qed.

Lemma of_others_destroy (id : Z) (u : option Z) (ms : list MessageRow) :
  of_others u (List.filter (fun m => negb (Message.matches id u m)) ms) = of_others u ms.
Proof.
  unfold of_others. induction ms as [|m ms IH]; cbn [List.filter]; [reflexivity|].
  destruct (Message.matches id u m) eqn:Hm; cbn [negb List.filter].
  - rewrite (matches_owned _ _ _ Hm). cbn [negb]. exact IH.
  - destruct (negb (owned_by u m)); rewrite IH; reflexivity.
Qed.

Lemma of_others_update (id : Z) (u : option Z) (text : option string) (now : Z)
    (ms : list MessageRow) :
  of_others u (map (fun m => if Message.matches id u m
                             then Message.set_text text now m else m) ms)
  = of_others u ms.
Proof.
  unfold of_others. induction ms as [|m ms IH]; cbn [map List.filter]; [reflexivity|].
  destruct (Message.matches id u m) eqn:Hm.
  - pose proof (matches_owned _ _ _ Hm) as Howned.
    assert (Howned' : owned_by u (Message.set_text text now m) = true)
      by (destruct u; exact Howned).
    rewrite Howned, Howned'. cbn [negb]. exact IH.
  - destruct (negb (owned_by u m)); rewrite IH; reflexivity.
Qed.

(** X3. No request, whatever it asks and however it is answered, adds,
    removes or changes a message of a user other than the one of its
    session. *)
Theorem request_leaves_the_messages_of_others
    (r : Route) (req : Request) (now : Z) (s : Server) :
  of_others (userId (session_of s req)) (messages (db (snd (serve r req now s))))
  = of_others (userId (session_of s req)) (messages (db s)).
Proof.
  controllers.
  destruct r; cbn -[of_others]; repeat (case_match; cbn -[of_others]); simplify_eq;
    cbn -[of_others]; try reflexivity;
    first [ apply of_others_destroy
          | apply of_others_update
          | idtac ].
  rewrite of_others_app.
  unfold of_others at 2. cbn. rewrite Z.eqb_refl. cbn. apply app_nil_r.
Qed.

End Ownership.

(** ** What a successful write does, exactly *)

Section Effects.

Context `{Date.Parser} `{validator.Lib}.

Lemma unique_match (id : Z) (u : option Z) (ms : list MessageRow) :
  NoDup (map m_id ms) ->
  (List.length (List.filter (Message.matches id u) ms) =? 0)%nat = false ->
  exists (pre : list MessageRow) (m : MessageRow) (post : list MessageRow),
    ms = (pre ++ m :: post)%list
    /\ Message.matches id u m = true
    /\ Forall (fun a => Message.matches id u a = false) pre
    /\ Forall (fun a => Message.matches id u a = false) post.
Proof.
  induction ms as [|a ms IH]; cbn [map List.filter]; [discriminate|].
  intros Hnodup Hlen. apply NoDup_cons in Hnodup as [Ha Hnodup].
  destruct (Message.matches id u a) eqn:Hmatch.
  - exists [], a, ms. repeat split; [exact Hmatch | constructor |].
    apply Forall_forall. intros b Hb.
    destruct (Message.matches id u b) eqn:Hb'; [|reflexivity].
    exfalso. apply Ha. unfold Message.matches in Hmatch, Hb'.
    destruct u as [u|]; [|discriminate].
    apply andb_true_iff in Hmatch as [Hida _]. apply andb_true_iff in Hb' as [Hidb _].
    apply Z.eqb_eq in Hida, Hidb. rewrite Hida, <- Hidb.
    apply list_elem_of_fmap. exists b. split; [reflexivity | exact Hb].
  - destruct (IH Hnodup Hlen) as (pre & m & post & -> & Hm & Hpre & Hpost).
    exists (a :: pre), m, post. repeat split; [exact Hm | constructor; assumption | exact Hpost].
Qed.

Lemma matches_spec (id : Z) (u : option Z) (m : MessageRow) :
  Message.matches id u m = true -> m_id m = id /\ u = Some (m_user_id m).
Proof.
  unfold Message.matches. destruct u as [u|]; [|discriminate].
  intros Hm. apply andb_true_iff in Hm as [Hid Hu].
  apply Z.eqb_eq in Hid, Hu. split; congruence.
Qed.

(** X4. A delete answered with success has removed exactly one message: the
    one with the id named, which belonged to the user of the session;
    every other message is in its place. *)
Theorem successful_delete_removes_the_message
    (req : Request) (now : Z) (s : Server) :
  ids_distinct (db s) ->
  succeeded (fst (serve DELETE_message req now s)) = true ->
  exists (pre : list MessageRow) (m : MessageRow) (post : list MessageRow),
    messages (db s) = (pre ++ m :: post)%list
    /\ m_id m = params_id req
    /\ userId (session_of s req) = Some (m_user_id m)
    /\ messages (db (snd (serve DELETE_message req now s))) = (pre ++ post)%list.
Proof.
  unfold ids_distinct. intros Hids.
  controllers. cbn. repeat (case_match; cbn); simplify_eq; try discriminate. intros _.
  match goal with
  | Hlen : (_ =? 0)%nat = false |- _ =>
      destruct (unique_match _ _ _ Hids Hlen) as (pre & m & post & Hms & Hm & Hpre & Hpost)
  end.
  exists pre, m, post. destruct (matches_spec _ _ _ Hm) as [Hid Hu].
  repeat split; [exact Hms | exact Hid | exact Hu |].
  rewrite Hms, List.filter_app. cbn [List.filter]. rewrite Hm. cbn [negb].
  rewrite !filter_negb_none by assumption. reflexivity.
Qed.

(** X5. An update answered with success has changed exactly one message: the
    one with the id named, which belongs to the user of the session; it
    has the text of the request and the update time of the request, and
    its id, owner and creation time as before; the answer carries it. *)
Theorem successful_update_changes_the_message
    (req : Request) (now : Z) (s : Server) :
  ids_distinct (db s) ->
  succeeded (fst (serve PUT_message req now s)) = true ->
  exists (pre : list MessageRow) (m : MessageRow) (post : list MessageRow),
    messages (db s) = (pre ++ m :: post)%list
    /\ m_id m = params_id req
    /\ userId (session_of s req) = Some (m_user_id m)
    /\ messages (db (snd (serve PUT_message req now s)))
       = (pre ++ Message.set_text (body_text req) now m :: post)%list
    /\ fst (serve PUT_message req now s)
       = Some {| status := 200;
                 body := JObj (Message.toJSON (Message.set_text (body_text req) now m)) |}.
Proof.
  unfold ids_distinct. intros Hids.
  controllers. cbn.
  destruct (negb (JS.truthy_id (userId (session_of s req)))); cbn; [discriminate|].
  destruct (body_text req) as [t|]; cbn; [|discriminate].
  unfold Message.valid_text. destruct (validator.isLength t 1 500); cbn; [|discriminate].
  destruct (List.length _ =? 0)%nat eqn:Hlen; cbn; [discriminate|]. intros _.
  destruct (unique_match _ _ _ Hids Hlen) as (pre & m & post & Hms & Hm & Hpre & Hpost).
  exists pre, m, post. destruct (matches_spec _ _ _ Hm) as [Hid Hu].
  assert (Hafter : map (fun a => if Message.matches (params_id req)
                                      (userId (session_of s req)) a
                                 then Message.set_text (Some t) now a else a)
                       (messages (db s))
                   = (pre ++ Message.set_text (Some t) now m :: post)%list).
  { rewrite Hms, map_app. cbn [map]. rewrite Hm.
    rewrite !map_if_none by assumption. reflexivity. }
  repeat split; [exact Hms | exact Hid | exact Hu | exact Hafter |].
  rewrite Hafter.
  assert (Hfind : List.find (Message.matches (params_id req) (userId (session_of s req)))
                    (pre ++ Message.set_text (Some t) now m :: post)
                  = Some (Message.set_text (Some t) now m)).
  { clear -Hpre Hm. induction Hpre as [|a pre Ha _ IH]; cbn [app List.find].
    - assert (Hm' : Message.matches (params_id req) (userId (session_of s req))
                      (Message.set_text (Some t) now m) = true) by exact Hm.
      rewrite Hm'. reflexivity.
    - rewrite Ha. exact IH. }
  rewrite Hfind. reflexivity.
Qed.

(** X6. A create answered with success has appended one message, after all
    the others: it carries the text of the request, which the validation
    of the model accepted (1 to 500 characters, a character of several
    bytes counting once, when the text has no variation selector), the
    user of the session as its owner and the time of the request; the
    answer is 201 with that message. *)
Theorem successful_create_appends_the_message
    (req : Request) (now : Z) (s : Server) :
  succeeded (fst (serve POST_message req now s)) = true ->
  exists (text : string) (u : Z),
    body_text req = Some text
    /\ Message.valid_text text = true
    /\ (validator.plain text = true -> (1 <= Utf8.length text <= 500)%nat)
    /\ userId (session_of s req) = Some u
    /\ is_Some (users (db s) !! u)
    /\ let m := {| m_id := nextId (db s); m_text := text; m_user_id := u;
                   m_createdAt := now; m_updatedAt := now |} in
       messages (db (snd (serve POST_message req now s))) = (messages (db s) ++ [m])%list
       /\ fst (serve POST_message req now s)
          = Some {| status := 201; body := JObj (Message.toJSON m) |}.
Proof.
  controllers. cbn. repeat (case_match; cbn); simplify_eq; try discriminate. intros _.
  eexists _, _. split; [reflexivity|]. split; [eassumption|]. split.
  - intros Hplain.
    match goal with Hvalid : Message.valid_text _ = true |- _ =>
      unfold Message.valid_text in Hvalid;
      rewrite validator.isLength_plain in Hvalid by exact Hplain;
      apply andb_true_iff in Hvalid as [Hlo Hhi];
      apply Nat.leb_le in Hlo, Hhi; split; assumption
    end.
  - repeat split; eauto.
Qed.

(** X7. The ids of the messages stay distinct: when they are distinct and
    below the next id before a request, they are so after it, whatever the
    request and its answer. *)
Theorem message_ids_stay_distinct (r : Route) (req : Request) (now : Z) (s : Server) :
  ids_distinct (db s) /\ ids_below_next (db s) ->
  ids_distinct (db (snd (serve r req now s)))
  /\ ids_below_next (db (snd (serve r req now s))).
Proof.
  unfold ids_distinct, ids_below_next. intros [Hids Hnext].
  assert (Hdestroy : forall f,
             NoDup (map m_id (List.filter f (messages (db s))))
             /\ Forall (fun m => m_id m < nextId (db s)) (List.filter f (messages (db s)))).
  { intros f. split; [|apply Forall_list_filter, Hnext].
    clear Hnext. induction (messages (db s)) as [|a ms IH]; cbn; [constructor|].
    apply NoDup_cons in Hids as [Ha Hids]. destruct (f a); [|apply IH, Hids].
    cbn. apply NoDup_cons. split; [|apply IH, Hids].
    intros Hin. apply Ha. apply list_elem_of_fmap in Hin as (b & -> & Hb).
    apply list_elem_of_fmap. exists b. split; [reflexivity|].
    apply list_elem_of_In. apply list_elem_of_In, filter_In in Hb. tauto. }
  assert (Hupdate : forall (f : MessageRow -> bool) (g : MessageRow -> MessageRow),
             (forall m, m_id (g m) = m_id m) ->
             map m_id (map (fun m : MessageRow => if (f m : bool) then g m else m)
                           (messages (db s)))
             = map m_id (messages (db s))).
  { intros f g Hg. rewrite map_map. apply map_ext. intros m.
    destruct (f m); [apply Hg | reflexivity]. }
  assert (Hcreate : forall m : MessageRow,
             m_id m = nextId (db s) ->
             NoDup (map m_id (messages (db s) ++ [m]))
             /\ Forall (fun a => m_id a < nextId (db s) + 1) (messages (db s) ++ [m])).
  { intros m Hm. split.
    - rewrite map_app. cbn [map]. apply NoDup_app. split; [exact Hids|]. split.
      + intros x Hx Hx'. apply list_elem_of_singleton in Hx'. subst x.
        apply list_elem_of_fmap in Hx as (a & Ha & Hin).
        rewrite Forall_forall in Hnext. specialize (Hnext a Hin).
        cbv beta in Hnext. lia.
      + apply NoDup_singleton.
    - apply Forall_app. split.
      + eapply Forall_impl; [exact Hnext|]. intros a Ha. cbv beta in Ha |- *. lia.
      + constructor; [cbv beta; lia | constructor]. }
  controllers. destruct r; cbn; repeat (case_match; cbn); simplify_eq; cbn;
    first [ split; assumption
          | apply Hdestroy
          | apply Hcreate; reflexivity
          | split;
            [ rewrite Hupdate by reflexivity; exact Hids
            | apply Forall_map; eapply Forall_impl; [exact Hnext|];
              intros a Ha; cbn; destruct (Message.matches _ _ a); exact Ha ] ].
Qed.

End Effects.

(** ** Polls, listings and sessions *)

Section Reads.

Context `{Date.Parser} `{validator.Lib}.

(** X8. After a write answered with success at server time [now], a poll of
    any authenticated session reports updates exactly when its cursor is
    before [now]: a page whose cursor (its own local time) is at or after
    the server time of the write is told that nothing changed. *)
Theorem poll_after_a_write
    (r : Route) (req : Request) (now : Z) (s : Server) (poll : Request) (t : Z) :
  is_write r = true ->
  succeeded (fst (serve r req now s)) = true ->
  authenticated s poll ->
  exists hasUpdates : bool,
    serve GET_checkMessages poll t (snd (serve r req now s))
    = (Some (poll_answer hasUpdates t), snd (serve r req now s))
    /\ (hasUpdates = true <-> cursor poll < now).
Proof.
  intros Hwrite Hok Hauth.
  assert (Hauth' : authenticated (snd (serve r req now s)) poll).
  { unfold authenticated, session_of.
    rewrite write_keeps_sessions by exact Hwrite. exact Hauth. }
  exists (cursor poll <? now). split; [|apply Z.ltb_lt].
  rewrite serve_checkMessages by exact Hauth'.
  rewrite write_sets_watermark by assumption. reflexivity.
Qed.

Lemma like_percents (q : string) :
  all_chars "%" q -> forall t : string, Sql.like (q ++ "%") t = true.
Proof.
  induction q as [|c q IH]; cbn [all_chars].
  - intros _ t. apply like_any.
  - intros [-> Hq] t. change (String "%" q ++ "%")%string with (String "%" (q ++ "%")).
    rewrite like_percent, (IH Hq). reflexivity.
Qed.

Lemma like_underscores (q : string) :
  all_chars "_" q ->
  forall t : string,
    Sql.like (q ++ "%") t = (String.length q <=? Utf8.length t)%nat.
Proof.
  induction q as [|c q IH]; cbn [all_chars].
  - intros _ t. apply like_any.
  - intros [-> Hq] t. change (String "_" q ++ "%")%string with (String "_" (q ++ "%")).
    cbn [Sql.like Ascii.eqb Bool.eqb]. destruct t as [|d t]; [reflexivity|].
    rewrite (IH Hq), length_cons. reflexivity.
Qed.

Lemma like_some_underscores (q : string) :
  all_chars "_" q ->
  forall t : string,
    Sql.like ("%" ++ q ++ "%") t = (String.length q <=? Utf8.length t)%nat.
Proof.
  intros Hq t. change ("%" ++ q ++ "%")%string with (String "%" (q ++ "%")).
  induction t as [|d t IH]; rewrite like_percent, like_underscores by exact Hq.
  - apply orb_false_r.
  - rewrite IH. pose proof (length_le_cons d t) as Hle.
    destruct (Nat.leb_spec (String.length q) (Utf8.length (String d t))) as [Hfits|Hgt].
    + reflexivity.
    + cbn [orb]. apply Nat.leb_gt. lia.
Qed.

(** X9. The wildcards of LIKE reach the store from the search box: a search
    text made of [%] signs lists every message, and one made of [n]
    underscores lists the messages of at least [n] characters, a character
    of several bytes counting once. *)
Theorem search_text_of_wildcards
    (req : Request) (q : string) (now : Z) (s : Server) :
  authenticated s req ->
  authors_exist (db s) ->
  query_text req = Some q ->
  q <> "" ->
  (all_chars "%" q ->
   serve GET_searchMessagesByText req now s
   = (Some {| status := 200; body := JArr (listing (db s)) |}, s))
  /\ (all_chars "_" q ->
      serve GET_searchMessagesByText req now s
      = (Some {| status := 200;
                 body := JArr (map (record (users (db s)))
                                 (List.filter
                                    (fun m => (String.length q <=? Utf8.length (m_text m))%nat)
                                    (messages (db s)))) |}, s)).
Proof.
  intros Hauth Hst Hq Hne.
  rewrite (serve_search req q now s Hauth Hst Hq Hne). split; intros Hall.
  - unfold listing.
    assert (Hevery : forall ms : list MessageRow,
               List.filter (fun m => Sql.like ("%" ++ q ++ "%") (m_text m)) ms = ms).
    { change ("%" ++ q ++ "%")%string with (String "%" (q ++ "%")).
      induction ms as [|m ms IH]; cbn [List.filter]; [reflexivity|].
      rewrite like_percent, like_percents by exact Hall. cbn [orb]. f_equal. exact IH. }
    rewrite Hevery. reflexivity.
  - rewrite (List.filter_ext _ (fun m => (String.length q <=? Utf8.length (m_text m))%nat));
      [reflexivity|].
    intros m. apply like_some_underscores, Hall.
Qed.

Lemma map_messages_missing_author (us : gmap Z UserRow) (ms : list MessageRow) :
  Exists (fun m => us !! m_user_id m = None) ms ->
  map_messages (map (fun m => (m, us !! m_user_id m)) ms) = Throw "TypeError".
Proof.
  induction 1 as [m ms Hm | m ms _ IH]; cbn [map map_messages];
    unfold withFullName at 1; cbn [fst snd].
  - rewrite Hm. reflexivity.
  - destruct (us !! m_user_id m); [|reflexivity]. rewrite IH. reflexivity.
Qed.

(** X10. The full fetch answers an authenticated session with one record per
    message, in store order; when a message has lost its author the answer
    is 500 instead.  Either way the store and the watermark stay, and the
    only change is the [lastUpdate] stamp of that session. *)
Theorem full_fetch_lists_the_store (req : Request) (now : Z) (s : Server) :
  authenticated s req ->
  (authors_exist (db s) ->
   fst (serve GET_message req now s)
   = Some {| status := 200; body := JArr (listing (db s)) |}
   /\ List.length (listing (db s)) = List.length (messages (db s)))
  /\ (Exists (fun m => users (db s) !! m_user_id m = None) (messages (db s)) ->
      fst (serve GET_message req now s)
      = Some {| status := 500; body := Express.error "Internal server error" |})
  /\ db (snd (serve GET_message req now s)) = db s
  /\ lastServerUpdate (snd (serve GET_message req now s)) = lastServerUpdate s
  /\ sessions (snd (serve GET_message req now s))
     = <[sessionID req :=
           {| userId := userId (session_of s req);
              isLoggedIn := isLoggedIn (session_of s req);
              fullName := fullName (session_of s req);
              lastUpdate := Some now |}]> (sessions s).
Proof.
  intros Hauth. split; [|split].
  - intros Hst. split; [apply serve_GET_message; assumption|].
    unfold listing. apply length_map.
  - intros Hmissing. unfold serve, api. rewrite requireAuth_next by exact Hauth.
    controllers. cbn [srv res db fst snd]. cbv beta.
    rewrite map_messages_missing_author by exact Hmissing. reflexivity.
  - unfold serve, api. rewrite requireAuth_next by exact Hauth.
    controllers. cbn [srv res db fst snd]. cbv beta.
    destruct (map_messages _); repeat split.
Qed.

(** X11. Logging out ends the session of the caller and no other: from then on
    its cookie is refused on every guarded route, the other sessions are
    what they were, and neither the store nor the watermark has moved. *)
Theorem logout_ends_the_session (req : Request) (now : Z) (s : Server) :
  authenticated s req ->
  fst (serve GET_logout req now s)
  = Some {| status := 200; body := JObj [("message", JStr "Logged out successfully")] |}
  /\ db (snd (serve GET_logout req now s)) = db s
  /\ lastServerUpdate (snd (serve GET_logout req now s)) = lastServerUpdate s
  /\ (forall other : Request,
        sessionID other <> sessionID req ->
        session_of (snd (serve GET_logout req now s)) other = session_of s other)
  /\ (forall (r : Route) (next : Request) (t : Z),
        r <> GET_verifyUserSession ->
        sessionID next = sessionID req ->
        serve r next t (snd (serve GET_logout req now s))
        = (Some session_expired, snd (serve GET_logout req now s))).
Proof.
  intros Hauth.
  assert (Hserve : serve GET_logout req now s
                   = (Some {| status := 200;
                              body := JObj [("message", JStr "Logged out successfully")] |},
                      {| db := db s; lastServerUpdate := lastServerUpdate s;
                         sessions :=
                           <[sessionID req :=
                               {| userId := None; isLoggedIn := false; fullName := None;
                                  lastUpdate := lastUpdate (session_of s req) |}]>
                             (sessions s) |})).
  { unfold serve, api. rewrite requireAuth_next by exact Hauth.
    controllers. reflexivity. }
  rewrite Hserve. cbn [fst snd db lastServerUpdate].
  repeat split.
  - intros other Hother. unfold session_of. cbn [sessions].
    rewrite lookup_insert_ne by congruence. reflexivity.
  - intros r next t Hr Hsame. apply requireAuth_refuses; [exact Hr|].
    unfold session_of. cbn [sessions].
    rewrite Hsame, lookup_insert_eq. reflexivity.
Qed.

End Reads.

(** ** The page: what a cycle and a fetch do on the other answers *)

Lemma trim_right_blank (l : list string) :
  JS.trim_right l = [] <-> forallb JS.is_space l = true.
Proof.
  induction l as [|ch l IH]; cbn [JS.trim_right forallb]; [tauto|].
  destruct (JS.trim_right l) as [|d r] eqn:Hright.
  - destruct (JS.is_space ch); cbn [andb].
    + rewrite <- IH. tauto.
    + split; discriminate.
  - split; [discriminate|]. intros Hblank. apply andb_true_iff in Hblank as [_ Hl].
    apply IH in Hl. discriminate.
Qed.

Lemma trim_left_blank (l : list string) :
  forallb JS.is_space l = true -> JS.trim_left l = [].
Proof.
  induction l as [|ch l IH]; cbn [JS.trim_left forallb]; [reflexivity|].
  intros Hblank. apply andb_true_iff in Hblank as [-> Hl]. exact (IH Hl).
Qed.

Lemma trim_left_not_blank (l : list string) :
  forallb JS.is_space l = false -> forallb JS.is_space (JS.trim_left l) = false.
Proof.
  induction l as [|ch l IH]; cbn [JS.trim_left forallb]; [discriminate|].
  destruct (JS.is_space ch) eqn:Hch; cbn [andb].
  - exact IH.
  - intros _. cbn [forallb]. rewrite Hch. reflexivity.
Qed.

Lemma trim_left_Forall (P : string -> Prop) (l : list string) :
  Forall P l -> Forall P (JS.trim_left l).
Proof.
  induction 1 as [|ch l Hch Hl IH]; cbn [JS.trim_left]; [constructor|].
  destruct (JS.is_space ch); [exact IH | constructor; assumption].
Qed.

Lemma trim_right_Forall (P : string -> Prop) (l : list string) :
  Forall P l -> Forall P (JS.trim_right l).
Proof.
  induction 1 as [|ch l Hch Hl IH]; cbn [JS.trim_right]; [constructor|].
  destruct (JS.trim_right l) as [|d r].
  - destruct (JS.is_space ch); constructor; [exact Hch | constructor].
  - constructor; assumption.
Qed.

Lemma chars_not_empty (s : string) : Forall (fun ch => ch <> "") (Utf8.chars s).
Proof.
  induction s as [|b s IH]; [constructor|]. rewrite chars_step.
  destruct (Utf8.starts_char s); [constructor; [discriminate | exact IH]|].
  destruct (Utf8.chars s) as [|ch more]; constructor; try discriminate.
  - constructor.
  - inversion IH; assumption.
Qed.

Lemma join_empty (l : list string) :
  Forall (fun ch => ch <> "") l -> Utf8.join l = "" <-> l = [].
Proof.
  intros Hl. split; [|intros ->; reflexivity].
  destruct Hl as [|ch l Hch _]; [reflexivity|].
  cbn [Utf8.join fold_right]. destruct ch; [contradiction | discriminate].
Qed.

(** [trim] leaves nothing exactly of the texts that are all white space. *)
Lemma trim_blank (s : string) : JS.trim s = "" <-> blank s = true.
Proof.
  unfold JS.trim, blank.
  rewrite join_empty by (apply trim_right_Forall, trim_left_Forall, chars_not_empty).
  rewrite trim_right_blank. destruct (forallb JS.is_space (Utf8.chars s)) eqn:Hs.
  - rewrite (trim_left_blank _ Hs). cbn. tauto.
  - rewrite (trim_left_not_blank _ Hs). split; discriminate.
Qed.

(** X12. A text of white space (the characters [trim] strips, the
    no-break space and the other Unicode spaces among them) typed into
    the message box, the edit box or the search box never reaches the
    network: sending does nothing, saving and searching only show a
    notification. *)
Theorem blank_input_is_not_sent (c : Client) :
  (blank (messageInput c) = true -> Main.onSubmit c = Ret (Ok tt, c))
  /\ (blank (editMessageInput c) = true ->
      (forall id : Z,
          Main.saveUpdatedMessage id c
          = Ret (Ok tt, add_notification ("Message cannot be empty", "danger") c))
      /\ Main.handleSearchMessagesButton c
         = Ret (Ok tt, add_notification ("Please enter search text", "warning") c)).
Proof.
  split; [intros Hblank | intros Hblank; split; [intros id|]];
    apply trim_blank in Hblank.
  - unfold Main.onSubmit. async. rewrite Hblank. reflexivity.
  - unfold Main.saveUpdatedMessage. async. rewrite Hblank. reflexivity.
  - unfold Main.handleSearchMessagesButton. async. rewrite Hblank. reflexivity.
Qed.

(** X13. A polling cycle whose poll does not signal updates (no updates, an
    error status, a body that is not JSON, no answer at all) asks nothing
    more: two calls were made, the list and the cursor are what they were,
    and the user is shown nothing. *)
Theorem cycle_without_updates_changes_nothing
    (c : Client) (a p : FetchResult) :
  ~ signals_updates p ->
  exists c' : Client,
    run (Main.checkForNewMessages c) [Network a; Network p]
    = Some ((Ok tt, c'), [GET GET_verifyUserSession; poll_call c], [])
    /\ messagesList c' = messagesList c
    /\ dataset_lastUpdate c' = dataset_lastUpdate c
    /\ notifications c' = notifications c.
Proof.
  intros Hquiet.
  assert (Hsession : exists (b : bool) (c1 : Client),
             run (Main.checkSession c) [Network a; Network p]
             = Some ((Ok b, c1), [GET GET_verifyUserSession], [Network p])
             /\ dataset_lastUpdate c1 = dataset_lastUpdate c
             /\ messagesList c1 = messagesList c
             /\ notifications c1 = notifications c).
  { unfold Main.checkSession. async. cbn [run].
    destruct a as [|ok [data|]]; async; cbn [run]; [eauto 8| |eauto 8].
    destruct (JS.prop data "authenticated") as [v|e]; async; [|cbn [run]; eauto 8].
    destruct (negb (JS.truthy v)); async; [cbn [run]; eauto 8|].
    destruct (JS.prop data "userId") as [u|e]; async; cbn [run]; eauto 8. }
  destruct Hsession as (b & c1 & Hsession & Hcursor & Hlist & Hnotes).
  unfold Main.checkForNewMessages. async.
  rewrite !run_prog_bind, Hsession. async. cbn [run]. fold (held_cursor c1).
  assert (Hcall : {| f_route := GET_checkMessages; f_id := 0; f_text := None;
                     f_query := None; f_last_update := Some (held_cursor c1) |}
                  = poll_call c).
  { unfold poll_call, held_cursor. rewrite Hcursor. reflexivity. }
  rewrite Hcall.
  destruct p as [|ok [data|]]; async; cbn [run app].
  - eexists. split; [reflexivity|]. repeat split; assumption.
  - destruct ok; async.
    + destruct (JS.prop data "hasUpdates") as [v|e] eqn:Hprop; async.
      * destruct (JS.truthy v) eqn:Htruthy.
        -- exfalso. apply Hquiet. exists data, v. repeat split; assumption.
        -- async. cbn [run]. eexists. split; [reflexivity|]. repeat split; assumption.
      * cbn [run]. eexists. split; [reflexivity|]. repeat split; assumption.
    + destruct (JS.prop data "error") as [v|e]; async; cbn [run];
        eexists; (split; [reflexivity|]); repeat split; assumption.
  - eexists. split; [reflexivity|]. repeat split; assumption.
Qed.

(** X14. When the full fetch brings no list at all, the page keeps its list
    and its cursor, and tells the user that the fetch failed. *)
Theorem failed_fetch_keeps_the_page (c : Client) (p : FetchResult) :
  no_list p ->
  run (Main.fetchMessages c) [Network p]
  = Some ((Ok tt, add_console "Error fetching messages:"
                    (add_notification ("Failed to fetch messages", "danger") c)),
          [GET GET_message], []).
Proof.
  intros [-> | [[ok ->] | [ok ->]]]; unfold Main.fetchMessages; async; cbn [run]; async;
    reflexivity.
Qed.

(** X15. When the full fetch is answered with an object that has no message
    list (the error body of a 401 or a 500, for one), whatever its status,
    the page shows "No messages found" in place of its list and moves its
    cursor to the local time, as after a fetch that found the store
    empty. *)
Theorem error_body_empties_the_page
    (c : Client) (ok : bool) (fields : list (string * Json)) (t : Z) :
  JS.truthy (JS.assoc "messages" fields) = false ->
  run (Main.fetchMessages c) [Network (Resolved ok (Some (JObj fields))); Clock t]
  = Some ((Ok tt, refreshed [] t c), [GET GET_message], [])
  /\ messagesList (refreshed [] t c) = [Placeholder "No messages found"]
  /\ dataset_lastUpdate (refreshed [] t c) = Some (Date.toISOString t).
Proof.
  intros Hfalsy. split; [|split; reflexivity].
  unfold Main.fetchMessages. async. cbn [run]. async. cbn [JS.isArray JS.prop]. async.
  unfold JS.or_else. rewrite Hfalsy.
  rewrite (displayMessages_rendering [] _ (List.Forall_nil _)). async. cbn [run]. reflexivity.
Qed.

(** ** The page and the server together: cycles *)

Section Cycles.

Context `{Date.Parser} `{validator.Lib}.

Lemma serve_verifyUserSession (req : Request) (t : Z) (s : Server) (u : Z) :
  userId (session_of s req) = Some u ->
  u <> 0 ->
  serve GET_verifyUserSession req t s
  = (Some {| status := 200;
             body := JObj [("authenticated", JBool true);
                           ("sessionId", JStr (sessionID req)); ("userId", JNum u)] |}, s).
Proof.
  intros Hu Hne. unfold serve, api, verifyUserSession, session, mbind, Handler_bind, send.
  cbn [srv res fst snd]. rewrite Hu. cbn.
  apply Z.eqb_neq in Hne. rewrite Hne. reflexivity.
Qed.

Lemma user_of_authenticated (s : Server) (cookie : string) (u : Z) (f : FetchCall) :
  user_of s cookie = Some u -> u <> 0 -> authenticated s (to_request cookie f).
Proof.
  unfold user_of, authenticated, session_of. cbn [to_request sessionID].
  intros -> Hne. cbn. apply Z.eqb_neq in Hne. rewrite Hne. reflexivity.
Qed.

(** The session check against the server, signed in. *)
Lemma connect_checkSession (c : Client) (cookie : string) (u t : Z) (rest : list Z)
    (s : Server) :
  user_of s cookie = Some u ->
  u <> 0 ->
  connect (Main.checkSession c) cookie (t :: rest) s
  = Some ((Ok true, set_currentUserId (Some (JNum u)) c),
          [serve_call (arriving cookie (GET GET_verifyUserSession) t) s], s, rest).
Proof.
  intros Hu Hne.
  pose proof (serve_verifyUserSession (to_request cookie (GET GET_verifyUserSession)) t s u
                Hu Hne) as Hserve.
  unfold Main.checkSession. async. cbn [connect]. unfold serve_call at 1 2.
  cbn [response after arriving route request time f_route GET]. rewrite Hserve.
  cbn [fst snd to_result status body]. async.
  cbn [JS.prop JS.assoc String.eqb Ascii.eqb Bool.eqb]. async. cbn [connect]. reflexivity.
Qed.

Lemma page_cursor_request (c : Client) (cookie : string) :
  cursor (to_request cookie (poll_call c)) = page_cursor c.
Proof. reflexivity. Qed.

(** One polling cycle against the server, signed in. *)
Lemma connect_cycle (c : Client) (cookie : string) (u t1 t2 : Z) (s : Server) :
  user_of s cookie = Some u ->
  u <> 0 ->
  authors_exist (db s) ->
  let c1 := set_currentUserId (Some (JNum u)) c in
  let h1 := serve_call (arriving cookie (GET GET_verifyUserSession) t1) s in
  let h2 := serve_call (arriving cookie (poll_call c) t2) s in
  (page_cursor c < lastServerUpdate s ->
   forall (t3 t4 : Z) (rest : list Z),
     let h3 := serve_call (arriving cookie (GET GET_message) t3) s in
     connect (Main.checkForNewMessages c) cookie (t1 :: t2 :: t3 :: t4 :: rest) s
     = Some ((Ok tt, refreshed (listing (db s)) t4 c1), [h1; h2; h3], after h3, rest))
  /\ (lastServerUpdate s <= page_cursor c ->
      forall rest : list Z,
        connect (Main.checkForNewMessages c) cookie (t1 :: t2 :: rest) s
        = Some ((Ok tt, c1), [h1; h2], s, rest)).
Proof.
  intros Hu Hne Hst c1 h1 h2.
  assert (Hpoll : serve GET_checkMessages (to_request cookie (poll_call c)) t2 s
                  = (Some (poll_answer (page_cursor c <? lastServerUpdate s) t2), s)).
  { rewrite serve_checkMessages by (eapply user_of_authenticated; eassumption).
    reflexivity. }
  assert (Hfetch : forall t3 t4 rest,
             connect (Main.fetchMessages c1) cookie (t3 :: t4 :: rest) s
             = Some ((Ok tt, refreshed (listing (db s)) t4 c1),
                     [serve_call (arriving cookie (GET GET_message) t3) s],
                     after (serve_call (arriving cookie (GET GET_message) t3) s), rest)).
  { intros t3 t4 rest. apply connect_fetchMessages; [|exact Hst].
    eapply user_of_authenticated; eassumption. }
  split.
  - intros Hbefore t3 t4 rest h3. apply Z.ltb_lt in Hbefore. rewrite Hbefore in Hpoll.
    unfold Main.checkForNewMessages. async.
    rewrite !connect_prog_bind, (connect_checkSession c cookie u t1 _ s Hu Hne).
    async. cbn [connect].
    change (dataset_lastUpdate (set_currentUserId (Some (JNum u)) c))
      with (dataset_lastUpdate c).
    fold (held_cursor c). fold (poll_call c).
    unfold serve_call at 1 2 3.
    cbn [response after arriving route request time].
    change (f_route (poll_call c)) with GET_checkMessages. rewrite Hpoll.
    cbn [fst snd to_result poll_answer status body].
    change ((200 <=? 200) && (200 <=? 299)) with true. async.
    cbn [JS.prop JS.assoc String.eqb Ascii.eqb Bool.eqb JS.truthy]. async.
    fold c1. rewrite Hfetch. cbn [connect fst snd app].
    unfold h1, h2, h3, serve_call, arriving. cbn [route request time].
    change (f_route (poll_call c)) with GET_checkMessages. rewrite Hpoll. reflexivity.
  - intros Hafter rest. apply Z.ltb_ge in Hafter. rewrite Hafter in Hpoll.
    unfold Main.checkForNewMessages. async.
    rewrite !connect_prog_bind, (connect_checkSession c cookie u t1 _ s Hu Hne).
    async. cbn [connect].
    change (dataset_lastUpdate (set_currentUserId (Some (JNum u)) c))
      with (dataset_lastUpdate c).
    fold (held_cursor c). fold (poll_call c).
    unfold serve_call at 1 2 3.
    cbn [response after arriving route request time].
    change (f_route (poll_call c)) with GET_checkMessages. rewrite Hpoll.
    cbn [fst snd to_result poll_answer status body].
    change ((200 <=? 200) && (200 <=? 299)) with true. async.
    cbn [JS.prop JS.assoc String.eqb Ascii.eqb Bool.eqb JS.truthy]. async.
    cbn [connect fst snd app].
    unfold h1, h2, serve_call, arriving. cbn [route request time].
    change (f_route (poll_call c)) with GET_checkMessages. rewrite Hpoll. reflexivity.
Qed.

Lemma serve_GET_message_server (req : Request) (now : Z) (s : Server) :
  authenticated s req ->
  db (snd (serve GET_message req now s)) = db s
  /\ lastServerUpdate (snd (serve GET_message req now s)) = lastServerUpdate s
  /\ sessions (snd (serve GET_message req now s))
     = <[sessionID req :=
           {| userId := userId (session_of s req);
              isLoggedIn := isLoggedIn (session_of s req);
              fullName := fullName (session_of s req);
              lastUpdate := Some now |}]> (sessions s).
Proof.
  intros Hauth. unfold serve, api. rewrite requireAuth_next by exact Hauth.
  controllers. cbn [srv res db fst snd]. cbv beta.
  destruct (map_messages _); repeat split.
Qed.

Lemma user_of_GET_message (cookie : string) (now : Z) (s : Server) (u : Z) :
  user_of s cookie = Some u ->
  u <> 0 ->
  user_of (snd (serve GET_message (to_request cookie (GET GET_message)) now s)) cookie
  = Some u.
Proof.
  intros Hu Hne.
  destruct (serve_GET_message_server (to_request cookie (GET GET_message)) now s)
    as (_ & _ & Hsessions); [eapply user_of_authenticated; eassumption|].
  unfold user_of. rewrite Hsessions. cbn [to_request sessionID].
  rewrite lookup_insert_eq. cbn [default userId]. exact Hu.
Qed.

Lemma toISOString_not_empty (t : Z) : Date.toISOString t <> "".
Proof.
  unfold Date.toISOString. destruct (Date.civil_from_days _) as [[y m] d].
  cbv zeta.
  match goal with |- (?year ++ _)%string <> _ => destruct year end;
    cbn [append]; discriminate.
Qed.

Lemma page_cursor_refreshed (msgs : list Json) (t : Z) (c : Client) :
  Date.parse (Date.toISOString t) = Some t ->
  page_cursor (refreshed msgs t c) = t.
Proof.
  intros Hparse. unfold page_cursor, cursor, poll_call, held_cursor, refreshed.
  cbn [to_request header_last_update dataset_lastUpdate set_lastUpdate set_messagesList
       JS.truthy_string fmap option_fmap option_map JS.truthy default].
  pose proof (toISOString_not_empty t) as Hne.
  destruct (Date.toISOString t) as [|a rest] eqn:Hiso; [congruence|].
  cbn. rewrite Hparse. reflexivity.
Qed.

(** X16. The change one user makes reaches the page of another at that page's
    next cycle.  After a successful create, update or delete served at
    [now], a page of a signed-in user whose cursor is before [now] runs
    its cycle as session check, poll and full fetch, and ends showing the
    listing of the store the write left, every record rendered for its own
    user, with the cursor at its own clock reading; the cycle changes
    nothing in the store. *)
Theorem next_cycle_of_another_page_shows_the_write
    (r : Route) (req : Request) (now : Z) (s : Server)
    (c : Client) (cookie : string) (u t1 t2 t3 t4 : Z) :
  is_write r = true ->
  succeeded (fst (serve r req now s)) = true ->
  authors_exist (db s) ->
  user_of s cookie = Some u ->
  u <> 0 ->
  page_cursor c < now ->
  let s' := snd (serve r req now s) in
  exists (c' : Client) (served : list Served) (s'' : Server),
    connect (Main.checkForNewMessages c) cookie [t1; t2; t3; t4] s'
    = Some ((Ok tt, c'), served, s'', [])
    /\ map (fun h => route (call h)) served
       = [GET_verifyUserSession; GET_checkMessages; GET_message]
    /\ messagesList c' = rendering (Some (JNum u)) (listing (db s'))
    /\ dataset_lastUpdate c' = Some (Date.toISOString t4)
    /\ db s'' = db s'.
Proof.
  intros Hw Hok Hst Hu Hne Hcursor s'.
  assert (Hu' : user_of s' cookie = Some u).
  { unfold user_of, s'. rewrite write_keeps_sessions by exact Hw. exact Hu. }
  assert (Hst' : authors_exist (db s')) by (apply authors_preserved, Hst).
  assert (HW : page_cursor c < lastServerUpdate s').
  { unfold s'. rewrite write_sets_watermark by assumption. exact Hcursor. }
  destruct (connect_cycle c cookie u t1 t2 s' Hu' Hne Hst') as [Hcycle _].
  specialize (Hcycle HW t3 t4 []). cbv zeta in Hcycle.
  eexists _, _, _. split; [exact Hcycle|].
  split; [reflexivity|]. split; [reflexivity|]. split; [reflexivity|].
  unfold serve_call, arriving. cbn [after route request time f_route GET].
  apply serve_GET_message_server. eapply user_of_authenticated; eassumption.
Qed.

(** X17. Loading the page as a signed-in user: the session check, then the full
    fetch, then the first cycle at once (a second session check and a
    poll), in this order.  The page ends with the listing of the store
    rendered for its user, the cursor at the clock reading that followed
    the fetch, and the timer armed at the polling interval; the first poll
    reports no update when the watermark is not after that reading. *)
Theorem page_load_fetches_then_starts_polling
    (cookie : string) (u t1 t2 t3 t4 t5 : Z) (s : Server) :
  user_of s cookie = Some u ->
  u <> 0 ->
  authors_exist (db s) ->
  Date.parse (Date.toISOString t3) = Some t3 ->
  lastServerUpdate s <= t3 ->
  exists (c' : Client) (served : list Served) (s' : Server),
    connect (Main.init initial_client) cookie [t1; t2; t3; t4; t5] s
    = Some ((Ok tt, c'), served, s', [])
    /\ map (fun h => route (call h)) served
       = [GET_verifyUserSession; GET_message; GET_verifyUserSession; GET_checkMessages]
    /\ messagesList c' = rendering (Some (JNum u)) (listing (db s))
    /\ dataset_lastUpdate c' = Some (Date.toISOString t3)
    /\ pollingTimer c' = Some Main.POLLING_INTERVAL
    /\ currentUserId c' = Some (JNum u)
    /\ db s' = db s /\ lastServerUpdate s' = lastServerUpdate s.
Proof.
  intros Hu Hne Hst Hparse Hclock.
  pose proof (user_of_authenticated s cookie u (GET GET_message) Hu Hne) as Hauth.
  destruct (serve_GET_message_server _ t2 s Hauth) as (Hdb & Hmark & _).
  pose proof (user_of_GET_message cookie t2 s u Hu Hne) as Hu1.
  set (s1 := snd (serve GET_message (to_request cookie (GET GET_message)) t2 s)) in *.
  set (c1 := set_currentUserId (Some (JNum u)) initial_client).
  set (c2 := refreshed (listing (db s)) t3 c1).
  assert (Hst1 : authors_exist (db s1)) by (rewrite Hdb; exact Hst).
  destruct (connect_cycle c2 cookie u t4 t5 s1 Hu1 Hne Hst1) as [_ Hcycle].
  assert (Hquiet : lastServerUpdate s1 <= page_cursor c2).
  { unfold c2. rewrite page_cursor_refreshed by exact Hparse. lia. }
  specialize (Hcycle Hquiet []). cbv zeta in Hcycle.
  unfold Main.init, Main.startMessagePolling. async.
  rewrite !connect_prog_bind, (connect_checkSession _ cookie u t1 _ s Hu Hne).
  async. fold c1. rewrite !connect_prog_bind.
  rewrite (connect_fetchMessages c1 cookie t2 t3 _ s Hauth Hst).
  change (after (serve_call (arriving cookie (GET GET_message) t2) s)) with s1.
  fold c2. async. rewrite !connect_prog_bind, Hcycle. async.
  cbn [connect app fst snd].
  eexists _, _, _. split; [reflexivity|].
  repeat split; assumption.
Qed.

Lemma element_card (us : gmap Z UserRow) (u : Z) (m : MessageRow) :
  is_Some (us !! m_user_id m) ->
  Card (element (Some (JNum u)) (record us m)) = card us u m.
Proof.
  intros [row Hrow]. unfold card, author_name, element, field, record, withFullName.
  cbn [fst snd]. rewrite Hrow.
  cbn [JS.prop JS.assoc Message.toJSON app String.eqb Ascii.eqb Bool.eqb JS.strict_eq
       JS.truthy].
  pose proof (toISOString_not_empty (m_createdAt m)) as Hne.
  destruct (Date.toISOString (m_createdAt m)); [congruence|]. reflexivity.
Qed.

(** X18. What the page of user [u] draws for the full listing of a store: the
    placeholder when there is no message; otherwise one card per message,
    in store order, with the name of the author, the text and the creation
    time, and with the Edit and Delete buttons on the messages of [u] and
    on no other. *)
Theorem buttons_are_on_own_messages_only (st : Store) (u : Z) (c : Client) :
  authors_exist st ->
  currentUserId c = Some (JNum u) ->
  Main.displayMessages (JArr (listing st)) c
  = Ret (Ok tt,
         set_messagesList
           (match messages st with
            | [] => [Placeholder "No messages found"]
            | _ :: _ => map (card (users st) u) (messages st)
            end) c).
Proof.
  intros Hst Hu. rewrite displayMessages_rendering by (apply listing_not_null, Hst).
  rewrite Hu. do 3 f_equal. unfold listing.
  destruct (messages st) as [|m ms] eqn:Hms; [reflexivity|].
  unfold authors_exist in Hst. rewrite Hms in Hst.
  cbn [map rendering]. rewrite List.map_map.
  inversion Hst as [|? ? Hm Hrest]; subst. f_equal; [apply element_card, Hm|].
  clear Hst Hms Hm. induction Hrest as [|m' ms' Hm' _ IH]; [reflexivity|].
  cbn [map]. f_equal; [apply element_card, Hm'|exact IH].
Qed.

End Cycles.

(** * Registration and login *)

(** ** Regular expressions *)

Section RegExpFacts.

Import RegExp.

Lemma append_String (c : ascii) (s t : string) :
  (String c s ++ t)%string = String c (s ++ t)%string.
Proof. reflexivity. Qed.

Lemma append_empty (s t : string) : (s ++ t)%string = "" -> s = "" /\ t = "".
Proof. destruct s; cbn; [auto|discriminate]. Qed.

Lemma append_cons (c : ascii) (r s t : string) :
  (s ++ t)%string = String c r ->
  (s = "" /\ t = String c r) \/ (exists s', s = String c s' /\ r = (s' ++ t)%string).
Proof.
  destruct s as [|d s']; cbn; intros Heq; [left; auto|].
  injection Heq as -> <-. right. eauto.
Qed.

Lemma append_empty_r (s : string) : (s ++ "")%string = s.
Proof. induction s as [|c s IH]; [reflexivity|]. rewrite append_String, IH. reflexivity. Qed.

Lemma append_assoc (s t u : string) : ((s ++ t) ++ u)%string = (s ++ (t ++ u))%string.
Proof. induction s as [|c s IH]; [reflexivity|]. rewrite !append_String, IH. reflexivity. Qed.

Lemma nullable_spec (r : Pattern) : nullable r = true <-> Matches r "".
Proof.
  induction r as [| |p|a IHa b IHb|a IHa]; cbn.
  - split; [discriminate|inversion 1].
  - split; [constructor|reflexivity].
  - split; [discriminate|inversion 1].
  - rewrite andb_true_iff, IHa, IHb. split.
    + intros [Ha Hb]. exact (Matches_Seq a b "" "" Ha Hb).
    + inversion 1 as [| |a' b' s t Ha Hb Hab Hst| |]; subst.
      apply append_empty in Hst as [-> ->]. auto.
  - split; [constructor|reflexivity].
Qed.

Lemma Matches_Star_inv (a : Pattern) (c : ascii) (r : string) :
  Matches (Star a) (String c r) ->
  exists s t, r = (s ++ t)%string /\ Matches a (String c s) /\ Matches (Star a) t.
Proof.
  intros Hm. remember (Star a) as p eqn:Hp. remember (String c r) as w eqn:Hw.
  revert Hp Hw.
  induction Hm as [|p' c' Hc|a' b' s t Ha _ Hb _| |a' s t Ha _ Hstar IH];
    intros Hp Hw; try discriminate.
  injection Hp as ->.
  apply append_cons in Hw as [[-> ->]|(s' & -> & ->)].
  - apply IH; reflexivity.
  - eauto.
Qed.

Lemma derive_spec (c : ascii) (r : Pattern) :
  forall s : string,
    (exists r', In r' (derive c r) /\ Matches r' s) <-> Matches r (String c s).
Proof.
  induction r as [| |p|a IHa b IHb|a IHa]; intros s; cbn [derive].
  - split; [intros (r' & [] & _)|inversion 1].
  - split; [intros (r' & [] & _)|inversion 1].
  - split.
    + destruct (p c) eqn:Hpc; [|intros (r' & [] & _)].
      intros (r' & [<-|[]] & Hm). inversion Hm; subst. constructor. exact Hpc.
    + inversion 1; subst. replace (p c) with true by congruence.
      exists Eps. split; [left; reflexivity|constructor].
  - split.
    + intros (r' & Hin & Hm). apply in_app_iff in Hin as [Hin|Hin].
      * apply in_map_iff in Hin as (a' & <- & Hin).
        inversion Hm as [| |a0 b0 s1 s2 Ha' Hb Hab Hs| |]; subst.
        change (String c (s1 ++ s2)) with (String c s1 ++ s2)%string.
        constructor; [|exact Hb]. apply IHa. eauto.
      * destruct (nullable a) eqn:Hnull; [|destruct Hin].
        change (String c s) with ("" ++ String c s)%string.
        constructor; [apply nullable_spec, Hnull|]. apply IHb. eauto.
    + inversion 1 as [| |a0 b0 s1 s2 Ha Hb Hab Hs| |]; subst.
      apply append_cons in Hs as [[-> ->]|(s' & -> & ->)].
      * apply IHb in Hb as (r' & Hin & Hm). exists r'. split; [|exact Hm].
        apply in_app_iff. right.
        replace (nullable a) with true by (symmetry; apply nullable_spec, Ha).
        exact Hin.
      * apply IHa in Ha as (a' & Hin & Hm). exists (Seq a' b).
        split; [|constructor; assumption].
        apply in_app_iff. left. apply in_map_iff. eauto.
  - split.
    + intros (r' & Hin & Hm). apply in_map_iff in Hin as (a' & <- & Hin).
      inversion Hm as [| |a0 b0 s1 s2 Ha' Hb Hab Hs| |]; subst.
      change (String c (s1 ++ s2)) with (String c s1 ++ s2)%string.
      apply Matches_Star_cons; [|exact Hb]. apply IHa. eauto.
    + intros Hm. apply Matches_Star_inv in Hm as (s1 & s2 & -> & Ha & Hstar).
      apply IHa in Ha as (a' & Hin & Hm). exists (Seq a' (Star a)).
      split; [|constructor; assumption]. apply in_map_iff. eauto.
Qed.

Lemma matches_from_spec (s : string) :
  forall rs : list Pattern,
    matches_from rs s = true <-> exists r, In r rs /\ Matches r s.
Proof.
  induction s as [|c s IH]; intros rs; cbn [matches_from].
  - rewrite existsb_exists. split; intros (r & Hin & Hr); exists r;
      (split; [exact Hin|]); apply nullable_spec, Hr.
  - rewrite IH. split.
    + intros (r' & Hin & Hm). apply in_flat_map in Hin as (r & Hin & Hd).
      exists r. split; [exact Hin|]. apply derive_spec. eauto.
    + intros (r & Hin & Hm). apply derive_spec in Hm as (r' & Hd & Hm).
      exists r'. split; [|exact Hm]. apply in_flat_map. eauto.
Qed.

(** [test] decides [Matches]. *)
Lemma test_spec (r : Pattern) (v : option string) :
  test r v = true <-> Matches r (to_str v).
Proof.
  unfold test. rewrite matches_from_spec. split.
  - intros (r' & [<-|[]] & Hm). exact Hm.
  - intros Hm. exists r. split; [left; reflexivity|exact Hm].
Qed.

Lemma Matches_Star_class (p : ascii -> bool) (s : string) :
  Matches (Star (Class p)) s <-> all_in p s = true.
Proof.
  split.
  - intros Hm. remember (Star (Class p)) as r eqn:Hr. revert Hr.
    induction Hm as [| | | |a s t Ha _ Hstar IH]; intros Hr; try discriminate.
    + reflexivity.
    + injection Hr as ->. inversion Ha; subst. rewrite append_String; cbn [all_in].
      apply andb_true_iff. split; [assumption|apply IH; reflexivity].
  - induction s as [|c s IH]; cbn [all_in]; [constructor|].
    intros [Hc Hs]%andb_true_iff.
    change (String c s) with (String c "" ++ s)%string.
    constructor; [constructor; exact Hc|apply IH, Hs].
Qed.

Lemma Matches_Plus_class (p : ascii -> bool) (s : string) :
  Matches (Plus (Class p)) s <-> word_of p s.
Proof.
  unfold Plus, word_of. split.
  - inversion 1 as [| |a b s1 s2 Ha Hb Hab Hs| |]; subst.
    inversion Ha; subst. apply Matches_Star_class in Hb. rewrite append_String; cbn [all_in].
    split; [discriminate|]. apply andb_true_iff. auto.
  - intros [Hne Hall]. destruct s as [|c s]; [contradiction|].
    cbn [all_in] in Hall. apply andb_true_iff in Hall as [Hc Hs].
    change (String c s) with (String c "" ++ s)%string.
    constructor; [constructor; exact Hc|apply Matches_Star_class, Hs].
Qed.

End RegExpFacts.

(** ** The format check of the first step *)

Section Formats.

Import RegExp.

Lemma char_eq (x c : ascii) : char x c = true <-> c = x.
Proof. unfold char. rewrite Ascii.eqb_eq. split; congruence. Qed.

Lemma nameRegex_tail (t : string) :
  Matches (Star (Seq (Class (char " ")) (Plus (Class Register.letter)))) t ->
  forall w : string, word_of Register.letter w -> Name (w ++ t).
Proof.
  intros Hm.
  remember (Star (Seq (Class (char " ")) (Plus (Class Register.letter)))) as r eqn:Hr.
  revert Hr.
  induction Hm as [| | | |a s t Ha _ Hstar IH]; intros Hr; try discriminate;
    intros w Hw.
  - rewrite append_empty_r. apply Name_word, Hw.
  - injection Hr as ->.
    inversion Ha as [| |a0 b0 s1 s2 Hsp Hword Hab Hs| |]; subst.
    inversion Hsp as [|p c Hc| | |]; subst. apply char_eq in Hc as ->.
    apply Matches_Plus_class in Hword.
    rewrite append_assoc. rewrite append_String. change ("" ++ s2 ++ t)%string with (s2 ++ t)%string.
    change (String " " (s2 ++ t)) with (" " ++ (s2 ++ t))%string.
    apply Name_more; [exact Hw|]. apply IH; [reflexivity|exact Hword].
Qed.

Lemma Name_split (s : string) :
  Name s ->
  exists w t : string,
    s = (w ++ t)%string /\ word_of Register.letter w
    /\ Matches (Star (Seq (Class (char " ")) (Plus (Class Register.letter)))) t.
Proof.
  induction 1 as [w Hw|w s Hw _ (w' & t' & -> & Hw' & Ht')].
  - exists w, "". rewrite append_empty_r. repeat split; [apply Hw..|constructor].
  - exists w, ((" " ++ w') ++ t')%string. split; [|split; [exact Hw|]].
    + rewrite append_assoc. reflexivity.
    + constructor; [|exact Ht'].
      constructor; [constructor; reflexivity|apply Matches_Plus_class, Hw'].
Qed.

(** What [nameRegex] accepts. *)
Lemma nameRegex_spec (v : option string) :
  test Register.nameRegex v = true <-> Name (to_str v).
Proof.
  rewrite test_spec. unfold Register.nameRegex. split.
  - inversion 1 as [| |a b s t Hw Ht Hab Hs| |]; subst.
    apply nameRegex_tail; [exact Ht|]. apply Matches_Plus_class, Hw.
  - intros (w & t & -> & Hw & Ht)%Name_split.
    constructor; [apply Matches_Plus_class, Hw|exact Ht].
Qed.

(** What [emailRegex] accepts. *)
Lemma emailRegex_spec (v : option string) :
  test Register.emailRegex v = true <-> EmailShape (to_str v).
Proof.
  rewrite test_spec. unfold Register.emailRegex, EmailShape. split.
  - inversion 1 as [| |a b l t Hl Ht Hab Hs| |]; subst.
    inversion Ht as [| |a0 b0 s1 d Hat Hd Hab' Hs'| |]; subst.
    inversion Hat as [|p c Hc| | |]; subst. apply char_eq in Hc as ->.
    exists l, d. split; [reflexivity|]. split; apply Matches_Plus_class; assumption.
  - intros (l & d & -> & Hl & Hd).
    constructor; [apply Matches_Plus_class, Hl|].
    change ("@" ++ d)%string with (String "@" "" ++ d)%string.
    constructor; [constructor; reflexivity|apply Matches_Plus_class, Hd].
Qed.

End Formats.

(** ** The page handlers *)

Ltac pager :=
  unfold visit, arrival, pages, Middlewares.isUserLoggedIn, getMainPage, postMainPage,
    isUserExists, Login.postLoginPage, Login.getLoginPage, Login.clearAllCookies,
    Register.postRegisterPasswordPage, Register.getRegisterPage,
    Register.returnToHomePage, Register.setRegisterCookies,
    Register.extractRegisterBody, Register.findOne_where;
  repeat (unfold mbind, mret, Page_bind, Page_ret, Http.try_catch, Http.throw, Http.query,
            Http.session, Http.set_session, Http.render, Http.redirect, Http.cookie,
            Http.clearCookie, Http.with_srv;
          cbn -[RegExp.test UserModel.findOne UserModel.create
                Register.validRegisterEmailAndName Register.extractRegisterCookies
                form_session JS.truthy_id JS.truthy_string Login.strict_eq]).

Section Registration.

Context `{bcrypt.Lib} `{validator.Lib} `{Collation}.

Lemma validRegisterEmailAndName_run (email firstName lastName : option string) (x : Visit) :
  Register.validRegisterEmailAndName email firstName lastName x
  = (if negb (RegExp.test Register.emailRegex email)
     then Raise (Error consts.INVALID_EMAIL)
     else if negb (RegExp.test Register.nameRegex firstName)
          then Raise (Error consts.INVALID_FIRST_NAME)
          else if negb (RegExp.test Register.nameRegex lastName)
               then Raise (Error consts.INVALID_LAST_NAME)
               else Done tt, x).
Proof.
  unfold Register.validRegisterEmailAndName. pager.
  destruct (RegExp.test Register.emailRegex email); [|reflexivity].
  destruct (RegExp.test Register.nameRegex firstName); [|reflexivity].
  destruct (RegExp.test Register.nameRegex lastName); reflexivity.
Qed.

(** X19. The format check of the first step of the registration.  It passes
    exactly when the email is a word of letters, digits, dots, underscores
    and hyphens, an at sign, and a word of letters, digits, dots and
    hyphens, and both names are words of letters joined by single
    spaces; an absent field is checked as the text [undefined].  The
    first check that fails, in the order email, first name, last name,
    gives the error, and the check changes nothing. *)
Theorem format_check_of_the_first_step
    (email firstName lastName : option string) (x : Visit) :
  let shown := RegExp.to_str in
  let checked := Register.validRegisterEmailAndName email firstName lastName x in
  snd checked = x
  /\ (fst checked = Done tt
      <-> EmailShape (shown email) /\ Name (shown firstName) /\ Name (shown lastName))
  /\ (fst checked = Raise (Error consts.INVALID_EMAIL) <-> ~ EmailShape (shown email))
  /\ (fst checked = Raise (Error consts.INVALID_FIRST_NAME)
      <-> EmailShape (shown email) /\ ~ Name (shown firstName))
  /\ (fst checked = Raise (Error consts.INVALID_LAST_NAME)
      <-> EmailShape (shown email) /\ Name (shown firstName) /\ ~ Name (shown lastName)).
Proof.
  cbv zeta. rewrite validRegisterEmailAndName_run. cbn [fst snd].
  pose proof (emailRegex_spec email) as He.
  pose proof (nameRegex_spec firstName) as Hf.
  pose proof (nameRegex_spec lastName) as Hl.
  destruct (RegExp.test Register.emailRegex email);
    destruct (RegExp.test Register.nameRegex firstName);
    destruct (RegExp.test Register.nameRegex lastName); cbn [negb];
    (split; [reflexivity|]);
    repeat split; try discriminate; try tauto;
    try (intros; exfalso; intuition discriminate);
    intuition discriminate.
Qed.


Lemma findOne_Some (e : string) (st : Store) (i : Z) (r : UserRow) :
  UserModel.findOne e st = Some (i, r) ->
  users st !! i = Some r /\ same (u_email r) e = true.
Proof.
  unfold UserModel.findOne. intros [Hin Hsame]%List.find_some.
  split; [|exact Hsame]. apply elem_of_map_to_list, list_elem_of_In, Hin.
Qed.

Lemma findOne_None (e : string) (st : Store) :
  UserModel.findOne e st = None
  <-> forall (i : Z) (r : UserRow), users st !! i = Some r -> same (u_email r) e = false.
Proof.
  unfold UserModel.findOne. split.
  - intros Hnone i r Hr.
    apply (List.find_none _ _ Hnone (i, r)).
    apply list_elem_of_In, elem_of_map_to_list, Hr.
  - intros Hall. destruct (List.find _ _) as [[i r]|] eqn:Hfind; [|reflexivity].
    apply List.find_some in Hfind as [Hin Hsame].
    apply list_elem_of_In, elem_of_map_to_list in Hin.
    cbn [snd] in Hsame. rewrite (Hall i r Hin) in Hsame. discriminate.
Qed.

Lemma foldr_max_bound (l : list Z) (k : Z) : In k l -> k <= foldr Z.max 0 l.
Proof.
  induction l as [|a l IH]; cbn [In foldr]; [contradiction|].
  intros [->|Hin]; [lia|]. specialize (IH Hin). lia.
Qed.

Lemma foldr_max_nonneg (l : list Z) : 0 <= foldr Z.max 0 l.
Proof. induction l as [|a l IH]; cbn [foldr]; lia. Qed.

Lemma next_id_positive (us : gmap Z UserRow) : 1 <= UserModel.next_id us.
Proof.
  unfold UserModel.next_id. pose proof (foldr_max_nonneg (map fst (map_to_list us))). lia.
Qed.

Lemma next_id_fresh (us : gmap Z UserRow) : us !! UserModel.next_id us = None.
Proof.
  destruct (us !! UserModel.next_id us) as [r|] eqn:Hr; [|reflexivity]. exfalso.
  apply elem_of_map_to_list, list_elem_of_In in Hr.
  apply (in_map fst) in Hr. cbn [fst] in Hr.
  apply foldr_max_bound in Hr. unfold UserModel.next_id in Hr. lia.
Qed.

(** X20. The first step of the registration, for a visitor who is not signed
    in and posts an email.  An email that a user has already is refused
    with that message and no cookie; otherwise values that pass the format
    check are kept in the [user] cookie, for 30 seconds and out of reach
    of scripts, and the password page follows; values that do not pass
    give the register page with the message of the first failed check.
    The step never changes the process. *)
Theorem first_step_keeps_checked_values_in_a_cookie
    (req : Form) (salt e : string) (s : Server) :
  ~ signed_in s req ->
  body_email req = Some e ->
  let v := visit POST_users_register_password req salt s in
  let checked :=
    fst (Register.validRegisterEmailAndName (Some e) (body_firstName req)
           (body_lastName req) (arrival s)) in
  v_srv v = s /\ v_cleared v = []
  /\ (forall u, UserModel.findOne e (db s) = Some u ->
      v_reply v = Some (register_again_page (Str consts.ERROR_EMAIL_EXISTS))
      /\ v_cookies v = [])
  /\ (UserModel.findOne e (db s) = None ->
      match checked with
      | Done _ =>
          v_reply v = Some (password_page consts.DEFAULT_REGISTER_MESSAGE (Str ""))
          /\ v_cookies v
             = [("user",
                 {| c_email := Some e; c_firstName := body_firstName req;
                    c_lastName := body_lastName req; c_error := "" |},
                 {| httpOnly := true; maxAge := 30000 |})]
      | Raise err =>
          v_reply v = Some (register_again_page (message_of err)) /\ v_cookies v = []
      end).
Proof.
  intros Hout He v checked. subst v checked. unfold signed_in in Hout.
  apply not_true_is_false in Hout.
  destruct s as [st mark sess]. pager. rewrite Hout, He. pager.
  destruct (UserModel.findOne e st) as [u|] eqn:Hfind; pager;
    rewrite ?validRegisterEmailAndName_run; cbn [fst snd].
  - repeat split; intros; congruence.
  - destruct (negb (RegExp.test Register.emailRegex (Some e))); cbn [fst snd];
      [repeat split; intros; congruence|].
    destruct (negb (RegExp.test Register.nameRegex (body_firstName req))); cbn [fst snd];
      [repeat split; intros; congruence|].
    destruct (negb (RegExp.test Register.nameRegex (body_lastName req))); cbn [fst snd];
      repeat split; intros; congruence.
Qed.


Lemma validate_spec (v : UserModel.Values) (st : Store) :
  UserModel.validate v st = true
  <-> validator.isAlpha (UserModel.v_firstName v) = true
      /\ UserModel.len 3 32 (UserModel.v_firstName v) = true
      /\ validator.isAlpha (UserModel.v_lastName v) = true
      /\ UserModel.len 3 32 (UserModel.v_lastName v) = true
      /\ validator.isEmail (UserModel.v_email v) = true
      /\ UserModel.findOne (UserModel.v_email v) st = None
      /\ is_Some (UserModel.v_password v).
Proof.
  unfold UserModel.validate. rewrite !andb_true_iff.
  destruct (UserModel.findOne _ st), (UserModel.v_password v); split;
    intros; destruct_and?; repeat split; try congruence; eauto;
    match goal with Hsome : is_Some None |- _ => destruct Hsome; discriminate end.
Qed.

Lemma postLoginPage_run (req : Form) (salt : string) (s : Server) :
  ~ signed_in s req ->
  let values :=
    {| UserModel.v_email := (Register.extractRegisterCookies req).1.1;
       UserModel.v_firstName := (Register.extractRegisterCookies req).1.2;
       UserModel.v_lastName := (Register.extractRegisterCookies req).2;
       UserModel.v_password := body_password req |} in
  visit POST_login req salt s
  = if Login.strict_eq (body_password req) (body_confirmPassword req) then
      if UserModel.validate values (db s) then
        {| v_srv := {| db := snd (UserModel.create values salt (db s));
                       lastServerUpdate := lastServerUpdate s;
                       sessions := sessions s |};
           v_reply := Some (login_page consts.SUCCESSFUL_REGISTER (Str ""));
           v_cookies := [];
           v_cleared := ["user"; "email"; "lastName"; "firstName"] |}
      else
        {| v_srv := s; v_reply := Some (register_page (MessageOf ValidationError));
           v_cookies := []; v_cleared := [] |}
    else
      {| v_srv := s;
         v_reply := Some (password_page "" (Str consts.ERROR_NOT_MATCH_PASSWORD));
         v_cookies := []; v_cleared := [] |}.
Proof.
  intros Hout. unfold signed_in in Hout. apply not_true_is_false in Hout.
  destruct s as [st mark sess]. pager. rewrite Hout.
  destruct (Register.extractRegisterCookies req) as [[email firstName] lastName].
  pager. destruct (Login.strict_eq _ _); [|reflexivity].
  unfold UserModel.create. pager.
  destruct (UserModel.validate _ st); reflexivity.
Qed.

(** X21. The second step of the registration creates nothing unless everything
    fits.  When the two passwords differ the password page comes back
    with that message; when they agree but the model refuses the values
    (a name that is not alphabetic or not of 3 to 32 characters, an email
    the validator refuses or that a user has already, no password) the
    register page comes back with the message of the validation error.
    In both cases the process is unchanged and no cookie is cleared. *)
Theorem second_step_without_valid_values_creates_nothing
    (req : Form) (salt : string) (s : Server) :
  ~ signed_in s req ->
  let values :=
    {| UserModel.v_email := (Register.extractRegisterCookies req).1.1;
       UserModel.v_firstName := (Register.extractRegisterCookies req).1.2;
       UserModel.v_lastName := (Register.extractRegisterCookies req).2;
       UserModel.v_password := body_password req |} in
  let v := visit POST_login req salt s in
  (body_password req <> body_confirmPassword req ->
   v = {| v_srv := s;
          v_reply := Some (password_page "" (Str consts.ERROR_NOT_MATCH_PASSWORD));
          v_cookies := []; v_cleared := [] |})
  /\ (body_password req = body_confirmPassword req ->
      ~ (validator.isAlpha (UserModel.v_firstName values) = true
         /\ UserModel.len 3 32 (UserModel.v_firstName values) = true
         /\ validator.isAlpha (UserModel.v_lastName values) = true
         /\ UserModel.len 3 32 (UserModel.v_lastName values) = true
         /\ validator.isEmail (UserModel.v_email values) = true
         /\ UserModel.findOne (UserModel.v_email values) (db s) = None
         /\ is_Some (UserModel.v_password values)) ->
      v = {| v_srv := s; v_reply := Some (register_page (MessageOf ValidationError));
             v_cookies := []; v_cleared := [] |}).
Proof.
  intros Hout values v. subst v. rewrite postLoginPage_run by exact Hout. cbv zeta.
  fold values. split.
  - intros Hdiff.
    destruct (Login.strict_eq _ _) eqn:Heq; [|reflexivity]. exfalso. apply Hdiff.
    destruct (body_password req), (body_confirmPassword req); cbn in Heq;
      try discriminate; [|reflexivity]. apply String.eqb_eq in Heq. congruence.
  - intros Hsame Hbad. rewrite Hsame.
    replace (Login.strict_eq _ _) with true
      by (destruct (body_confirmPassword req); cbn; [rewrite String.eqb_refl|]; reflexivity).
    destruct (UserModel.validate values (db s)) eqn:Hvalid; [|reflexivity].
    exfalso. apply Hbad, validate_spec, Hvalid.
Qed.

(** X22. The second step creates the user when everything fits: the two
    passwords agree and the model accepts the values of the cookie.  The
    new user gets the next id, which no user had, the names and the email
    of the cookie and the hash of the password, with 10 rounds; the other
    users, the messages, the watermark and the sessions stay, so that the
    visitor is not signed in yet; the four cookies are cleared and the
    login page announces the success. *)
Theorem second_step_creates_the_user
    (req : Form) (salt p email firstName lastName : string) (s : Server) :
  ~ signed_in s req ->
  body_password req = Some p ->
  body_confirmPassword req = Some p ->
  Register.extractRegisterCookies req = (email, firstName, lastName) ->
  validator.isAlpha firstName = true -> UserModel.len 3 32 firstName = true ->
  validator.isAlpha lastName = true -> UserModel.len 3 32 lastName = true ->
  validator.isEmail email = true ->
  UserModel.findOne email (db s) = None ->
  let v := visit POST_login req salt s in
  let id := UserModel.next_id (users (db s)) in
  v_reply v = Some (login_page consts.SUCCESSFUL_REGISTER (Str ""))
  /\ v_cleared v = ["user"; "email"; "lastName"; "firstName"]
  /\ users (db s) !! id = None
  /\ users (db (v_srv v))
     = <[id := {| u_firstName := firstName; u_lastName := lastName; u_email := email;
                  u_password := bcrypt.hash p 10 salt |}]> (users (db s))
  /\ messages (db (v_srv v)) = messages (db s)
  /\ lastServerUpdate (v_srv v) = lastServerUpdate s
  /\ sessions (v_srv v) = sessions s.
Proof.
  intros Hout Hp Hc Hvalues Hf1 Hf2 Hl1 Hl2 He Hnew v id. subst v.
  rewrite postLoginPage_run by exact Hout. cbv zeta.
  rewrite Hp, Hc, Hvalues. cbn [fst snd Login.strict_eq]. rewrite String.eqb_refl.
  assert (Hvalid : UserModel.validate
                     {| UserModel.v_email := email; UserModel.v_firstName := firstName;
                        UserModel.v_lastName := lastName;
                        UserModel.v_password := Some p |} (db s) = true).
  { apply validate_spec. cbn. repeat split; eauto. }
  rewrite Hvalid. unfold UserModel.create. rewrite Hvalid.
  cbn. repeat split. apply next_id_fresh.
Qed.


Lemma postRegisterPasswordPage_run (req : Form) (salt e : string) (s : Server) :
  ~ signed_in s req ->
  body_email req = Some e ->
  visit POST_users_register_password req salt s
  = match UserModel.findOne e (db s) with
    | Some _ =>
        {| v_srv := s;
           v_reply := Some (register_again_page (Str consts.ERROR_EMAIL_EXISTS));
           v_cookies := []; v_cleared := [] |}
    | None =>
        if negb (RegExp.test Register.emailRegex (Some e))
        then {| v_srv := s;
                v_reply := Some (register_again_page (Str consts.INVALID_EMAIL));
                v_cookies := []; v_cleared := [] |}
        else if negb (RegExp.test Register.nameRegex (body_firstName req))
        then {| v_srv := s;
                v_reply := Some (register_again_page (Str consts.INVALID_FIRST_NAME));
                v_cookies := []; v_cleared := [] |}
        else if negb (RegExp.test Register.nameRegex (body_lastName req))
        then {| v_srv := s;
                v_reply := Some (register_again_page (Str consts.INVALID_LAST_NAME));
                v_cookies := []; v_cleared := [] |}
        else {| v_srv := s;
                v_reply := Some (password_page consts.DEFAULT_REGISTER_MESSAGE (Str ""));
                v_cookies :=
                  [("user",
                    {| c_email := Some e; c_firstName := body_firstName req;
                       c_lastName := body_lastName req; c_error := "" |},
                    {| httpOnly := true; maxAge := 30000 |})];
                v_cleared := [] |}
    end.
Proof.
  intros Hout He. unfold signed_in in Hout. apply not_true_is_false in Hout.
  destruct s as [st mark sess]. pager. rewrite Hout, He. pager.
  destruct (UserModel.findOne e st) as [u|] eqn:Hfind; pager;
    rewrite ?validRegisterEmailAndName_run; cbn [fst snd]; [reflexivity|].
  destruct (negb (RegExp.test Register.emailRegex (Some e))); [reflexivity|].
  destruct (negb (RegExp.test Register.nameRegex (body_firstName req))); [reflexivity|].
  destruct (negb (RegExp.test Register.nameRegex (body_lastName req))); reflexivity.
Qed.

Lemma len_short (lo hi : nat) (w : string) :
  validator.plain w = true ->
  (Utf8.length w < lo)%nat ->
  UserModel.len lo hi w = false.
Proof.
  intros Hplain Hshort. unfold UserModel.len.
  rewrite validator.isLength_plain by exact Hplain.
  apply andb_false_iff. left. apply Nat.leb_gt, Hshort.
Qed.

Lemma validate_short_firstName (v : UserModel.Values) (st : Store) :
  validator.plain (UserModel.v_firstName v) = true ->
  (Utf8.length (UserModel.v_firstName v) < 3)%nat ->
  UserModel.validate v st = false.
Proof.
  intros Hplain Hshort. unfold UserModel.validate.
  rewrite (len_short 3 32) by assumption.
  rewrite andb_false_r. reflexivity.
Qed.

(** A word of ASCII letters has one character for each byte, and no
    variation selector. *)
Lemma letter_starts_char (c : ascii) :
  Register.letter c = true -> Utf8.continuation c = false.
Proof.
  destruct c as [[] [] [] [] [] [] [] []]; vm_compute; intros; congruence.
Qed.

Lemma chars_of_letters (w : string) :
  all_in Register.letter w = true ->
  Utf8.chars w = map (fun c => String c EmptyString) (list_ascii_of_string w).
Proof.
  induction w as [|c w IH]; [reflexivity|]. cbn [all_in].
  intros [Hc Hw]%andb_true_iff. rewrite chars_step, (IH Hw).
  replace (Utf8.starts_char w) with true; [reflexivity|].
  destruct w as [|d w]; [reflexivity|]. cbn [all_in] in Hw.
  apply andb_true_iff in Hw as [Hd _]. cbn [Utf8.starts_char].
  rewrite (letter_starts_char d Hd). reflexivity.
Qed.

Lemma one_byte_is_no_selector (c : ascii) :
  validator.selector (String c EmptyString) = false.
Proof.
  destruct c as [[] [] [] [] [] [] [] []]; vm_compute; reflexivity.
Qed.

Lemma letters_measure (w : string) :
  all_in Register.letter w = true ->
  validator.plain w = true /\ Utf8.length w = String.length w.
Proof.
  intros Hw. unfold validator.plain, Utf8.length. rewrite (chars_of_letters w Hw).
  clear Hw. induction w as [|c w [IHplain IHlength]]; [split; reflexivity|].
  cbn [list_ascii_of_string map forallb List.length String.length]. split.
  - rewrite IHplain, one_byte_is_no_selector. reflexivity.
  - rewrite IHlength. reflexivity.
Qed.

(** X23. The second step must follow the first within 30 seconds.  The first
    step accepted the values at [t1] and the browser sends the [user]
    cookie back at [t2] with two equal passwords.  Later than 30 seconds
    after [t1] the cookie is gone, the model refuses the empty values and
    the register page comes back, with nothing created; sooner, the
    values the second step registers are the ones the first step
    checked. *)
Theorem registration_is_completed_within_30_seconds
    (req1 req2 : Form) (salt1 salt2 e : string) (s : Server) (t1 t2 : Z) :
  ~ signed_in s req1 ->
  ~ signed_in s req2 ->
  body_email req1 = Some e ->
  UserModel.findOne e (db s) = None ->
  EmailShape e ->
  Name (RegExp.to_str (body_firstName req1)) ->
  Name (RegExp.to_str (body_lastName req1)) ->
  let v1 := visit POST_users_register_password req1 salt1 s in
  cookies_user req2 = returned (v_cookies v1) t1 t2 ->
  body_password req2 = body_confirmPassword req2 ->
  let v2 := visit POST_login req2 salt2 (v_srv v1) in
  (t1 + 30000 < t2 ->
   v2 = {| v_srv := s; v_reply := Some (register_page (MessageOf ValidationError));
           v_cookies := []; v_cleared := [] |})
  /\ (t2 < t1 + 30000 ->
      Register.extractRegisterCookies req2
      = (e, default "" (body_firstName req1), default "" (body_lastName req1))).
Proof.
  intros Hout1 Hout2 He Hnew Hemail Hfirst Hlast v1 Hcookie Hsame v2. subst v2 v1.
  rewrite (postRegisterPasswordPage_run req1 salt1 e s Hout1 He) in *.
  rewrite Hnew in *.
  apply (emailRegex_spec (Some e)) in Hemail. apply nameRegex_spec in Hfirst, Hlast.
  rewrite Hemail, Hfirst, Hlast in *. cbn [negb v_srv v_cookies] in *.
  unfold returned in Hcookie. cbn [List.find fst snd String.eqb Ascii.eqb Bool.eqb maxAge]
    in Hcookie.
  split.
  - intros Hlate.
    replace (t2 <? t1 + 30000) with false in Hcookie by (symmetry; apply Z.ltb_ge; lia).
    rewrite postLoginPage_run by exact Hout2. cbv zeta.
    rewrite Hsame.
    replace (Login.strict_eq _ _) with true
      by (destruct (body_confirmPassword req2); cbn; [rewrite String.eqb_refl|]; reflexivity).
    rewrite validate_short_firstName; [reflexivity| |];
      unfold Register.extractRegisterCookies; rewrite Hcookie;
      [reflexivity | cbn; lia].
  - intros Hsoon. apply Z.ltb_lt in Hsoon. rewrite Hsoon in Hcookie.
    unfold Register.extractRegisterCookies. rewrite Hcookie. reflexivity.
Qed.

(** X24. The two steps do not check the names alike.  A first name of one or
    two letters passes the format check of the first step, which keeps it
    in the cookie and shows the password page; the model then refuses it,
    for it asks 3 to 32 characters: the second step, with the cookie and
    two equal passwords, shows the register page with the validation
    error and creates nothing. *)
Theorem short_name_passes_the_first_step_and_fails_the_second
    (req1 req2 : Form) (salt1 salt2 e f : string) (s : Server) (t1 t2 : Z) :
  ~ signed_in s req1 ->
  ~ signed_in s req2 ->
  body_email req1 = Some e ->
  UserModel.findOne e (db s) = None ->
  EmailShape e ->
  body_firstName req1 = Some f ->
  word_of Register.letter f ->
  (String.length f < 3)%nat ->
  Name (RegExp.to_str (body_lastName req1)) ->
  let v1 := visit POST_users_register_password req1 salt1 s in
  t2 < t1 + 30000 ->
  cookies_user req2 = returned (v_cookies v1) t1 t2 ->
  body_password req2 = body_confirmPassword req2 ->
  let v2 := visit POST_login req2 salt2 (v_srv v1) in
  v_reply v1 = Some (password_page consts.DEFAULT_REGISTER_MESSAGE (Str ""))
  /\ v2 = {| v_srv := s; v_reply := Some (register_page (MessageOf ValidationError));
             v_cookies := []; v_cleared := [] |}.
Proof.
  intros Hout1 Hout2 He Hnew Hemail Hf Hword Hshort Hlast v1 Hsoon Hcookie Hsame v2.
  subst v2 v1.
  rewrite (postRegisterPasswordPage_run req1 salt1 e s Hout1 He) in *.
  rewrite Hnew, Hf in *.
  apply (emailRegex_spec (Some e)) in Hemail. apply nameRegex_spec in Hlast.
  assert (Hfirst : RegExp.test Register.nameRegex (Some f) = true)
    by (apply nameRegex_spec, Name_word, Hword).
  rewrite Hemail, Hfirst, Hlast in *. cbn [negb v_srv v_cookies v_reply] in *.
  split; [reflexivity|].
  unfold returned in Hcookie. cbn [List.find fst snd String.eqb Ascii.eqb Bool.eqb maxAge]
    in Hcookie.
  apply Z.ltb_lt in Hsoon. rewrite Hsoon in Hcookie.
  rewrite postLoginPage_run by exact Hout2. cbv zeta. rewrite Hsame.
  replace (Login.strict_eq _ _) with true
    by (destruct (body_confirmPassword req2); cbn; [rewrite String.eqb_refl|]; reflexivity).
  destruct (letters_measure f (proj2 Hword)) as [Hplain Hlength].
  rewrite validate_short_firstName; [reflexivity| |];
    unfold Register.extractRegisterCookies; rewrite Hcookie;
    cbn -[Utf8.length validator.plain];
    [exact Hplain | rewrite Hlength; exact Hshort].
Qed.

End Registration.

(** ** Signing in *)

Section SigningIn.

Context `{bcrypt.Lib} `{validator.Lib} `{Collation}.

Lemma postMainPage_run (req : Form) (salt e p : string) (s : Server) :
  ~ signed_in s req ->
  body_email req = Some e ->
  body_password req = Some p ->
  e <> "" ->
  p <> "" ->
  visit POST_main req salt s
  = match UserModel.findOne e (db s) with
    | Some u =>
        if bcrypt.compare p (u_password (snd u)) then
          {| v_srv := logged_in req s u;
             v_reply :=
               Some (main_page (Str (u_firstName (snd u) ++ " " ++ u_lastName (snd u))));
             v_cookies := []; v_cleared := [] |}
        else
          {| v_srv := s; v_reply := Some (login_page "" (Str consts.ERROR_INVALID_USER));
             v_cookies := []; v_cleared := [] |}
    | None =>
        {| v_srv := s; v_reply := Some (login_page "" (Str consts.ERROR_INVALID_USER));
           v_cookies := []; v_cleared := [] |}
    end.
Proof.
  intros Hout He Hp Hne Hnp. unfold signed_in in Hout. apply not_true_is_false in Hout.
  destruct s as [st mark sess]. pager. rewrite Hout, He, Hp.
  assert (Hte : JS.truthy_string (Some e) = true).
  { destruct e; [contradiction|reflexivity]. }
  assert (Htp : JS.truthy_string (Some p) = true).
  { destruct p; [contradiction|reflexivity]. }
  rewrite Hte, Htp. pager.
  destruct (UserModel.findOne e st) as [[id row]|]; pager; [|reflexivity].
  destruct (bcrypt.compare p (u_password row)); pager; [|reflexivity].
  rewrite Hout. pager. unfold logged_in, fullName_local, form_session. cbn.
  rewrite lookup_insert_eq. reflexivity.
Qed.

Lemma postMainPage_missing (req : Form) (salt : string) (s : Server) :
  ~ signed_in s req ->
  JS.truthy_string (body_email req) = false
  \/ JS.truthy_string (body_password req) = false ->
  visit POST_main req salt s
  = {| v_srv := s; v_reply := Some (login_page "" (Str ""));
       v_cookies := []; v_cleared := [] |}.
Proof.
  intros Hout Hmissing. unfold signed_in in Hout. apply not_true_is_false in Hout.
  destruct s as [st mark sess]. pager. rewrite Hout.
  destruct Hmissing as [-> | ->]; rewrite ?orb_true_r; reflexivity.
Qed.

(** X25. A failed login tells nothing about the account.  For a visitor who
    is not signed in, an email that no user has and a wrong password for
    an email that a user has give the same answer, the login page with
    the one message for both, and leave the process as it was; without an
    email or a password the login page comes back with an empty
    message. *)
Theorem failed_login_tells_nothing_about_the_account
    (req : Form) (salt : string) (s : Server) :
  ~ signed_in s req ->
  let v := visit POST_main req salt s in
  let refused (error : string) :=
    {| v_srv := s; v_reply := Some (login_page "" (Str error));
       v_cookies := []; v_cleared := [] |} in
  (forall e p : string,
      body_email req = Some e -> body_password req = Some p -> e <> "" -> p <> "" ->
      (UserModel.findOne e (db s) = None
       \/ exists u, UserModel.findOne e (db s) = Some u
                    /\ bcrypt.compare p (u_password (snd u)) = false) ->
      v = refused consts.ERROR_INVALID_USER)
  /\ (JS.truthy_string (body_email req) = false
      \/ JS.truthy_string (body_password req) = false ->
      v = refused "").
Proof.
  intros Hout v refused. subst v refused. split.
  - intros e p He Hp Hne Hnp Hbad.
    rewrite (postMainPage_run req salt e p s Hout He Hp Hne Hnp).
    destruct Hbad as [->|(u & -> & ->)]; reflexivity.
  - intros Hmissing. unfold signed_in in Hout. apply not_true_is_false in Hout.
    destruct s as [st mark sess]. pager. rewrite Hout.
    destruct Hmissing as [-> | ->]; rewrite ?orb_true_r; reflexivity.
Qed.

(** X26. For a visitor who is not signed in, a login with the email of a
    user and a password that bcrypt accepts for the stored hash, neither
    of them the empty string, signs the session in as that user: it holds
    the id and the full name of the user, the main page greets the user
    by that name, and the other sessions, the store and the watermark
    stay; when the id of the user is not 0 the guard of the API lets the
    requests of this session through from then on, and with the id 0,
    which the guards take for no id, the session is still not signed in.
    When the email or the password is the empty string, the login is
    refused before any lookup, although bcrypt accepts the password: the
    login page comes back with an empty error and nothing changes. *)
Theorem login_signs_the_session_in
    (req : Form) (salt e p : string) (s : Server) (id : Z) (row : UserRow) :
  ~ signed_in s req ->
  body_email req = Some e ->
  body_password req = Some p ->
  UserModel.findOne e (db s) = Some (id, row) ->
  bcrypt.compare p (u_password row) = true ->
  let v := visit POST_main req salt s in
  let name := u_firstName row ++ " " ++ u_lastName row in
  (e <> "" ->
   p <> "" ->
   v_reply v = Some (main_page (Str name))
   /\ form_session (v_srv v) req
      = {| userId := Some id; isLoggedIn := true; fullName := Some name;
           lastUpdate := lastUpdate (form_session s req) |}
   /\ (forall sid : string, sid <> form_sessionID req ->
       sessions (v_srv v) !! sid = sessions s !! sid)
   /\ db (v_srv v) = db s
   /\ lastServerUpdate (v_srv v) = lastServerUpdate s
   /\ same (u_email row) e = true
   /\ (id <> 0 ->
       (forall api : Request, sessionID api = form_sessionID req ->
        authenticated (v_srv v) api)
       /\ signed_in (v_srv v) req)
   /\ (id = 0 -> ~ signed_in (v_srv v) req))
  /\ (e = "" \/ p = "" ->
      v = {| v_srv := s; v_reply := Some (login_page "" (Str ""));
             v_cookies := []; v_cleared := [] |}).
Proof.
  intros Hout He Hp Hfind Hcompare v name. subst v name. split.
  - intros Hne Hnp.
    rewrite (postMainPage_run req salt e p s Hout He Hp Hne Hnp), Hfind.
    cbn [snd fst]. rewrite Hcompare. cbn [v_srv v_reply].
    assert (Hsession : form_session (logged_in req s (id, row)) req
                       = {| userId := Some id; isLoggedIn := true;
                            fullName := Some (u_firstName row ++ " " ++ u_lastName row);
                            lastUpdate := lastUpdate (form_session s req) |}).
    { unfold form_session at 1, logged_in. cbn [sessions fst snd].
      rewrite lookup_insert_eq. reflexivity. }
    split; [reflexivity|]. split; [exact Hsession|]. split; [|split; [reflexivity|]].
    { intros sid Hsid. unfold logged_in. cbn [sessions].
      apply lookup_insert_ne. congruence. }
    split; [reflexivity|].
    split; [apply (findOne_Some e (db s) id row Hfind)|]. split.
    + intros Hid.
      assert (Htruthy : JS.truthy_id (Some id) = true).
      { cbn. apply Z.eqb_neq in Hid. rewrite Hid. reflexivity. }
      split.
      * intros api Hapi. unfold authenticated, session_of. rewrite Hapi.
        fold (form_session (logged_in req s (id, row)) req). rewrite Hsession.
        exact Htruthy.
      * unfold signed_in. rewrite Hsession. exact Htruthy.
    + intros ->. unfold signed_in. rewrite Hsession. cbn. discriminate.
  - intros Hempty. apply postMainPage_missing; [exact Hout|].
    rewrite He, Hp. destruct Hempty as [-> | ->]; [left | right]; reflexivity.
Qed.

Lemma findOne_insert_new (e : string) (st : Store) (id : Z) (row : UserRow) :
  users st !! id = None ->
  u_email row = e ->
  UserModel.findOne e st = None ->
  UserModel.findOne e
    {| messages := messages st; users := <[id := row]> (users st); nextId := nextId st |}
  = Some (id, row).
Proof.
  intros Hfresh Hemail Hnone.
  set (st' := {| messages := messages st; users := <[id := row]> (users st);
                 nextId := nextId st |}).
  destruct (UserModel.findOne e st') as [[i r]|] eqn:Hfind.
  - apply findOne_Some in Hfind as [Hlookup Hsame]. cbn [users st'] in Hlookup.
    destruct (decide (i = id)) as [->|Hne].
    + rewrite lookup_insert_eq in Hlookup. congruence.
    + rewrite lookup_insert_ne in Hlookup by congruence.
      rewrite (proj1 (findOne_None e st) Hnone i r Hlookup) in Hsame. discriminate.
  - exfalso. pose proof (proj1 (findOne_None e st') Hfind id row) as Hrow.
    cbn [users st'] in Hrow. rewrite lookup_insert_eq in Hrow.
    specialize (Hrow eq_refl). rewrite Hemail, same_refl in Hrow. discriminate.
Qed.

(** X27. Who has registered with a password that is not empty can sign in.
    After a second step that created the user, a login with the same
    email and the same password, from a session that is not signed in,
    signs that session in as the new user: the id is the one the
    registration gave, the main page greets the user by the registered
    names, and the guard of the API lets the session through.  With the
    empty password given twice the second step creates the user all the
    same, the model asking nothing of the password; the login with that
    empty password is then refused with the login page and an empty
    error, and the session stays signed out. *)
Theorem registered_user_can_sign_in
    (req login : Form) (salt salt' p email firstName lastName : string) (s : Server) :
  ~ signed_in s req ->
  body_password req = Some p ->
  body_confirmPassword req = Some p ->
  Register.extractRegisterCookies req = (email, firstName, lastName) ->
  validator.isAlpha firstName = true -> UserModel.len 3 32 firstName = true ->
  validator.isAlpha lastName = true -> UserModel.len 3 32 lastName = true ->
  validator.isEmail email = true ->
  UserModel.findOne email (db s) = None ->
  ~ signed_in s login ->
  body_email login = Some email ->
  body_password login = Some p ->
  let registered := v_srv (visit POST_login req salt s) in
  let v := visit POST_main login salt' registered in
  let id := UserModel.next_id (users (db s)) in
  users (db registered) !! id
  = Some {| u_firstName := firstName; u_lastName := lastName; u_email := email;
            u_password := bcrypt.hash p 10 salt |}
  /\ (p <> "" ->
      v_reply v = Some (main_page (Str (firstName ++ " " ++ lastName)))
      /\ userId (form_session (v_srv v) login) = Some id
      /\ signed_in (v_srv v) login
      /\ (forall api : Request, sessionID api = form_sessionID login ->
          authenticated (v_srv v) api)
      /\ users (db (v_srv v)) !! id
         = Some {| u_firstName := firstName; u_lastName := lastName; u_email := email;
                   u_password := bcrypt.hash p 10 salt |})
  /\ (p = "" ->
      v = {| v_srv := registered; v_reply := Some (login_page "" (Str ""));
             v_cookies := []; v_cleared := [] |}
      /\ ~ signed_in (v_srv v) login).
Proof.
  intros Hout Hp Hc Hvalues Hf1 Hf2 Hl1 Hl2 He Hnew Hout' He' Hp' registered v id.
  assert (Hne : email <> "").
  { intros ->. rewrite validator.isEmail_empty in He. discriminate. }
  assert (Hvalid : UserModel.validate
                     {| UserModel.v_email := email; UserModel.v_firstName := firstName;
                        UserModel.v_lastName := lastName;
                        UserModel.v_password := Some p |} (db s) = true).
  { apply validate_spec. cbn. repeat split; eauto. }
  set (row := {| u_firstName := firstName; u_lastName := lastName; u_email := email;
                 u_password := bcrypt.hash p 10 salt |}).
  assert (Hregistered :
            registered
            = {| db := {| messages := messages (db s);
                          users := <[id := row]> (users (db s));
                          nextId := nextId (db s) |};
                 lastServerUpdate := lastServerUpdate s; sessions := sessions s |}).
  { subst registered. rewrite postLoginPage_run by exact Hout. cbv zeta.
    rewrite Hp, Hc, Hvalues. cbn [fst snd Login.strict_eq]. rewrite String.eqb_refl.
    rewrite Hvalid. unfold UserModel.create. rewrite Hvalid. reflexivity. }
  assert (Hout'' : ~ signed_in registered login).
  { rewrite Hregistered. exact Hout'. }
  assert (Hfind : UserModel.findOne email (db registered) = Some (id, row)).
  { rewrite Hregistered. cbn [db].
    apply findOne_insert_new; [apply next_id_fresh|reflexivity|exact Hnew]. }
  assert (Hid : id <> 0) by (pose proof (next_id_positive (users (db s))); subst id; lia).
  assert (Htruthy : JS.truthy_id (Some id) = true).
  { cbn. apply Z.eqb_neq in Hid. rewrite Hid. reflexivity. }
  assert (Hsession : userId (form_session (logged_in login registered (id, row)) login)
                     = Some id).
  { unfold form_session at 1, logged_in. cbn [sessions fst snd].
    rewrite lookup_insert_eq. reflexivity. }
  split; [rewrite Hregistered; cbn [db users]; apply lookup_insert_eq|]. split.
  - intros Hnp. subst v.
    rewrite (postMainPage_run login salt' email p registered Hout'' He' Hp' Hne Hnp).
    rewrite Hfind. cbn [fst snd]. subst row. cbn [u_password].
    rewrite bcrypt.compare_hash. cbn [v_reply v_srv u_firstName u_lastName].
    split; [reflexivity|]. split; [exact Hsession|].
    split; [unfold signed_in; rewrite Hsession; exact Htruthy|]. split.
    + intros api Hapi. unfold authenticated, session_of. rewrite Hapi.
      match goal with |- JS.truthy_id (userId ?x) = true =>
        change x with (form_session (logged_in login registered
          (id, {| u_firstName := firstName; u_lastName := lastName; u_email := email;
                  u_password := bcrypt.hash p 10 salt |})) login) end.
      rewrite Hsession. exact Htruthy.
    + unfold logged_in. cbn [db]. rewrite Hregistered. cbn [db users].
      apply lookup_insert_eq.
  - intros Hempty. subst v.
    rewrite (postMainPage_missing login salt' registered Hout'')
      by (right; rewrite Hp', Hempty; reflexivity).
    split; [reflexivity | exact Hout''].
Qed.

(** X28. The guard of the pages.  A visitor who is signed in is sent to the
    main page from every page route but the main page itself, the login
    and both steps of the registration included, and nothing else
    happens; the main page greets the user by the name of the session.  A
    visitor who is not signed in is sent from the main page to the login
    page. *)
Theorem signed_in_visitor_is_sent_to_the_main_page
    (r : PageRoute) (req : Form) (salt : string) (s : Server) :
  let v := visit r req salt s in
  (signed_in s req -> r <> GET_main ->
   v = {| v_srv := s; v_reply := Some (Redirect 302 "/main");
          v_cookies := []; v_cleared := [] |})
  /\ (signed_in s req -> r = GET_main ->
      v = {| v_srv := s;
             v_reply := Some (main_page (fullName_local (form_session s req)));
             v_cookies := []; v_cleared := [] |})
  /\ (~ signed_in s req -> r = GET_main ->
      v = {| v_srv := s; v_reply := Some (Redirect 302 "/login");
             v_cookies := []; v_cleared := [] |}).
Proof.
  intros v. subst v. unfold signed_in. split; [|split].
  - intros Hin Hr. destruct r; try contradiction; pager; rewrite Hin; reflexivity.
  - intros Hin ->. pager. rewrite Hin. reflexivity.
  - intros Hout%not_true_is_false ->. pager. rewrite Hout. reflexivity.
Qed.


(** What a page request can do to the process: nothing, sign a session
    in, or create a user the model accepts. *)
Lemma visit_effect (r : PageRoute) (req : Form) (salt : string) (s : Server) :
  let v := visit r req salt s in
  fst (pages r req salt (arrival s)) = Done tt
  /\ is_Some (v_reply v)
  /\ (v_srv v = s
      \/ (exists u, r = POST_main /\ v_srv v = logged_in req s u)
      \/ (exists values,
             r = POST_login /\ UserModel.validate values (db s) = true
             /\ v_srv v = {| db := snd (UserModel.create values salt (db s));
                             lastServerUpdate := lastServerUpdate s;
                             sessions := sessions s |})).
Proof.
  intros v. subst v. destruct s as [st mark sess].
  destruct r; pager;
    destruct (JS.truthy_id (userId (form_session _ req))) eqn:Hin; pager;
    try (split; [reflexivity|split; [eexists; reflexivity|left; reflexivity]]).
  - (* POST /main *)
    destruct (negb (JS.truthy_string (body_email req))
              || negb (JS.truthy_string (body_password req))); pager;
      [split; [reflexivity|split; [eexists; reflexivity|left; reflexivity]]|].
    destruct (UserModel.findOne _ st) as [[id row]|]; pager;
      [|split; [reflexivity|split; [eexists; reflexivity|left; reflexivity]]].
    destruct (bcrypt.compare _ _); pager;
      [|split; [reflexivity|split; [eexists; reflexivity|left; reflexivity]]].
    rewrite Hin. pager. split; [reflexivity|]. split; [eexists; reflexivity|].
    right. left. exists (id, row). split; reflexivity.
  - (* GET /register *)
    destruct (Register.extractRegisterCookies req) as [[e f] l]. pager.
    split; [reflexivity|split; [eexists; reflexivity|left; reflexivity]].
  - (* POST /login *)
    destruct (Register.extractRegisterCookies req) as [[e f] l]. pager.
    destruct (Login.strict_eq _ _); pager;
      [|split; [reflexivity|split; [eexists; reflexivity|left; reflexivity]]].
    unfold UserModel.create.
    destruct (UserModel.validate _ st) eqn:Hvalid; pager;
      [|split; [reflexivity|split; [eexists; reflexivity|left; reflexivity]]].
    split; [reflexivity|]. split; [eexists; reflexivity|]. right. right.
    eexists. split; [reflexivity|]. split; [exact Hvalid|].
    rewrite Hvalid. reflexivity.
  - (* GET /users/register *)
    destruct (Register.extractRegisterCookies req) as [[e f] l]. pager.
    split; [reflexivity|split; [eexists; reflexivity|left; reflexivity]].
  - (* POST /users/register-password *)
    destruct (body_email req) as [e|]; pager;
      [|split; [reflexivity|split; [eexists; reflexivity|left; reflexivity]]].
    destruct (UserModel.findOne e st); pager;
      rewrite ?validRegisterEmailAndName_run; cbn [fst snd];
      [split; [reflexivity|split; [eexists; reflexivity|left; reflexivity]]|].
    destruct (negb (RegExp.test Register.emailRegex (Some e)));
      [split; [reflexivity|split; [eexists; reflexivity|left; reflexivity]]|].
    destruct (negb (RegExp.test Register.nameRegex (body_firstName req)));
      [split; [reflexivity|split; [eexists; reflexivity|left; reflexivity]]|].
    destruct (negb (RegExp.test Register.nameRegex (body_lastName req)));
      (split; [reflexivity|split; [eexists; reflexivity|left; reflexivity]]).
Qed.

(** X29. Every page request is answered, and the pages leave the chat alone:
    whatever the route, the form, the cookie and the session, the handler
    returns without an exception, having rendered a page or redirected;
    the messages and the watermark stay, no user is removed or changed,
    only the second step of the registration adds a user and only the
    login changes a session. *)
Theorem pages_answer_and_leave_the_chat
    (r : PageRoute) (req : Form) (salt : string) (s : Server) :
  let v := visit r req salt s in
  fst (pages r req salt (arrival s)) = Done tt
  /\ is_Some (v_reply v)
  /\ messages (db (v_srv v)) = messages (db s)
  /\ nextId (db (v_srv v)) = nextId (db s)
  /\ lastServerUpdate (v_srv v) = lastServerUpdate s
  /\ (forall (i : Z) (row : UserRow),
         users (db s) !! i = Some row -> users (db (v_srv v)) !! i = Some row)
  /\ (r <> POST_login -> db (v_srv v) = db s)
  /\ (r <> POST_main -> sessions (v_srv v) = sessions s).
Proof.
  intros v. destruct (visit_effect r req salt s) as (Hdone & Hanswer & Heffect).
  fold v in Hanswer, Heffect. split; [exact Hdone|]. split; [exact Hanswer|].
  destruct Heffect as [-> | [(u & -> & ->) | (values & -> & Hvalid & ->)]].
  - repeat split; auto.
  - repeat split; auto. intros Hr. contradiction.
  - unfold UserModel.create. rewrite Hvalid. cbn [snd db messages users nextId sessions
      lastServerUpdate].
    repeat split; auto; [|intros Hr; contradiction].
    intros i row Hrow. rewrite lookup_insert_ne; [exact Hrow|].
    intros <-. rewrite next_id_fresh in Hrow. discriminate.
Qed.

(** X30. No two users share an email, whatever the process is asked: when the
    emails of the users are distinct before a page request or a request
    to the API, they are distinct after it. *)
Theorem emails_stay_distinct `{Date.Parser} (s : Server) :
  emails_distinct (db s) ->
  (forall (r : PageRoute) (req : Form) (salt : string),
      emails_distinct (db (v_srv (visit r req salt s))))
  /\ (forall (r : Route) (req : Request) (now : Z),
         emails_distinct (db (snd (serve r req now s)))).
Proof.
  intros Hdistinct. split;
    [|intros r req now; unfold emails_distinct; rewrite users_preserved; exact Hdistinct].
  intros r req salt.
  destruct (visit_effect r req salt s) as (_ & _ & Heffect).
  destruct Heffect as [-> | [(u & -> & ->) | (values & -> & Hvalid & ->)]];
    [exact Hdistinct..|].
  unfold UserModel.create. rewrite Hvalid. cbn [snd db].
  apply validate_spec in Hvalid as (_ & _ & _ & _ & _ & Hnew & _).
  pose proof (proj1 (findOne_None _ _) Hnew) as Hnone.
  set (id := UserModel.next_id (users (db s))).
  intros i j a b Ha Hb Hsame. cbn [users] in Ha, Hb.
  destruct (decide (i = id)) as [->|Hi], (decide (j = id)) as [->|Hj];
    [reflexivity| | |].
  - rewrite lookup_insert_eq in Ha. rewrite lookup_insert_ne in Hb by congruence.
    injection Ha as <-. cbn [u_email] in Hsame.
    rewrite same_sym, (Hnone j b Hb) in Hsame. discriminate.
  - rewrite lookup_insert_eq in Hb. rewrite lookup_insert_ne in Ha by congruence.
    injection Hb as <-. cbn [u_email] in Hsame.
    rewrite (Hnone i a Ha) in Hsame. discriminate.
  - rewrite lookup_insert_ne in Ha, Hb by congruence.
    exact (Hdistinct i j a b Ha Hb Hsame).
Qed.

End SigningIn.

(** * Examples of the further properties *)

Section MoreExamples.

#[local] Existing Instance Examples.iso.
#[local] Existing Instance Samples.plain.
#[local] Existing Instance Samples.checks.
#[local] Existing Instance Samples.binary.

Lemma authors_exist_server0 : authors_exist (db Examples.server0).
Proof. constructor; [exists Examples.bob; reflexivity | constructor]. Qed.

Lemma ids_distinct_server0 : ids_distinct (db Examples.server0).
Proof.
  unfold ids_distinct. cbn. constructor; [intros Hin; inversion Hin | constructor].
Qed.

Lemma unauthenticated_request_is_refused_witness :
  ~ authenticated Examples.server0 Samples.stranger
  /\ serve GET_message Samples.stranger 1717200005000 Examples.server0
     = (Some session_expired, Examples.server0).
Proof.
  assert (Hout : ~ authenticated Examples.server0 Samples.stranger).
  { intros Hauth. vm_compute in Hauth. discriminate. }
  split; [exact Hout|].
  apply unauthenticated_request_is_refused; [discriminate | exact Hout].
Defined.

Lemma successful_delete_removes_the_message_witness :
  succeeded (fst (serve DELETE_message Samples.bob_removes 1717200005000 Examples.server0))
  = true
  /\ exists (pre : list MessageRow) (m : MessageRow) (post : list MessageRow),
       messages (db Examples.server0) = (pre ++ m :: post)%list
       /\ m_id m = params_id Samples.bob_removes
       /\ userId (session_of Examples.server0 Samples.bob_removes) = Some (m_user_id m)
       /\ messages (db (snd (serve DELETE_message Samples.bob_removes 1717200005000
                               Examples.server0)))
          = (pre ++ post)%list.
Proof.
  split; [reflexivity|].
  exact (successful_delete_removes_the_message Samples.bob_removes 1717200005000
           Examples.server0 ids_distinct_server0 eq_refl).
Defined.

Lemma successful_update_changes_the_message_witness :
  succeeded (fst (serve PUT_message Samples.bob_edits 1717200005000 Examples.server0)) = true
  /\ exists (pre : list MessageRow) (m : MessageRow) (post : list MessageRow),
       messages (db Examples.server0) = (pre ++ m :: post)%list
       /\ m_id m = params_id Samples.bob_edits
       /\ userId (session_of Examples.server0 Samples.bob_edits) = Some (m_user_id m)
       /\ messages (db (snd (serve PUT_message Samples.bob_edits 1717200005000
                               Examples.server0)))
          = (pre ++ Message.set_text (body_text Samples.bob_edits) 1717200005000 m
               :: post)%list
       /\ fst (serve PUT_message Samples.bob_edits 1717200005000 Examples.server0)
          = Some {| status := 200;
                    body := JObj (Message.toJSON
                                    (Message.set_text (body_text Samples.bob_edits)
                                       1717200005000 m)) |}.
Proof.
  split; [reflexivity|].
  exact (successful_update_changes_the_message Samples.bob_edits 1717200005000
           Examples.server0 ids_distinct_server0 eq_refl).
Defined.

Lemma successful_create_appends_the_message_witness :
  exists (text : string) (u : Z),
    body_text (Examples.post (Some "Hi all")) = Some text
    /\ Message.valid_text text = true
    /\ (validator.plain text = true -> (1 <= Utf8.length text <= 500)%nat)
    /\ userId (session_of Examples.server0 (Examples.post (Some "Hi all"))) = Some u
    /\ is_Some (users (db Examples.server0) !! u)
    /\ let m := {| m_id := nextId (db Examples.server0); m_text := text; m_user_id := u;
                   m_createdAt := 1717200005000; m_updatedAt := 1717200005000 |} in
       messages (db (snd (serve POST_message (Examples.post (Some "Hi all")) 1717200005000
                            Examples.server0)))
       = (messages (db Examples.server0) ++ [m])%list
       /\ fst (serve POST_message (Examples.post (Some "Hi all")) 1717200005000
                 Examples.server0)
          = Some {| status := 201; body := JObj (Message.toJSON m) |}.
Proof.
  exact (successful_create_appends_the_message (Examples.post (Some "Hi all"))
           1717200005000 Examples.server0 eq_refl).
Defined.

Lemma message_ids_stay_distinct_witness :
  (ids_distinct (db Examples.server0) /\ ids_below_next (db Examples.server0))
  /\ ids_distinct (db (snd (serve POST_message (Examples.post (Some "Hi all"))
                              1717200005000 Examples.server0)))
  /\ ids_below_next (db (snd (serve POST_message (Examples.post (Some "Hi all"))
                                1717200005000 Examples.server0))).
Proof.
  assert (Hids : ids_distinct (db Examples.server0) /\ ids_below_next (db Examples.server0)).
  { split; [exact ids_distinct_server0|].
    unfold ids_below_next. cbn. constructor; [reflexivity | constructor]. }
  split; [exact Hids|].
  exact (message_ids_stay_distinct POST_message (Examples.post (Some "Hi all"))
           1717200005000 Examples.server0 Hids).
Defined.

Lemma poll_after_a_write_witness :
  authenticated Examples.server0 (Examples.poll (Some "2024-06-01T00:00:01.000Z"))
  /\ exists hasUpdates : bool,
       serve GET_checkMessages (Examples.poll (Some "2024-06-01T00:00:01.000Z"))
         1717200006000
         (snd (serve POST_message (Examples.post (Some "Hi all")) 1717200005000
                 Examples.server0))
       = (Some (poll_answer hasUpdates 1717200006000),
          snd (serve POST_message (Examples.post (Some "Hi all")) 1717200005000
                 Examples.server0))
       /\ (hasUpdates = true
           <-> cursor (Examples.poll (Some "2024-06-01T00:00:01.000Z")) < 1717200005000).
Proof.
  split; [reflexivity|].
  exact (poll_after_a_write POST_message (Examples.post (Some "Hi all")) 1717200005000
           Examples.server0 (Examples.poll (Some "2024-06-01T00:00:01.000Z")) 1717200006000
           eq_refl eq_refl eq_refl).
Defined.

Lemma search_text_of_wildcards_witness :
  authenticated Examples.server0 (Examples.search "%%")
  /\ all_chars "%" "%%"
  /\ serve GET_searchMessagesByText (Examples.search "%%") 1717200005000 Examples.server0
     = (Some {| status := 200; body := JArr (listing (db Examples.server0)) |},
        Examples.server0).
Proof.
  assert (Hall : all_chars "%" "%%") by (cbn; auto).
  split; [reflexivity|]. split; [exact Hall|].
  assert (Hne : "%%" <> "") by discriminate.
  exact (proj1 (search_text_of_wildcards (Examples.search "%%") "%%" 1717200005000
                  Examples.server0 eq_refl authors_exist_server0 eq_refl Hne) Hall).
Defined.

Lemma full_fetch_lists_the_store_witness :
  authenticated Examples.server0 (Examples.remove 0)
  /\ fst (serve GET_message (Examples.remove 0) 1717200005000 Examples.server0)
     = Some {| status := 200; body := JArr (listing (db Examples.server0)) |}
  /\ List.length (listing (db Examples.server0))
     = List.length (messages (db Examples.server0)).
Proof.
  split; [reflexivity|].
  exact (proj1 (full_fetch_lists_the_store (Examples.remove 0) 1717200005000
                  Examples.server0 eq_refl) authors_exist_server0).
Defined.

Lemma logout_ends_the_session_witness :
  authenticated Examples.server0 (Examples.remove 0)
  /\ fst (serve GET_logout (Examples.remove 0) 1717200005000 Examples.server0)
     = Some {| status := 200; body := JObj [("message", JStr "Logged out successfully")] |}
  /\ serve GET_message (Examples.remove 0) 1717200006000
       (snd (serve GET_logout (Examples.remove 0) 1717200005000 Examples.server0))
     = (Some session_expired,
        snd (serve GET_logout (Examples.remove 0) 1717200005000 Examples.server0)).
Proof.
  split; [reflexivity|].
  destruct (logout_ends_the_session (Examples.remove 0) 1717200005000 Examples.server0
              eq_refl) as (Hanswer & _ & _ & _ & Hnext).
  split; [exact Hanswer|]. apply Hnext; [discriminate | reflexivity].
Defined.

Lemma cycle_without_updates_changes_nothing_witness :
  ~ signals_updates Rejected
  /\ exists c' : Client,
       run (Main.checkForNewMessages initial_client)
         [Network Examples.session_answer; Network Rejected]
       = Some ((Ok tt, c'), [GET GET_verifyUserSession; poll_call initial_client], [])
       /\ messagesList c' = messagesList initial_client
       /\ dataset_lastUpdate c' = dataset_lastUpdate initial_client
       /\ notifications c' = notifications initial_client.
Proof.
  assert (Hquiet : ~ signals_updates Rejected).
  { intros (data & v & Heq & _). discriminate. }
  split; [exact Hquiet|].
  exact (cycle_without_updates_changes_nothing initial_client Examples.session_answer
           Rejected Hquiet).
Defined.

Lemma failed_fetch_keeps_the_page_witness :
  no_list Rejected
  /\ run (Main.fetchMessages initial_client) [Network Rejected]
     = Some ((Ok tt, add_console "Error fetching messages:"
                       (add_notification ("Failed to fetch messages", "danger")
                          initial_client)),
             [GET GET_message], []).
Proof.
  assert (Hnone : no_list Rejected) by (left; reflexivity).
  split; [exact Hnone|].
  exact (failed_fetch_keeps_the_page initial_client Rejected Hnone).
Defined.

Lemma error_body_empties_the_page_witness :
  run (Main.fetchMessages initial_client)
    [Network (Resolved false (Some (JObj [("message", JStr "Session expired")])));
     Clock 1717200005020]
  = Some ((Ok tt, refreshed [] 1717200005020 initial_client), [GET GET_message], [])
  /\ messagesList (refreshed [] 1717200005020 initial_client)
     = [Placeholder "No messages found"]
  /\ dataset_lastUpdate (refreshed [] 1717200005020 initial_client)
     = Some (Date.toISOString 1717200005020).
Proof.
  exact (error_body_empties_the_page initial_client false
           [("message", JStr "Session expired")] 1717200005020 eq_refl).
Defined.

Lemma next_cycle_of_another_page_shows_the_write_witness :
  user_of Examples.server0 "sid-bob" = Some 2
  /\ page_cursor initial_client < 1717200005000
  /\ exists (c' : Client) (served : list Served) (s'' : Server),
       connect (Main.checkForNewMessages initial_client) "sid-bob"
         [1717200006000; 1717200006010; 1717200006020; 1717200006030]
         (snd (serve POST_message (Examples.post (Some "Hi all")) 1717200005000
                 Examples.server0))
       = Some ((Ok tt, c'), served, s'', [])
       /\ map (fun h => route (call h)) served
          = [GET_verifyUserSession; GET_checkMessages; GET_message]
       /\ messagesList c'
          = rendering (Some (JNum 2))
              (listing (db (snd (serve POST_message (Examples.post (Some "Hi all"))
                                   1717200005000 Examples.server0))))
       /\ dataset_lastUpdate c' = Some (Date.toISOString 1717200006030)
       /\ db s'' = db (snd (serve POST_message (Examples.post (Some "Hi all"))
                              1717200005000 Examples.server0)).
Proof.
  assert (Hcursor : page_cursor initial_client < 1717200005000) by reflexivity.
  split; [reflexivity|]. split; [exact Hcursor|].
  apply (next_cycle_of_another_page_shows_the_write (H := Examples.iso)
           (H0 := Samples.checks) POST_message
           (Examples.post (Some "Hi all")) 1717200005000 Examples.server0 initial_client
           "sid-bob" 2 1717200006000 1717200006010 1717200006020 1717200006030
           eq_refl eq_refl authors_exist_server0 eq_refl);
    [discriminate | exact Hcursor].
Defined.

Lemma page_load_fetches_then_starts_polling_witness :
  Date.parse (Date.toISOString 1717200005020) = Some 1717200005020
  /\ exists (c' : Client) (served : list Served) (s' : Server),
       connect (Main.init initial_client) "sid-alice"
         [1717200005000; 1717200005010; 1717200005020; 1717200005030; 1717200005040]
         Examples.server0
       = Some ((Ok tt, c'), served, s', [])
       /\ map (fun h => route (call h)) served
          = [GET_verifyUserSession; GET_message; GET_verifyUserSession; GET_checkMessages]
       /\ messagesList c' = rendering (Some (JNum 1)) (listing (db Examples.server0))
       /\ dataset_lastUpdate c' = Some (Date.toISOString 1717200005020)
       /\ pollingTimer c' = Some Main.POLLING_INTERVAL
       /\ currentUserId c' = Some (JNum 1)
       /\ db s' = db Examples.server0
       /\ lastServerUpdate s' = lastServerUpdate Examples.server0.
Proof.
  assert (Hparse : Date.parse (Date.toISOString 1717200005020) = Some 1717200005020)
    by (vm_compute; reflexivity).
  split; [exact Hparse|].
  apply (page_load_fetches_then_starts_polling "sid-alice" 1 1717200005000 1717200005010
           1717200005020 1717200005030 1717200005040 Examples.server0 eq_refl);
    [discriminate | exact authors_exist_server0 | exact Hparse | discriminate].
Defined.

Lemma buttons_are_on_own_messages_only_witness :
  Main.displayMessages (JArr (listing (db Examples.server0))) Samples.page_of_bob
  = Ret (Ok tt,
         set_messagesList
           (map (card (users (db Examples.server0)) 2) (messages (db Examples.server0)))
           Samples.page_of_bob).
Proof.
  exact (buttons_are_on_own_messages_only (db Examples.server0) 2 Samples.page_of_bob
           authors_exist_server0 eq_refl).
Defined.

Lemma carol_is_new : UserModel.findOne "carol@example.org" (db Examples.server0) = None.
Proof. vm_compute. reflexivity. Qed.

Lemma carol_is_out (req : Form) :
  form_sessionID req = "sid-carol" -> ~ signed_in Examples.server0 req.
Proof.
  unfold signed_in, form_session. intros -> Hin. vm_compute in Hin. discriminate.
Qed.

Lemma carol_email_shape : EmailShape "carol@example.org".
Proof. apply (emailRegex_spec (Some "carol@example.org")). vm_compute. reflexivity. Qed.

Lemma carol_is_valid :
  validator.isAlpha "Carol" = true /\ UserModel.len 3 32 "Carol" = true
  /\ validator.isAlpha "Danvers" = true /\ UserModel.len 3 32 "Danvers" = true
  /\ validator.isEmail "carol@example.org" = true.
Proof. vm_compute. repeat split. Qed.

Lemma first_step_keeps_checked_values_in_a_cookie_witness :
  ~ signed_in Examples.server0 Samples.step_one
  /\ v_reply (visit POST_users_register_password Samples.step_one "salt" Examples.server0)
     = Some (password_page consts.DEFAULT_REGISTER_MESSAGE (Str ""))
  /\ v_cookies (visit POST_users_register_password Samples.step_one "salt"
                  Examples.server0)
     = [("user", Samples.carol_cookie, {| httpOnly := true; maxAge := 30000 |})].
Proof.
  assert (Hout : ~ signed_in Examples.server0 Samples.step_one)
    by (apply carol_is_out; reflexivity).
  split; [exact Hout|].
  destruct (first_step_keeps_checked_values_in_a_cookie Samples.step_one "salt"
              "carol@example.org" Examples.server0 Hout eq_refl)
    as (_ & _ & _ & Hnew).
  exact (Hnew carol_is_new).
Defined.

Lemma second_step_without_valid_values_creates_nothing_witness :
  ~ signed_in Examples.server0 (Samples.step_two "secret" "secert" (Some Samples.carol_cookie))
  /\ visit POST_login (Samples.step_two "secret" "secert" (Some Samples.carol_cookie)) "salt"
       Examples.server0
     = {| v_srv := Examples.server0;
          v_reply := Some (password_page "" (Str consts.ERROR_NOT_MATCH_PASSWORD));
          v_cookies := []; v_cleared := [] |}.
Proof.
  assert (Hout : ~ signed_in Examples.server0
                   (Samples.step_two "secret" "secert" (Some Samples.carol_cookie)))
    by (apply carol_is_out; reflexivity).
  split; [exact Hout|].
  apply (second_step_without_valid_values_creates_nothing
           (Samples.step_two "secret" "secert" (Some Samples.carol_cookie)) "salt"
           Examples.server0 Hout).
  discriminate.
Defined.

Lemma second_step_creates_the_user_witness :
  ~ signed_in Examples.server0 (Samples.step_two "secret" "secret" (Some Samples.carol_cookie))
  /\ UserModel.findOne "carol@example.org" (db Examples.server0) = None
  /\ v_reply (visit POST_login
                (Samples.step_two "secret" "secret" (Some Samples.carol_cookie)) "salt"
                Examples.server0)
     = Some (login_page consts.SUCCESSFUL_REGISTER (Str ""))
  /\ users (db (v_srv (visit POST_login
                         (Samples.step_two "secret" "secret" (Some Samples.carol_cookie))
                         "salt" Examples.server0)))
     = <[3 := {| u_firstName := "Carol"; u_lastName := "Danvers";
                 u_email := "carol@example.org";
                 u_password := bcrypt.hash "secret" 10 "salt" |}]>
         (users (db Examples.server0)).
Proof.
  assert (Hout : ~ signed_in Examples.server0
                   (Samples.step_two "secret" "secret" (Some Samples.carol_cookie)))
    by (apply carol_is_out; reflexivity).
  split; [exact Hout|]. split; [exact carol_is_new|].
  destruct carol_is_valid as (Hf1 & Hf2 & Hl1 & Hl2 & He).
  destruct (second_step_creates_the_user
              (Samples.step_two "secret" "secret" (Some Samples.carol_cookie)) "salt"
              "secret" "carol@example.org" "Carol" "Danvers" Examples.server0
              Hout eq_refl eq_refl eq_refl Hf1 Hf2 Hl1 Hl2 He carol_is_new)
    as (Hreply & _ & _ & Husers & _).
  split; [exact Hreply | exact Husers].
Defined.

Lemma registration_is_completed_within_30_seconds_witness :
  visit POST_login (Samples.step_two "secret" "secret" None) "salt"
    (v_srv (visit POST_users_register_password Samples.step_one "salt" Examples.server0))
  = {| v_srv := Examples.server0;
       v_reply := Some (register_page (MessageOf ValidationError));
       v_cookies := []; v_cleared := [] |}.
Proof.
  apply (proj1 (registration_is_completed_within_30_seconds Samples.step_one
                  (Samples.step_two "secret" "secret" None) "salt" "salt"
                  "carol@example.org" Examples.server0 1717200000000 1717200031000
                  (carol_is_out Samples.step_one eq_refl)
                  (carol_is_out (Samples.step_two "secret" "secret" None) eq_refl)
                  eq_refl carol_is_new carol_email_shape
                  (proj1 (nameRegex_spec (Some "Carol")) eq_refl)
                  (proj1 (nameRegex_spec (Some "Danvers")) eq_refl)
                  eq_refl eq_refl)).
  reflexivity.
Defined.

Lemma short_name_passes_the_first_step_and_fails_the_second_witness :
  word_of Register.letter "Al"
  /\ v_reply (visit POST_users_register_password Samples.short_step_one "salt"
                Examples.server0)
     = Some (password_page consts.DEFAULT_REGISTER_MESSAGE (Str ""))
  /\ visit POST_login Samples.short_step_two "salt"
       (v_srv (visit POST_users_register_password Samples.short_step_one "salt"
                 Examples.server0))
     = {| v_srv := Examples.server0;
          v_reply := Some (register_page (MessageOf ValidationError));
          v_cookies := []; v_cleared := [] |}.
Proof.
  assert (Hword : word_of Register.letter "Al") by (split; [discriminate | reflexivity]).
  assert (Hout : forall req, form_sessionID req = "sid-al" ->
                             ~ signed_in Examples.server0 req).
  { unfold signed_in, form_session. intros req -> Hin. vm_compute in Hin. discriminate. }
  split; [exact Hword|].
  apply (short_name_passes_the_first_step_and_fails_the_second Samples.short_step_one
           Samples.short_step_two "salt" "salt" "al@example.org" "Al" Examples.server0
           1717200000000 1717200010000 (Hout Samples.short_step_one eq_refl)
           (Hout Samples.short_step_two eq_refl) eq_refl);
    [ vm_compute; reflexivity
    | apply (emailRegex_spec (Some "al@example.org")); vm_compute; reflexivity
    | reflexivity
    | exact Hword
    | cbn; lia
    | apply (nameRegex_spec (Some "Bundy")); vm_compute; reflexivity
    | reflexivity
    | reflexivity
    | reflexivity ].
Defined.

Lemma failed_login_tells_nothing_about_the_account_witness :
  visit POST_main (Samples.login "sid-carol" "carol@example.org" "secret") "salt"
    Examples.server0
  = {| v_srv := Examples.server0;
       v_reply := Some (login_page "" (Str consts.ERROR_INVALID_USER));
       v_cookies := []; v_cleared := [] |}
  /\ visit POST_main (Samples.login "sid-carol" "alice@example.org" "secret") "salt"
       Examples.server0
     = {| v_srv := Examples.server0;
          v_reply := Some (login_page "" (Str consts.ERROR_INVALID_USER));
          v_cookies := []; v_cleared := [] |}.
Proof.
  split.
  - apply (proj1 (failed_login_tells_nothing_about_the_account
                    (Samples.login "sid-carol" "carol@example.org" "secret") "salt"
                    Examples.server0
                    (carol_is_out (Samples.login "sid-carol" "carol@example.org" "secret")
                       eq_refl))
             "carol@example.org" "secret" eq_refl eq_refl);
      [discriminate | discriminate | left; exact carol_is_new].
  - apply (proj1 (failed_login_tells_nothing_about_the_account
                    (Samples.login "sid-carol" "alice@example.org" "secret") "salt"
                    Examples.server0
                    (carol_is_out (Samples.login "sid-carol" "alice@example.org" "secret")
                       eq_refl))
             "alice@example.org" "secret" eq_refl eq_refl);
      [discriminate | discriminate |].
    right. exists (1, Examples.alice). split; vm_compute; reflexivity.
Defined.

Lemma login_signs_the_session_in_witness :
  UserModel.findOne "alice@example.org" (db Examples.server0) = Some (1, Examples.alice)
  /\ v_reply (visit POST_main
                (Samples.login "sid-carol" "alice@example.org" "$2b$10$hash") "salt"
                Examples.server0)
     = Some (main_page (Str "Alice Liddell"))
  /\ signed_in
       (v_srv (visit POST_main
                 (Samples.login "sid-carol" "alice@example.org" "$2b$10$hash") "salt"
                 Examples.server0))
       (Samples.login "sid-carol" "alice@example.org" "$2b$10$hash").
Proof.
  assert (Hfind : UserModel.findOne "alice@example.org" (db Examples.server0)
                  = Some (1, Examples.alice)) by (vm_compute; reflexivity).
  split; [exact Hfind|].
  assert (He : "alice@example.org" <> "") by discriminate.
  assert (Hp : "$2b$10$hash" <> "") by discriminate.
  assert (Hid : 1 <> 0) by discriminate.
  assert (Hcompare : bcrypt.compare "$2b$10$hash" (u_password Examples.alice) = true)
    by (vm_compute; reflexivity).
  destruct (login_signs_the_session_in
              (Samples.login "sid-carol" "alice@example.org" "$2b$10$hash") "salt"
              "alice@example.org" "$2b$10$hash" Examples.server0 1 Examples.alice
              (carol_is_out (Samples.login "sid-carol" "alice@example.org" "$2b$10$hash")
                 eq_refl)
              eq_refl eq_refl Hfind Hcompare)
    as [Hsigned _].
  destruct (Hsigned He Hp) as (Hreply & _ & _ & _ & _ & _ & Hin & _).
  split; [exact Hreply | exact (proj2 (Hin Hid))].
Defined.

Lemma registered_user_can_sign_in_witness :
  v_reply (visit POST_main (Samples.login "sid-carol" "carol@example.org" "secret") "pepper"
             (v_srv (visit POST_login
                       (Samples.step_two "secret" "secret" (Some Samples.carol_cookie))
                       "salt" Examples.server0)))
  = Some (main_page (Str "Carol Danvers"))
  /\ userId (form_session
               (v_srv (visit POST_main
                         (Samples.login "sid-carol" "carol@example.org" "secret") "pepper"
                         (v_srv (visit POST_login
                                   (Samples.step_two "secret" "secret"
                                      (Some Samples.carol_cookie))
                                   "salt" Examples.server0))))
               (Samples.login "sid-carol" "carol@example.org" "secret"))
     = Some 3.
Proof.
  assert (Hp : "secret" <> "") by discriminate.
  destruct carol_is_valid as (Hf1 & Hf2 & Hl1 & Hl2 & Hemail).
  destruct (registered_user_can_sign_in
              (Samples.step_two "secret" "secret" (Some Samples.carol_cookie))
              (Samples.login "sid-carol" "carol@example.org" "secret") "salt" "pepper"
              "secret" "carol@example.org" "Carol" "Danvers" Examples.server0
              (carol_is_out (Samples.step_two "secret" "secret" (Some Samples.carol_cookie))
                 eq_refl)
              eq_refl eq_refl eq_refl Hf1 Hf2 Hl1 Hl2 Hemail carol_is_new
              (carol_is_out (Samples.login "sid-carol" "carol@example.org" "secret") eq_refl)
              eq_refl eq_refl)
    as (_ & Hsigned & _).
  destruct (Hsigned Hp) as (Hreply & Hid & _).
  split; [exact Hreply | exact Hid].
Defined.

Lemma emails_stay_distinct_witness :
  emails_distinct (db Examples.server0)
  /\ emails_distinct
       (db (v_srv (visit POST_login
                     (Samples.step_two "secret" "secret" (Some Samples.carol_cookie))
                     "salt" Examples.server0))).
Proof.
  assert (Hdistinct : emails_distinct (db Examples.server0)).
  { intros i j a b Ha Hb Hsame. cbn [db users Examples.server0] in Ha, Hb.
    apply lookup_insert_Some in Ha as [[<- <-]|[Hi Ha]];
      apply lookup_insert_Some in Hb as [[<- <-]|[Hj Hb]]; [reflexivity| | |].
    - apply lookup_singleton_Some in Hb as [<- <-]. vm_compute in Hsame. discriminate.
    - apply lookup_singleton_Some in Ha as [<- <-]. vm_compute in Hsame. discriminate.
    - apply lookup_singleton_Some in Ha as [<- <-].
      apply lookup_singleton_Some in Hb as [<- <-]. reflexivity. }
  split; [exact Hdistinct|].
  exact (proj1 (emails_stay_distinct Examples.server0 Hdistinct) POST_login
           (Samples.step_two "secret" "secret" (Some Samples.carol_cookie)) "salt").
Defined.

End MoreExamples.
